(** * The task-instance lifecycle of airflow-core, embedded in Rocq

    A shallow embedding of the parts of
    [airflow-core/src/airflow/models/taskinstance.py] that decide the
    retry policy, the state transition guard, failure handling, result
    propagation and mapped-index resolution, and of those that clear,
    reschedule and defer task instances, build the command line of a task
    run and build filters on the task instance table, followed by
    theorems about them.

    Conventions of the embedding:
    - a [datetime] is a number of microseconds since the Unix epoch and a
      [timedelta] a number of microseconds, both in [Z]; the range checks
      of the Python types are written out where the code constructs one;
    - a Python [float] is an IEEE-754 binary64 value ([spec_float] of the
      Standard Library, precision 53, exponent bound 1024);
    - a raised exception is the [Raise] case of [Result];
    - the database session is an explicit [Session] value threaded
      through the functions that take [session]; logging and [Stats]
      metrics are not modelled. *)

From Stdlib Require Import ZArith Lia Bool List String.
From Stdlib Require Import SpecFloat.
From stdpp Require Import base option gmap strings list pretty.

Open Scope Z_scope.

(** ** Exceptions and results *)

(** The two messages [_execute_task] raises [AirflowException] with when
    [multiple_outputs] is set, the one it raises for a mapped operator,
    and the message built in [_run_raw_task] for [SystemExit]. *)
Inductive AirflowMessage :=
  | ExpectedDictForMultipleOutputs
  | KeysMustBeStrings
  | MappedOperatorCannotBeExecuted
  | TaskFailedDueToSystemExit
  | OtherMessage (msg : string).

Inductive Exn :=
  | TypeError
  | AttributeError
  | ValueError
  | KeyError
  | OverflowError
  | ZeroDivisionError
  | SystemExit (code : option Z)
  | OtherBaseException (name : string)
  | TaskDeferred
  | AirflowSkipException
  | AirflowRescheduleException
  | AirflowFailException
  | AirflowSensorTimeout
  | AirflowTaskTimeout
  | AirflowTaskTerminated
  | AirflowException (msg : AirflowMessage)
  | XComForMappingNotPushed
  | UnmappableXComTypePushed
  | UnmappableXComLengthPushed.

Inductive Result (A : Type) :=
  | OK (a : A)
  | Raise (e : Exn).

Arguments OK {A} a.
Arguments Raise {A} e.

Definition rbind {A B : Type} (m : Result A) (k : A -> Result B) : Result B :=
  match m with
  | OK a => k a
  | Raise e => Raise e
  end.

#[global] Instance Result_bind : MBind Result := fun A B k m => rbind m k.
#[global] Instance Result_ret : MRet Result := fun A a => OK a.

(** ** Time *)

Definition datetime := Z.
Definition timedelta := Z.

Definition MICROSECONDS : Z := 1000000.

(** [timedelta.min] and [timedelta.max]: 999999999 days either way. *)
Definition TIMEDELTA_MIN : Z := - 999999999 * 86400 * MICROSECONDS.
Definition TIMEDELTA_MAX : Z := (999999999 * 86400 + 86399) * MICROSECONDS + 999999.

(** [datetime.min] (0001-01-01) and [datetime.max] (9999-12-31
    23:59:59.999999), in microseconds since 1970-01-01. *)
Definition DATETIME_MIN : Z := - 62135596800 * MICROSECONDS.
Definition DATETIME_MAX : Z := 253402300799 * MICROSECONDS + 999999.

(** [timedelta(seconds=s)] for an integer [s]. *)
Definition timedelta_of_seconds (s : Z) : Result timedelta :=
  let us := s * MICROSECONDS in
  if (TIMEDELTA_MIN <=? us) && (us <=? TIMEDELTA_MAX) then OK us else Raise OverflowError.

(** [d + delta] for a datetime [d]. *)
Definition datetime_add (d : datetime) (delta : timedelta) : Result datetime :=
  let r := d + delta in
  if (DATETIME_MIN <=? r) && (r <=? DATETIME_MAX) then OK r else Raise OverflowError.

(** [a - b] for two datetimes; the difference of two datetimes in range
    is always a representable timedelta. *)
Definition datetime_sub (a b : datetime) : timedelta := a - b.

(** ** Floating point *)

Definition prec : Z := 53.
Definition emax : Z := 1024.

(** [timedelta.total_seconds()]: the microsecond count divided by
    [10**6] as Python divides two integers, that is, the correctly
    rounded quotient.  (No timedelta is large enough for the quotient to
    leave the range of a float.) *)
Definition total_seconds (td : timedelta) : spec_float :=
  match td with
  | Z0 => S754_zero false
  | _ =>
      let '(q, e, l) := SFdiv_core_binary prec emax (Z.abs td) 0 MICROSECONDS 0 in
      binary_round_aux prec emax (td <? 0) q e l
  end.

(** Conversion of a Python integer to a float, as done when an integer
    meets a float in arithmetic; too large an integer is an
    [OverflowError]. *)
Definition int_to_float (z : Z) : Result spec_float :=
  match binary_normalize prec emax z 0 false with
  | S754_infinity _ => Raise OverflowError
  | f => OK f
  end.

Inductive PyNumber :=
  | PyInt (z : Z)
  | PyFloat (f : spec_float).

(** [2 ** e] for an integer [e]: an integer when [e] is not negative, a
    float otherwise. *)
Definition pow2 (e : Z) : PyNumber :=
  if 0 <=? e then PyInt (2 ^ e) else PyFloat (binary_normalize prec emax 1 e false).

(** [x * y] for a float [x]. *)
Definition float_mul (x : spec_float) (y : PyNumber) : Result spec_float :=
  match y with
  | PyInt z => f ← int_to_float z; OK (SFmul prec emax x f)
  | PyFloat f => OK (SFmul prec emax x f)
  end.

(** [math.ceil(x)]. *)
Definition math_ceil (x : spec_float) : Result Z :=
  match x with
  | S754_nan => Raise ValueError
  | S754_infinity _ => Raise OverflowError
  | S754_zero _ => OK 0
  | S754_finite s m e =>
      let v := if s then Zneg m else Zpos m in
      OK (if 0 <=? e then v * 2 ^ e else - ((- v) / 2 ^ (- e)))
  end.

(** ** States *)

(** Modelled from the spec: the [TaskInstanceState] enumeration of
    [airflow.utils.state], which is not under src/; the members are the
    states section 4.1 of the specification lists.  The state [none] is
    [None] in a [state] field. *)
Inductive TaskInstanceState :=
  | REMOVED
  | SCHEDULED
  | QUEUED
  | RUNNING
  | SUCCESS
  | RESTARTING
  | FAILED
  | UP_FOR_RETRY
  | UP_FOR_RESCHEDULE
  | SKIPPED
  | DEFERRED.

#[global] Instance TaskInstanceState_eq_dec : EqDecision TaskInstanceState.
Proof. solve_decision. Defined.

(** [a == b] on two states, one of which may be [None]. *)
Definition state_eqb (a b : option TaskInstanceState) : bool := bool_decide (a = b).

(** Modelled from the spec: [State.finished] of [airflow.utils.state],
    not under src/; section 4.1: removed, success, failed and skipped are
    terminal for the current try. *)
Definition State_finished (s : option TaskInstanceState) : bool :=
  match s with
  | Some SUCCESS | Some FAILED | Some SKIPPED | Some REMOVED => true
  | _ => false
  end.

(** ** Operators, task groups and DAGs *)

(** An optional reference to a task group: [NoGroup] is [None];
    [Group gid mapped parent] is a group whose [group_id] is [gid] (the
    root group of a DAG has none), which is a [MappedTaskGroup] when
    [mapped] holds, and whose [parent_group] is [parent]. *)
Inductive TaskGroup :=
  | NoGroup
  | Group (gid : option string) (mapped : bool) (parent : TaskGroup).

Definition group_id (g : TaskGroup) : option string :=
  match g with
  | NoGroup => None
  | Group i _ _ => i
  end.

(** An entry of [dag.task_dict], with the one attribute
    [_stop_remaining_tasks] reads from it. *)
Record DagTask := mkDagTask {
  is_teardown : bool
}.

Record DAG := mkDAG {
  dag_dag_id : string;
  fail_fast : bool;
  task_dict : gmap string DagTask
}.

(** The attributes of an operator the embedded functions read.
    [is_mapped_operator] is [isinstance(task, MappedOperator)];
    [has_mapped_dependants] says that [task.iter_mapped_dependants()]
    yields something; [weight] is the value of
    [weight_rule.get_weight(ti)], [None] when that call raises;
    [on_kill] is the exception the cleanup hook raises, [None] when it
    returns; [unmap_raises] says that [task.unmap(...)] raises (the
    unmapped task is otherwise read through the same attributes). *)
Record Operator := mkOperator {
  op_task_id : string;
  dag : option DAG;
  task_group : TaskGroup;
  is_mapped_operator : bool;
  has_mapped_dependants : bool;
  retries : Z;
  retry_delay : timedelta;
  retry_exponential_backoff : bool;
  max_retry_delay : option timedelta;
  execution_timeout : option timedelta;
  do_xcom_push : bool;
  multiple_outputs : bool;
  deps : gset string;
  op_queue : option string;
  op_pool : string;
  op_pool_slots : Z;
  weight : option Z;
  op_run_as_user : option string;
  op_executor : option string;
  op_executor_config : string;
  task_type : string;
  op_custom_operator_name : option string;
  email : bool;
  email_on_failure : bool;
  email_on_retry : bool;
  on_failure_callback : list string;
  on_retry_callback : list string;
  on_kill : option Exn;
  unmap_raises : bool
}.

(** ** Task instances *)

(** The run a task instance belongs to, with the attribute read through
    the [logical_date] association proxy. *)
Record DagRun := mkDagRun {
  dr_logical_date : option datetime
}.

Definition TIKey : Type := string * string * string * Z.

(** A [TaskInstance] object.  The fields down to [other_columns] are the
    mapped columns of the [task_instance] table ([other_columns] holds the
    columns no embedded function reads or writes); [task], [test_mode],
    [run_as_user] and [dag_run] are plain attributes of the object that
    are not persisted. *)
Record TaskInstance := mkTaskInstance {
  task_id : string;
  dag_id : string;
  run_id : string;
  map_index : Z;
  start_date : option datetime;
  end_date : option datetime;
  duration : option spec_float;
  state : option TaskInstanceState;
  try_id : N;
  try_number : Z;
  max_tries : Z;
  hostname : option string;
  pool : string;
  pool_slots : Z;
  queue : option string;
  priority_weight : option Z;
  operator : option string;
  custom_operator_name : option string;
  queued_dttm : option datetime;
  scheduled_dttm : option datetime;
  pid : option Z;
  executor : option string;
  executor_config : string;
  updated_at : option datetime;
  external_executor_id : option string;
  next_method : option string;
  next_kwargs : option (list (string * string));
  other_columns : list (string * string);
  task : option Operator;
  test_mode : bool;
  run_as_user : option string;
  dag_run : option DagRun
}.

Definition ti_key (ti : TaskInstance) : TIKey :=
  (dag_id ti, task_id ti, run_id ti, map_index ti).

(** [ti.logical_date], read through [dag_run]. *)
Definition logical_date (ti : TaskInstance) : option datetime :=
  dr ← dag_run ti; dr_logical_date dr.

(** The object rebuilt from its own attributes; the assignments below are
    obtained from it by replacing one attribute. *)
Definition eta_ti (ti : TaskInstance) : TaskInstance :=
  mkTaskInstance (task_id ti) (dag_id ti) (run_id ti) (map_index ti)
    (start_date ti) (end_date ti) (duration ti) (state ti) (try_id ti)
    (try_number ti) (max_tries ti) (hostname ti) (pool ti) (pool_slots ti)
    (queue ti) (priority_weight ti) (operator ti) (custom_operator_name ti)
    (queued_dttm ti) (scheduled_dttm ti) (pid ti) (executor ti) (executor_config ti)
    (updated_at ti) (external_executor_id ti) (next_method ti)
    (next_kwargs ti) (other_columns ti) (task ti) (test_mode ti)
    (run_as_user ti) (dag_run ti).

(** [assign proj v ti] builds the term for [ti.proj = v]: [eta_ti ti]
    with [proj ti] replaced by [v]. *)
Ltac assign proj v ti :=
  let e := eval cbv beta delta [eta_ti] in (eta_ti ti) in
  let p := constr:(proj ti) in
  lazymatch eval pattern p in e with
  | ?F _ => let t := eval cbv beta in (F v) in exact t
  end.

Definition set_start_date (v : option datetime) (ti : TaskInstance) : TaskInstance :=
  ltac:(assign start_date v ti).
Definition set_end_date (v : option datetime) (ti : TaskInstance) : TaskInstance :=
  ltac:(assign end_date v ti).
Definition set_duration_field (v : option spec_float) (ti : TaskInstance) : TaskInstance :=
  ltac:(assign duration v ti).
Definition set_state_field (v : option TaskInstanceState) (ti : TaskInstance) : TaskInstance :=
  ltac:(assign state v ti).
Definition set_try_id (v : N) (ti : TaskInstance) : TaskInstance :=
  ltac:(assign try_id v ti).
Definition set_hostname (v : option string) (ti : TaskInstance) : TaskInstance :=
  ltac:(assign hostname v ti).
Definition set_pool (v : string) (ti : TaskInstance) : TaskInstance :=
  ltac:(assign pool v ti).
Definition set_pool_slots (v : Z) (ti : TaskInstance) : TaskInstance :=
  ltac:(assign pool_slots v ti).
Definition set_queue (v : option string) (ti : TaskInstance) : TaskInstance :=
  ltac:(assign queue v ti).
Definition set_priority_weight (v : option Z) (ti : TaskInstance) : TaskInstance :=
  ltac:(assign priority_weight v ti).
Definition set_operator (v : option string) (ti : TaskInstance) : TaskInstance :=
  ltac:(assign operator v ti).
Definition set_custom_operator_name (v : option string) (ti : TaskInstance) : TaskInstance :=
  ltac:(assign custom_operator_name v ti).
Definition set_queued_dttm (v : option datetime) (ti : TaskInstance) : TaskInstance :=
  ltac:(assign queued_dttm v ti).
Definition set_pid (v : option Z) (ti : TaskInstance) : TaskInstance :=
  ltac:(assign pid v ti).
Definition set_executor (v : option string) (ti : TaskInstance) : TaskInstance :=
  ltac:(assign executor v ti).
Definition set_executor_config (v : string) (ti : TaskInstance) : TaskInstance :=
  ltac:(assign executor_config v ti).
Definition set_updated_at (v : option datetime) (ti : TaskInstance) : TaskInstance :=
  ltac:(assign updated_at v ti).
Definition set_external_executor_id (v : option string) (ti : TaskInstance) : TaskInstance :=
  ltac:(assign external_executor_id v ti).
Definition set_next_method (v : option string) (ti : TaskInstance) : TaskInstance :=
  ltac:(assign next_method v ti).
Definition set_next_kwargs (v : option (list (string * string))) (ti : TaskInstance) : TaskInstance :=
  ltac:(assign next_kwargs v ti).
Definition set_task (v : option Operator) (ti : TaskInstance) : TaskInstance :=
  ltac:(assign task v ti).
Definition set_test_mode (v : bool) (ti : TaskInstance) : TaskInstance :=
  ltac:(assign test_mode v ti).
Definition set_run_as_user (v : option string) (ti : TaskInstance) : TaskInstance :=
  ltac:(assign run_as_user v ti).
Definition set_dag_run (v : option DagRun) (ti : TaskInstance) : TaskInstance :=
  ltac:(assign dag_run v ti).

(** ** Retry policy *)

Section RetryPolicy.

(** [MAX_RETRY_DELAY] of [airflow.sdk.definitions._internal.abstractoperator],
    a number of seconds read from the configuration. *)
Variable MAX_RETRY_DELAY : Z.

(** [int(hashlib.sha1(s.encode(), usedforsecurity=False).hexdigest(), 16)]. *)
Variable sha1_int : string -> N.

(** The text an f-string renders [self.logical_date] as. *)
Variable str_datetime : option datetime -> string.

(** The string hashed for the jitter:
    [f"{dag_id}#{task_id}#{logical_date}#{try_number}"]. *)
Definition ti_hash_input (ti : TaskInstance) : string :=
  dag_id ti +:+ "#" +:+ task_id ti +:+ "#" +:+ str_datetime (logical_date ti)
    +:+ "#" +:+ pretty (try_number ti).

(** [math.ceil(delay.total_seconds() * (2 ** (try_number - 1)))]. *)
Definition ceil_scaled (delay : timedelta) (n : Z) : Result Z :=
  scaled ← float_mul (total_seconds delay) (pow2 (n - 1));
  math_ceil scaled.

(** The delay computed under [if self.task.retry_exponential_backoff:],
    up to and including the cap by [max_retry_delay]. *)
Definition backoff_delay (t : Operator) (ti : TaskInstance) : Result timedelta :=
  c ← ceil_scaled (retry_delay t) (try_number ti);
  let min_backoff := if c <? 1 then 1 else c in
  let ti_hash := Z.of_N (sha1_int (ti_hash_input ti)) in
  let modded_hash := min_backoff + ti_hash `mod` min_backoff in
  let delay_backoff_in_seconds := Z.min modded_hash MAX_RETRY_DELAY in
  delay ← timedelta_of_seconds delay_backoff_in_seconds;
  match max_retry_delay t with
  | Some m => if m =? 0 then OK delay else OK (Z.min m delay)
  | None => OK delay
  end.

(** The value of [delay] when [next_retry_datetime] reaches its
    [return]. *)
Definition retry_delay_of (t : Operator) (ti : TaskInstance) : Result timedelta :=
  if retry_exponential_backoff t then backoff_delay t ti else OK (retry_delay t).

Definition next_retry_datetime (ti : TaskInstance) : Result datetime :=
  match task ti with
  | None => Raise AttributeError
  | Some t =>
      delay ← retry_delay_of t ti;
      match end_date ti with
      | None => Raise TypeError
      | Some e => datetime_add e delay
      end
  end.

(** [now] is the value of [timezone.utcnow()]. *)
Definition ready_for_retry (ti : TaskInstance) (now : datetime) : Result bool :=
  if state_eqb (state ti) (Some UP_FOR_RETRY)
  then t ← next_retry_datetime ti; OK (t <? now)
  else OK false.

Definition is_premature (ti : TaskInstance) (now : datetime) : Result bool :=
  if state_eqb (state ti) (Some UP_FOR_RETRY)
  then r ← ready_for_retry ti now; OK (negb r)
  else OK false.

End RetryPolicy.

(** The truth value of what [_is_eligible_to_retry] returns (its last
    [return] gives [task.retries] itself when that is 0). *)
Definition _is_eligible_to_retry (task_instance : TaskInstance) : bool :=
  if state_eqb (state task_instance) (Some RESTARTING) then true
  else
    match task task_instance with
    | None => try_number task_instance <=? max_tries task_instance
    | Some t =>
        negb (retries t =? 0) && (try_number task_instance <=? max_tries task_instance)
    end.

Definition is_eligible_to_retry (self : TaskInstance) : bool :=
  _is_eligible_to_retry self.

(** ** Mapped-index resolution *)

(** What [get_relevant_upstream_map_indexes] returns: [None], an [int]
    or a [range]. *)
Inductive MapIndexes :=
  | WholeValue
  | SingleIndex (i : Z)
  | IndexRange (start stop : Z).

(** Modelled from the spec: [iter_mapped_task_groups] of the task SDK,
    not under src/: the mapped task groups around a node, the innermost
    first, found by following [parent_group]. *)
Fixpoint mapped_groups_from (g : TaskGroup) : list TaskGroup :=
  match g with
  | NoGroup => []
  | Group i m p => if m then g :: mapped_groups_from p else mapped_groups_from p
  end.

Definition iter_mapped_task_groups (node : Operator) : list TaskGroup :=
  mapped_groups_from (task_group node).

Definition _find_common_ancestor_mapped_group (node1 node2 : Operator) : option TaskGroup :=
  match dag node1, dag node2 with
  | Some d1, Some d2 =>
      if negb (String.eqb (dag_dag_id d1) (dag_dag_id d2)) then None
      else
        let parent_group_ids := group_id <$> iter_mapped_task_groups node1 in
        let common_groups :=
          filter (fun g => group_id g ∈ parent_group_ids) (iter_mapped_task_groups node2) in
        head common_groups
  | _, _ => None
  end.

(** The [while] loop of [_is_further_mapped_inside], from [task_group]
    outwards. *)
Fixpoint further_mapped_from (task_group : TaskGroup) (container : TaskGroup) : bool :=
  match task_group with
  | NoGroup => false
  | Group i m p =>
      if bool_decide (i = group_id container) then false
      else if m then true
      else further_mapped_from p container
  end.

Definition _is_further_mapped_inside (operator : Operator) (container : TaskGroup) : bool :=
  if is_mapped_operator operator then true
  else further_mapped_from (task_group operator) container.

Section MappedIndexes.

(** [BaseOperator.get_mapped_ti_count(group, run_id, session=session)]. *)
Variable get_mapped_ti_count : TaskGroup -> string -> Result Z.

(** [a // b] on Python integers. *)
Definition floordiv (a b : Z) : Result Z :=
  if b =? 0 then Raise ZeroDivisionError else OK (a / b).

Definition get_relevant_upstream_map_indexes
    (self : TaskInstance) (upstream : Operator) (ti_count : option Z) : Result MapIndexes :=
  match ti_count with
  | None | Some 0 => OK WholeValue
  | Some ti_count =>
      match task self with
      | None => Raise AttributeError
      | Some self_task =>
          match _find_common_ancestor_mapped_group self_task upstream with
          | None => OK WholeValue
          | Some common_ancestor =>
              ancestor_ti_count ← get_mapped_ti_count common_ancestor (run_id self);
              ancestor_map_index ← floordiv (map_index self * ancestor_ti_count) ti_count;
              if negb (_is_further_mapped_inside upstream common_ancestor)
              then OK (SingleIndex ancestor_map_index)
              else
                further_count ← floordiv ti_count ancestor_ti_count;
                let map_index_start := ancestor_map_index * further_count in
                OK (IndexRange map_index_start (map_index_start + further_count))
          end
      end
  end.

End MappedIndexes.

(** ** The session and the outside world *)

(** The values a task returns and pushes as XCom, as far as the checks of
    the embedded functions tell them apart. *)
#[warnings="-register-all"] Inductive PyValue :=
  | VNone
  | VInt (z : Z)
  | VStr (s : string)
  | VList (items : list PyValue)
  | VDict (items : list (PyValue * PyValue)).

(** The user code and hooks the embedded functions call, as a trace. *)
Inductive Event :=
  | EmailAlert (ti : TIKey)
  | FinishedCallbacks (callbacks : list string)
  | ListenerTaskInstanceFailed (ti : TIKey)
  | OnKill.

(** The state outside the task instance object: the tables written
    through [session] ([rows] is the [task_instance] table, [log_rows] the
    audit log, [history] the task instance history, [xcoms] the result
    store, [task_maps] the task map table), the trace of [events], the
    successive values [clock 0], [clock 1], ... of [timezone.utcnow()]
    with the number [ticks] of readings so far, and the next value of
    [uuid7()].

    A row is written where the code calls [session.merge]: the task
    instance object is taken to be detached from the session, so that
    assigning to its attributes alone writes nothing.  Transactions are
    not modelled: [session.flush()] and [session.commit()] do nothing
    more. *)
Record World := mkWorld {
  rows : gmap TIKey TaskInstance;
  log_rows : list (string * TIKey);
  history : list TaskInstance;
  xcoms : list (TIKey * string * PyValue);
  task_maps : list (TIKey * Z);
  events : list Event;
  clock : nat -> datetime;
  ticks : nat;
  next_uuid : N
}.

Definition with_rows (v : gmap TIKey TaskInstance) (w : World) : World :=
  mkWorld v (log_rows w) (history w) (xcoms w) (task_maps w) (events w)
    (clock w) (ticks w) (next_uuid w).
Definition with_log_rows (v : list (string * TIKey)) (w : World) : World :=
  mkWorld (rows w) v (history w) (xcoms w) (task_maps w) (events w)
    (clock w) (ticks w) (next_uuid w).
Definition with_history (v : list TaskInstance) (w : World) : World :=
  mkWorld (rows w) (log_rows w) v (xcoms w) (task_maps w) (events w)
    (clock w) (ticks w) (next_uuid w).
Definition with_xcoms (v : list (TIKey * string * PyValue)) (w : World) : World :=
  mkWorld (rows w) (log_rows w) (history w) v (task_maps w) (events w)
    (clock w) (ticks w) (next_uuid w).
Definition with_task_maps (v : list (TIKey * Z)) (w : World) : World :=
  mkWorld (rows w) (log_rows w) (history w) (xcoms w) v (events w)
    (clock w) (ticks w) (next_uuid w).
Definition with_events (v : list Event) (w : World) : World :=
  mkWorld (rows w) (log_rows w) (history w) (xcoms w) (task_maps w) v
    (clock w) (ticks w) (next_uuid w).
Definition with_ticks (v : nat) (w : World) : World :=
  mkWorld (rows w) (log_rows w) (history w) (xcoms w) (task_maps w) (events w)
    (clock w) v (next_uuid w).
Definition with_next_uuid (v : N) (w : World) : World :=
  mkWorld (rows w) (log_rows w) (history w) (xcoms w) (task_maps w) (events w)
    (clock w) (ticks w) v.

(** A computation that reads and writes the world and returns a value or
    raises; what was written before an exception stays written. *)
Definition M (A : Type) : Type := World -> Result A * World.

#[global] Instance M_bind : MBind M := fun A B k m w =>
  match m w with
  | (OK a, w') => k a w'
  | (Raise e, w') => (Raise e, w')
  end.
#[global] Instance M_ret : MRet M := fun A a w => (OK a, w).

Definition raise {A : Type} (e : Exn) : M A := fun w => (Raise e, w).

(** A pure computation that may raise, run inside [M]. *)
Definition lift {A : Type} (r : Result A) : M A := fun w => (r, w).

(** A value read from the world. *)
Definition reads {A : Type} (f : World -> A) : M A := fun w => (OK (f w), w).

(** [for x in l: body(x)]. *)
Fixpoint for_each {A : Type} (body : A -> M unit) (l : list A) : M unit :=
  match l with
  | [] => mret tt
  | x :: l' => body x;; for_each body l'
  end.

(** [timezone.utcnow()]. *)
Definition utcnow : M datetime :=
  fun w => (OK (clock w (ticks w)), with_ticks (S (ticks w)) w).

Definition uuid7 : M N :=
  fun w => (OK (next_uuid w), with_next_uuid (N.succ (next_uuid w)) w).

Definition emit (e : Event) : M unit :=
  fun w => (OK tt, with_events (events w ++ [e]) w).

(** The columns of [ti] as a row: the attributes that are not persisted
    are blank in a stored row. *)
Definition row_of (ti : TaskInstance) : TaskInstance :=
  set_task None (set_test_mode false (set_run_as_user None (set_dag_run None ti))).

(** The object [self] with its columns replaced by those of [source]. *)
Definition with_columns_of (source self : TaskInstance) : TaskInstance :=
  set_task (task self) (set_test_mode (test_mode self)
    (set_run_as_user (run_as_user self) (set_dag_run (dag_run self) source))).

(** [session.merge(ti)]. *)
Definition session_merge (ti : TaskInstance) : M unit :=
  fun w => (OK tt, with_rows (<[ti_key ti := row_of ti]> (rows w)) w).

(** [session.add(Log(event, ti))]. *)
Definition session_add_log (event : string) (ti : TaskInstance) : M unit :=
  fun w => (OK tt, with_log_rows (log_rows w ++ [(event, ti_key ti)]) w).

(** [TaskInstanceHistory.record_ti(ti, session)]. *)
Definition record_ti (ti : TaskInstance) : M unit :=
  fun w => (OK tt, with_history (history w ++ [row_of ti]) w).

Definition get_task_instance (key : TIKey) : M (option TaskInstance) :=
  reads (fun w => rows w !! key).

(** [refresh_from_db] with [keep_local_changes=False]; taking the row
    lock ([lock_for_update]) has no effect in a single session. *)
Definition refresh_from_db (self : TaskInstance) : M TaskInstance :=
  source ← get_task_instance (ti_key self);
  match source with
  | Some source => mret (with_columns_of source self)
  | None => mret (set_state_field None self)
  end.

(** Modelled from the spec: [DagRun.get_task_instances], not under src/:
    the task instances of the run, the "sibling instances of the same
    run" of section 4.3. *)
Definition get_task_instances (dag_id' run_id' : string) : M (list TaskInstance) :=
  reads (fun w =>
    filter (fun r => dag_id r = dag_id' /\ run_id r = run_id') (snd <$> map_to_list (rows w))).

(** Every row of the [task_instance] table is stored under its own
    key. *)
Definition stored_under_key (w : World) : Prop :=
  forall k r, rows w !! k = Some r -> ti_key r = k.

Definition save_to_db (ti : TaskInstance) : M TaskInstance :=
  now ← utcnow;
  let ti := set_updated_at (Some now) ti in
  session_merge ti;;
  mret ti.

Definition clear_next_method_args (self : TaskInstance) : TaskInstance :=
  set_next_kwargs None (set_next_method None self).

(** [_set_duration]. *)
Definition set_duration (self : TaskInstance) : TaskInstance :=
  match end_date self, start_date self with
  | Some e, Some s => set_duration_field (Some (total_seconds (datetime_sub e s))) self
  | _, _ => set_duration_field None self
  end.

(** [TaskInstance.error]: returns the object as assigned to. *)
Definition error (self : TaskInstance) : M TaskInstance :=
  let self := set_state_field (Some FAILED) self in
  session_merge self;;
  mret self.

(** [TaskInstance._set_state] for a [ti] that is a [TaskInstance]:
    returns the value returned together with the object as assigned to. *)
Definition _set_state (ti : TaskInstance) (state' : option TaskInstanceState)
    : M (bool * TaskInstance) :=
  if state_eqb (state ti) state' then mret (false, ti)
  else
    current_time ← utcnow;
    let start_date' := default current_time (start_date ti) in
    let ti := set_start_date (Some start_date') (set_state_field state' ti) in
    let ti :=
      if State_finished (state ti) || state_eqb (state ti) (Some UP_FOR_RETRY)
      then
        let end_date' := default current_time (end_date ti) in
        set_duration_field (Some (total_seconds (datetime_sub end_date' start_date')))
          (set_end_date (Some end_date') ti)
      else ti in
    session_merge ti;;
    mret (true, ti).

Definition set_state (self : TaskInstance) (state' : option TaskInstanceState)
    : M (bool * TaskInstance) :=
  _set_state self state'.

(** ** Failure handling *)

(** The body of the [for] loop of [_stop_remaining_tasks] for one task
    instance [ti] of the run. *)
Definition stop_task (task_instance ti : TaskInstance) : M unit :=
  if String.eqb (task_id ti) (task_id task_instance)
     || state_eqb (state ti) (Some SUCCESS) || state_eqb (state ti) (Some FAILED)
  then mret tt
  else
    match task task_instance ≫= dag with
    | None => raise AttributeError
    | Some d =>
        match task_dict d !! task_id ti with
        | None => raise KeyError
        | Some task =>
            if negb (is_teardown task) then
              if state_eqb (state ti) (Some RUNNING)
              then error ti;; mret tt
              else set_state ti (Some SKIPPED);; mret tt
            else mret tt
        end
    end.

(** The condition of the [continue] in that loop: [ti] belongs to the
    failing task or is already in state success or failed. *)
Definition passed_over (task_instance ti : TaskInstance) : Prop :=
  task_id ti = task_id task_instance \/ state ti = Some SUCCESS \/ state ti = Some FAILED.

Definition _stop_remaining_tasks (task_instance : TaskInstance) : M unit :=
  match dag_run task_instance with
  | None => raise ValueError
  | Some _ =>
      tis ← get_task_instances (dag_id task_instance) (run_id task_instance);
      for_each (stop_task task_instance) tis
  end.

Inductive EmailForState :=
  | EmailOnFailure
  | EmailOnRetry.

(** The dictionary [fetch_handle_failure_context] returns; [fc_context]
    says whether its ["context"] entry is a context. *)
Record FailureContext := mkFailureContext {
  fc_ti : TaskInstance;
  fc_email_for_state : EmailForState;
  fc_task : option Operator;
  fc_callbacks : option (list string);
  fc_context : bool
}.

(** The first statements of [fetch_handle_failure_context], down to
    [ti.clear_next_method_args()]. *)
Definition record_failure (ti : TaskInstance) (test_mode : bool) : M TaskInstance :=
  ti ← (if negb test_mode then refresh_from_db ti else mret ti);
  now ← utcnow;
  let ti := set_duration (set_end_date (Some now) ti) in
  (if negb test_mode then session_add_log "failed" ti else mret tt);;
  mret (clear_next_method_args ti).

(** The statement [if force_fail or not ti.is_eligible_to_retry(): ...
    else: ...] of [fetch_handle_failure_context]; [task] is the unmapped
    task, [None] when there is none. *)
Definition fail_or_retry
    (ti : TaskInstance) (task : option Operator) (context : bool) (force_fail : bool)
    (fail_fast : bool) : M FailureContext :=
  if force_fail || negb (is_eligible_to_retry ti) then
    let ti := set_state_field (Some FAILED) ti in
    (if bool_decide (is_Some task) && fail_fast
     then _stop_remaining_tasks ti else mret tt);;
    mret (mkFailureContext ti EmailOnFailure task (on_failure_callback <$> task) context)
  else
    ti ← (if state_eqb (state ti) (Some RUNNING)
          then record_ti ti;; try_id' ← uuid7; mret (set_try_id try_id' ti)
          else mret ti);
    let ti := set_state_field (Some UP_FOR_RETRY) ti in
    mret (mkFailureContext ti EmailOnRetry task (on_retry_callback <$> task) context).

(** [context] says whether a context was passed; the template context
    built when none was passed is taken to be built without an
    exception. *)
Definition fetch_handle_failure_context
    (ti : TaskInstance) (test_mode : bool) (context : bool) (force_fail : bool)
    (fail_fast : bool) : M FailureContext :=
  ti ← record_failure ti test_mode;
  let context := context || bool_decide (is_Some (task ti)) in
  let task :=
    match task ti with
    | Some t => if context && negb (unmap_raises t) then Some t else None
    | None => None
    end in
  fc ← fail_or_retry ti task context force_fail fail_fast;
  emit (ListenerTaskInstanceFailed (ti_key (fc_ti fc)));;
  mret fc.

Definition email_for_state (e : EmailForState) (task : Operator) : bool :=
  match e with
  | EmailOnFailure => email_on_failure task
  | EmailOnRetry => email_on_retry task
  end.

(** [test_mode_arg] is [None] when the argument is left out. *)
Definition _handle_failure
    (task_instance : TaskInstance) (test_mode_arg : option bool) (context : bool)
    (force_fail : bool) (fail_fast : bool) : M TaskInstance :=
  let test_mode := default (test_mode task_instance) test_mode_arg in
  failure_context ← fetch_handle_failure_context task_instance test_mode context
                      force_fail fail_fast;
  (match fc_task failure_context with
   | Some t =>
       if email_for_state (fc_email_for_state failure_context) t && email t
       then emit (EmailAlert (ti_key task_instance))
       else mret tt
   | None => mret tt
   end);;
  (match fc_callbacks failure_context with
   | Some (c :: cs) =>
       if fc_context failure_context then emit (FinishedCallbacks (c :: cs)) else mret tt
   | _ => mret tt
   end);;
  if negb test_mode then save_to_db (fc_ti failure_context)
  else mret (fc_ti failure_context).

Definition handle_failure
    (self : TaskInstance) (test_mode : option bool) (context : bool) (force_fail : bool)
    : M TaskInstance :=
  let fail_fast :=
    match task self ≫= dag with
    | Some d => fail_fast d
    | None => false
    end in
  _handle_failure self test_mode context force_fail fail_fast.

(** The classes of exception the [except] clauses of [_run_raw_task] from
    [except (AirflowFailException, AirflowSensorTimeout)] on tell apart,
    for an exception the earlier clauses (deferral, skip, reschedule) did
    not catch. *)
Inductive FailureExn :=
  | IsAirflowFailException
  | IsAirflowSensorTimeout
  | IsAirflowTaskTimeout
  | IsAirflowException (msg : AirflowMessage)
  | IsAirflowTaskTerminated
  | IsSystemExit (code : option Z)
  | IsBaseException (name : string).

Definition exn_of (e : FailureExn) : Exn :=
  match e with
  | IsAirflowFailException => AirflowFailException
  | IsAirflowSensorTimeout => AirflowSensorTimeout
  | IsAirflowTaskTimeout => AirflowTaskTimeout
  | IsAirflowException msg => AirflowException msg
  | IsAirflowTaskTerminated => AirflowTaskTerminated
  | IsSystemExit code => SystemExit code
  | IsBaseException name => OtherBaseException name
  end.

(** The [except] clauses of [_run_raw_task] for the failure [e] raised in
    its [try] block: the value is the task instance object when the
    clause returns [None], and the exception is the one that leaves
    [_run_raw_task] otherwise.  [handle_failure] is passed the template
    context, which [_run_raw_task] has built by then. *)
Definition _run_raw_task_failed (ti : TaskInstance) (test_mode : bool) (e : FailureExn)
    : M TaskInstance :=
  match e with
  | IsAirflowFailException | IsAirflowSensorTimeout =>
      handle_failure ti (Some test_mode) true true;;
      raise (exn_of e)
  | IsAirflowTaskTimeout | IsAirflowException _ | IsAirflowTaskTerminated =>
      ti ← (if negb test_mode then refresh_from_db ti else mret ti);
      if State_finished (state ti) then
        let ti := clear_next_method_args ti in
        save_to_db ti
      else
        handle_failure ti (Some test_mode) true false;;
        raise (exn_of e)
  | IsSystemExit _ =>
      handle_failure ti (Some test_mode) true false;;
      raise (AirflowException TaskFailedDueToSystemExit)
  | IsBaseException _ =>
      handle_failure ti (Some test_mode) true false;;
      raise (exn_of e)
  end.

(** ** State transition guard *)

Record DepContext := mkDepContext {
  dc_deps : gset string;
  ignore_all_deps : bool;
  ignore_ti_state : bool;
  ignore_depends_on_past : bool;
  wait_for_past_depends_before_skipping : bool;
  ignore_task_deps : bool;
  description : string
}.

Record TIDepStatus := mkTIDepStatus {
  dep_name : string;
  passed : bool;
  reason : string
}.

(** A string is falsy when it is [None] or empty. *)
Definition truthy (s : option string) : bool :=
  match s with
  | Some s => negb (String.eqb s "")
  | None => false
  end.

Section StateTransitionGuard.

(** [RUNNING_DEPS] and [REQUEUEABLE_DEPS] of
    [airflow.ti_deps.dependencies_deps]; a dependency is named by its
    class. *)
Variable RUNNING_DEPS : gset string.
Variable REQUEUEABLE_DEPS : gset string.

(** [dep.get_dep_statuses(ti, session, dep_context)] for the dependency
    class [dep]. *)
Variable get_dep_statuses : string -> TaskInstance -> World -> DepContext -> list TIDepStatus.

(** The cluster policy [task_instance_mutation_hook]. *)
Variable task_instance_mutation_hook : TaskInstance -> TaskInstance.

(** The start date of the first reschedule recorded for the task
    instance ([TR.stmt_for_task_instance(ti, descending=False)]). *)
Variable first_reschedule_start_date : TaskInstance -> World -> option datetime.

Definition _refresh_from_task
    (task_instance : TaskInstance) (task' : Operator) (pool_override : option string)
    : TaskInstance :=
  let ti := set_task (Some task') task_instance in
  let ti := set_queue (op_queue task') ti in
  let ti := set_pool (if truthy pool_override then default "" pool_override else op_pool task') ti in
  let ti := set_pool_slots (op_pool_slots task') ti in
  let ti := match weight task' with
            | Some weight' => set_priority_weight (Some weight') ti
            | None => ti
            end in
  let ti := set_run_as_user (op_run_as_user task') ti in
  let ti := set_executor (op_executor task') ti in
  let ti := set_executor_config (op_executor_config task') ti in
  let ti := set_operator (Some (task_type task')) ti in
  let ti := set_custom_operator_name (op_custom_operator_name task') ti in
  task_instance_mutation_hook ti.

Definition refresh_from_task (self : TaskInstance) (task' : Operator)
    (pool_override : option string) : TaskInstance :=
  _refresh_from_task self task' pool_override.

(** The statuses [get_failed_dep_statuses] yields, for a task that has
    its [deps] attribute. *)
Definition get_failed_dep_statuses (self : TaskInstance) (dep_context : DepContext)
    : M (list TIDepStatus) :=
  match task self with
  | None => raise AttributeError
  | Some t =>
      reads (fun w =>
        filter (fun dep_status => passed dep_status = false)
          (dep ← elements (dc_deps dep_context ∪ deps t);
           get_dep_statuses dep self w dep_context))
  end.

(** Some dependency of the context or of the task [tk] reports a failed
    status for [x]: what [get_failed_dep_statuses] yields is not empty. *)
Definition some_dep_fails (tk : Operator) (ctx : DepContext) (x : TaskInstance) (w : World)
    : Prop :=
  exists dep st,
    dep ∈ dc_deps ctx ∪ deps tk /\ st ∈ get_dep_statuses dep x w ctx /\ passed st = false.

Definition are_dependencies_met (self : TaskInstance) (dep_context : DepContext) : M bool :=
  failed ← get_failed_dep_statuses self dep_context;
  mret (bool_decide (failed = [])).

Definition emit_state_change_metric (self : TaskInstance) (new_state : TaskInstanceState)
    : M unit :=
  match end_date self with
  | Some _ => mret tt
  | None =>
      match new_state with
      | RUNNING =>
          match queued_dttm self with
          | None => mret tt
          | Some _ => utcnow;; mret tt
          end
      | QUEUED =>
          match scheduled_dttm self with
          | None => mret tt
          | Some _ => utcnow;; mret tt
          end
      | _ => raise (OtherBaseException "NotImplementedError")
      end
  end.

(** The first statements of [_check_and_change_state_before_execution],
    down to [ti.pid = None]. *)
Definition refresh_for_execution
    (task_instance : TaskInstance) (task' : Operator) (test_mode' : bool)
    (hostname' : string) (pool' : option string) : M TaskInstance :=
  let ti := refresh_from_task task_instance task' pool' in
  let ti := set_test_mode test_mode' ti in
  ti ← refresh_from_db ti;
  mret (set_pid None (set_hostname (Some hostname') ti)).

(** The statements that set [ti.start_date] between the two
    dependency checks. *)
Definition stamp_start_date (ti : TaskInstance) : M TaskInstance :=
  ti ← (if truthy (next_method ti) then mret ti
        else now ← utcnow; mret (set_start_date (Some now) ti));
  if state_eqb (state ti) (Some UP_FOR_RESCHEDULE) then
    tr_start_date ← reads (first_reschedule_start_date ti);
    match tr_start_date with
    | Some tr_start_date => mret (set_start_date (Some tr_start_date) ti)
    | None => mret ti
    end
  else mret ti.

Definition non_requeueable_dep_context
    (ignore_all_deps' ignore_depends_on_past' wait_for_past_depends_before_skipping'
     ignore_task_deps' ignore_ti_state' : bool) : DepContext :=
  mkDepContext (RUNNING_DEPS ∖ REQUEUEABLE_DEPS) ignore_all_deps' ignore_ti_state'
    ignore_depends_on_past' wait_for_past_depends_before_skipping' ignore_task_deps'
    "non-requeueable deps".

Definition requeueable_dep_context
    (ignore_all_deps' ignore_depends_on_past' wait_for_past_depends_before_skipping'
     ignore_task_deps' ignore_ti_state' : bool) : DepContext :=
  mkDepContext REQUEUEABLE_DEPS ignore_all_deps' ignore_ti_state'
    ignore_depends_on_past' wait_for_past_depends_before_skipping' ignore_task_deps'
    "requeueable deps".

(** The statements from [if not test_mode: session.add(Log(...))] to
    the end. *)
Definition start_running
    (ti : TaskInstance) (test_mode' : bool) (external_executor_id' : option string)
    : M (bool * TaskInstance) :=
  (if negb test_mode' then session_add_log "running" ti else mret tt);;
  let ti := set_state_field (Some RUNNING) ti in
  emit_state_change_metric ti RUNNING;;
  let ti := if truthy external_executor_id'
            then set_external_executor_id external_executor_id' ti else ti in
  let ti := set_end_date None ti in
  (if negb test_mode' then session_merge ti else mret tt);;
  mret (true, ti).

(** [_check_and_change_state_before_execution]: returns the value
    returned together with the task instance object as assigned to. *)
Definition _check_and_change_state_before_execution
    (task_instance : TaskInstance)
    (ignore_all_deps' ignore_depends_on_past' wait_for_past_depends_before_skipping'
     ignore_task_deps' ignore_ti_state' mark_success test_mode' : bool)
    (hostname' : string) (pool' : option string) (external_executor_id' : option string)
    : M (bool * TaskInstance) :=
  match task task_instance with
  | None => raise AttributeError
  | Some task' =>
      ti ← refresh_for_execution task_instance task' test_mode' hostname' pool';
      if negb mark_success then
        met ← are_dependencies_met ti
                (non_requeueable_dep_context ignore_all_deps' ignore_depends_on_past'
                   wait_for_past_depends_before_skipping' ignore_task_deps' ignore_ti_state');
        if negb met then mret (false, ti)
        else
          ti ← stamp_start_date ti;
          met ← are_dependencies_met ti
                  (requeueable_dep_context ignore_all_deps' ignore_depends_on_past'
                     wait_for_past_depends_before_skipping' ignore_task_deps'
                     ignore_ti_state');
          if negb met then
            let ti := set_state_field None ti in
            now ← utcnow;
            let ti := set_queued_dttm (Some now) ti in
            session_merge ti;;
            mret (false, ti)
          else start_running ti test_mode' external_executor_id'
      else start_running ti test_mode' external_executor_id'
  end.

End StateTransitionGuard.

(** ** Execution wrapper *)

(** What a call of a Python function ends in when it does not raise:
    it returns, or the process exits with a status ([os._exit]). *)
Inductive SignalOutcome :=
  | HandlerReturns
  | ProcessExits (status : Z).

(** The [signal_handler] closure of [_execute_task_with_callbacks]:
    [parent_pid] is the value of [os.getpid()] when the handler is
    installed, [pid] its value when the signal is delivered. *)
Definition signal_handler (self : TaskInstance) (parent_pid : Z) (pid' : Z) : M SignalOutcome :=
  if negb (pid' =? parent_pid) then mret (ProcessExits 1)
  else
    match task self with
    | None => raise AttributeError
    | Some t =>
        emit OnKill;;
        match on_kill t with
        | Some e => raise e
        | None => raise AirflowTaskTerminated
        end
    end.

(** ** Result propagation *)

Definition XCOM_RETURN_KEY : string := "return_value".

(** [len(value)]. *)
Definition py_len (value : PyValue) : Result Z :=
  match value with
  | VStr s => OK (Z.of_nat (String.length s))
  | VList items => OK (Z.of_nat (length items))
  | VDict items => OK (Z.of_nat (length items))
  | _ => Raise TypeError
  end.

Definition is_str (v : PyValue) : bool :=
  match v with
  | VStr _ => true
  | _ => false
  end.

Definition is_none (v : PyValue) : bool :=
  match v with
  | VNone => true
  | _ => false
  end.

(** [task_instance.xcom_push(key=key, value=value)] for a string key. *)
Definition xcom_push (task_instance : TaskInstance) (key : string) (value : PyValue) : M unit :=
  fun w => (OK tt, with_xcoms (xcoms w ++ [(ti_key task_instance, key, value)]) w).

(** The loop [for key, value in xcom_value.items(): xcom_push(...)], once
    every key is known to be a string. *)
Definition push_items (task_instance : TaskInstance) (items : list (PyValue * PyValue)) : M unit :=
  for_each (fun kv => match fst kv with
                      | VStr key => xcom_push task_instance key (snd kv)
                      | _ => raise TypeError
                      end) items.

Section ResultPropagation.

(** [is_mappable_value] of the task SDK. *)
Variable is_mappable_value : PyValue -> bool.

(** [conf.getint("core", "max_map_length", fallback=1024)]. *)
Variable max_map_length : Z.

Definition _record_task_map_for_downstreams
    (task_instance : TaskInstance) (task' : Operator) (value : PyValue) : M unit :=
  if negb (has_mapped_dependants task') then mret tt
  else if is_mapped_operator task' then mret tt
  else if is_none value then raise XComForMappingNotPushed
  else if negb (is_mappable_value value) then raise UnmappableXComTypePushed
  else
    task_map_length ← lift (py_len value);
    if task_map_length >? max_map_length then raise UnmappableXComLengthPushed
    else fun w =>
      (OK tt, with_task_maps (task_maps w ++ [(ti_key task_instance, task_map_length)]) w).

(** The block under [if xcom_value is not None:] in [_execute_task]. *)
Definition push_xcom_value
    (task_instance : TaskInstance) (task_to_execute : Operator) (xcom_value : PyValue)
    : M unit :=
  if negb (is_none xcom_value) then
    (if multiple_outputs task_to_execute then
       match xcom_value with
       | VDict items =>
           if forallb is_str (fst <$> items) then push_items task_instance items
           else raise (AirflowException KeysMustBeStrings)
       | _ => raise (AirflowException ExpectedDictForMultipleOutputs)
       end
     else mret tt);;
    xcom_push task_instance XCOM_RETURN_KEY xcom_value
  else mret tt.

(** The part of [_execute_task] after the callable has returned
    [result]: the [with cm as session_or_null:] block. *)
Definition push_result
    (task_instance : TaskInstance) (task_to_execute task_orig : Operator) (result : PyValue)
    : M unit :=
  let xcom_value := if do_xcom_push task_to_execute then result else VNone in
  push_xcom_value task_instance task_to_execute xcom_value;;
  _record_task_map_for_downstreams task_instance task_orig xcom_value.

(** [_execute_callable]: [run] is what calling the operator's method
    ends in. *)
Definition _execute_callable (run : Result PyValue) : M PyValue :=
  match run with
  | Raise (SystemExit None) | Raise (SystemExit (Some 0)) => mret VNone
  | _ => lift run
  end.

(** [_execute_task]; [run] is what calling the operator's method ends
    in (under the timeout, when there is one). *)
Definition _execute_task
    (task_instance : TaskInstance) (task_orig : Operator) (run : Result PyValue)
    : M PyValue :=
  match task task_instance with
  | None => raise AttributeError
  | Some task_to_execute =>
      if is_mapped_operator task_to_execute
      then raise (AirflowException MappedOperatorCannotBeExecuted)
      else
        let on_timeout : M PyValue :=
          emit OnKill;;
          match on_kill task_to_execute with
          | Some e => raise e
          | None => raise AirflowTaskTimeout
          end in
        result ←
          match execution_timeout task_to_execute with
          | Some execution_timeout' =>
              if execution_timeout' =? 0 then _execute_callable run
              else
                timeout ←
                  match truthy (next_method task_instance), start_date task_instance with
                  | true, Some start_date' =>
                      now ← utcnow;
                      mret (execution_timeout' - datetime_sub now start_date')
                  | _, _ => mret execution_timeout'
                  end;
                if timeout <=? 0 then on_timeout
                else
                  match run with
                  | Raise AirflowTaskTimeout => on_timeout
                  | _ => _execute_callable run
                  end
          | None => _execute_callable run
          end;
        push_result task_instance task_to_execute task_orig result;;
        mret result
  end.

End ResultPropagation.

(** ** The command line of a task run *)

(** [generate_command]; [file_path] is the text [os.fspath(file_path)]
    gives, [None] when no path is passed. *)
Definition generate_command
    (dag_id' task_id' run_id' : string)
    (mark_success ignore_all_deps' ignore_depends_on_past'
     wait_for_past_depends_before_skipping' ignore_task_deps' ignore_ti_state' local : bool)
    (file_path : option string) (raw : bool) (pool' cfg_path : option string)
    (map_index' : Z) : list string :=
  let cmd := ["airflow"; "tasks"; "run"; dag_id'; task_id'; run_id'] in
  let cmd := if mark_success then cmd ++ ["--mark-success"] else cmd in
  let cmd := if ignore_all_deps' then cmd ++ ["--ignore-all-dependencies"] else cmd in
  let cmd := if ignore_task_deps' then cmd ++ ["--ignore-dependencies"] else cmd in
  let cmd := if ignore_depends_on_past' then cmd ++ ["--depends-on-past"; "ignore"]
             else if wait_for_past_depends_before_skipping'
                  then cmd ++ ["--depends-on-past"; "wait"]
                  else cmd in
  let cmd := if ignore_ti_state' then cmd ++ ["--force"] else cmd in
  let cmd := if local then cmd ++ ["--local"] else cmd in
  let cmd := if truthy pool' then cmd ++ ["--pool"; default "" pool'] else cmd in
  let cmd := if raw then cmd ++ ["--raw"] else cmd in
  let cmd := if truthy file_path then cmd ++ ["--subdir"; default "" file_path] else cmd in
  let cmd := if truthy cfg_path then cmd ++ ["--cfg-path"; default "" cfg_path] else cmd in
  let cmd := if negb (map_index' =? -1) then cmd ++ ["--map-index"; pretty map_index']
             else cmd in
  cmd.

(** A command line holds [flag] immediately followed by [value]. *)
Definition followed_by (flag value : string) (l : list string) : Prop :=
  exists l1 l2, l = l1 ++ flag :: value :: l2.

(** Counts the occurrences of an option name in a list of one word. *)
Ltac count_flags :=
  repeat match goal with
  | |- context [count_occ string_dec [?g] ?f] =>
      let n := eval vm_compute in (count_occ string_dec [g] f) in
      change (count_occ string_dec [g] f) with n
  end.

(** ** Filters on the task instance table *)

(** The SQL expressions [filter_for_tis] and [ti_selector_condition]
    build over the columns of [TaskInstance]: [column == v],
    [column.in_(vs)], [tuple_(task_id, map_index).in_(vs)], [false()],
    [and_(...)] and [or_(...)]. *)
#[warnings="-register-all"] Inductive Clause :=
  | DagIdEq (v : string)
  | RunIdEq (v : string)
  | TaskIdEq (v : string)
  | MapIndexEq (v : Z)
  | RunIdIn (vs : list string)
  | TaskIdIn (vs : list string)
  | MapIndexIn (vs : list Z)
  | TaskIdMapIndexIn (vs : list (string * Z))
  | SqlFalse
  | And (cs : list Clause)
  | Or (cs : list Clause).

(** Whether a row of the table satisfies an expression, as a [WHERE]
    clause evaluates it (none of the four columns is ever null). *)
Fixpoint holds (c : Clause) (row : TaskInstance) : bool :=
  match c with
  | DagIdEq v => bool_decide (dag_id row = v)
  | RunIdEq v => bool_decide (run_id row = v)
  | TaskIdEq v => bool_decide (task_id row = v)
  | MapIndexEq v => bool_decide (map_index row = v)
  | RunIdIn vs => bool_decide (run_id row ∈ vs)
  | TaskIdIn vs => bool_decide (task_id row ∈ vs)
  | MapIndexIn vs => bool_decide (map_index row ∈ vs)
  | TaskIdMapIndexIn vs => bool_decide ((task_id row, map_index row) ∈ vs)
  | SqlFalse => false
  | And cs => forallb (fun c => holds c row) cs
  | Or cs => existsb (fun c => holds c row) cs
  end.

(** The nested dictionary the loop
    [for t in tis: groups[(t.dag_id, t.run_id)][key(t)].append(val(t))]
    builds in a [defaultdict(lambda: defaultdict(list))]. *)
Definition grouped {K V : Type} `{Countable K} (key : TaskInstance -> K)
    (val : TaskInstance -> V) (tis : list TaskInstance)
    : gmap (string * string) (gmap K (list V)) :=
  foldl (fun groups t =>
           let group := default ∅ (groups !! (dag_id t, run_id t)) in
           <[(dag_id t, run_id t) := <[key t := default [] (group !! key t) ++ [val t]]> group]>
             groups)
        ∅ tis.

Definition filter_for_tis (tis : list TaskInstance) : option Clause :=
  match tis with
  | [] => None
  | first :: _ =>
      let dag_id' := dag_id first in
      let run_id' := run_id first in
      let map_index' := map_index first in
      let first_task_id := task_id first in
      let dag_ids : gset string := list_to_set (dag_id <$> tis) in
      let run_ids : gset string := list_to_set (run_id <$> tis) in
      let map_indices : gset Z := list_to_set (map_index <$> tis) in
      let task_ids : gset string := list_to_set (task_id <$> tis) in
      if bool_decide (dag_ids = {[dag_id']}) && bool_decide (run_ids = {[run_id']})
         && bool_decide (map_indices = {[map_index']})
      then Some (And [DagIdEq dag_id'; RunIdEq run_id'; MapIndexEq map_index';
                      TaskIdIn (elements task_ids)])
      else if bool_decide (dag_ids = {[dag_id']}) && bool_decide (task_ids = {[first_task_id]})
              && bool_decide (map_indices = {[map_index']})
      then Some (And [DagIdEq dag_id'; RunIdIn (elements run_ids); MapIndexEq map_index';
                      TaskIdEq first_task_id])
      else if bool_decide (dag_ids = {[dag_id']}) && bool_decide (run_ids = {[run_id']})
              && bool_decide (task_ids = {[first_task_id]})
      then Some (And [DagIdEq dag_id'; RunIdEq run_id'; MapIndexIn (elements map_indices);
                      TaskIdEq first_task_id])
      else
        let task_id_groups := grouped task_id map_index tis in
        let map_index_groups := grouped map_index task_id tis in
        Some (Or (
          cur ← (cur_dag_id ← elements dag_ids;
                 cur_run_id ← elements run_ids;
                 [(cur_dag_id, cur_run_id)]);
          let dag_task_id_groups := default ∅ (task_id_groups !! cur) in
          let dag_map_index_groups := default ∅ (map_index_groups !! cur) in
          if (size dag_task_id_groups <=? size dag_map_index_groups)%nat
          then (fun item =>
                  And [DagIdEq (fst cur); RunIdEq (snd cur); TaskIdEq (fst item);
                       MapIndexIn (snd item)]) <$> map_to_list dag_task_id_groups
          else (fun item =>
                  And [DagIdEq (fst cur); RunIdEq (snd cur); TaskIdIn (snd item);
                       MapIndexEq (fst item)]) <$> map_to_list dag_map_index_groups))
  end.

(** An element of the collection [ti_selector_condition] takes: a task
    id, or a pair of a task id and a map index. *)
Inductive Selector :=
  | ByTaskId (task_id' : string)
  | ByTaskIdAndMapIndex (task_id' : string) (map_index' : Z).

Definition ti_selector_condition (vals : list Selector) : Clause :=
  let task_id_only :=
    omap (fun v => match v with ByTaskId s => Some s | _ => None end) vals in
  let with_map_index :=
    omap (fun v => match v with ByTaskIdAndMapIndex s i => Some (s, i) | _ => None end) vals in
  let filters := [] in
  let filters := if bool_decide (task_id_only <> [])
                 then filters ++ [TaskIdIn task_id_only] else filters in
  let filters := if bool_decide (with_map_index <> [])
                 then filters ++ [TaskIdMapIndexIn with_map_index] else filters in
  match filters with
  | [] => SqlFalse
  | [f] => f
  | _ => Or filters
  end.

(** ** Clearing, rescheduling and deferring *)

Definition set_max_tries (v : Z) (ti : TaskInstance) : TaskInstance :=
  ltac:(assign max_tries v ti).

(** Modelled from the spec: [DagRunState] of [airflow.utils.state], which
    is not under src/; the members, and which of them are finished
    ([State.finished_dr_states]), are as the docstring of
    [clear_task_instances] names them: success and failed are finished,
    queued and running are not. *)
Module DagRunState.

Inductive t :=
  | QUEUED
  | RUNNING
  | SUCCESS
  | FAILED.

Definition eqb (a b : t) : bool :=
  match a, b with
  | QUEUED, QUEUED | RUNNING, RUNNING | SUCCESS, SUCCESS | FAILED, FAILED => true
  | _, _ => false
  end.

End DagRunState.

Definition finished_dr_states (s : DagRunState.t) : bool :=
  match s with
  | DagRunState.SUCCESS | DagRunState.FAILED => true
  | _ => false
  end.

(** A row of the [dag_run] table, with the columns
    [clear_task_instances] reads and writes. *)
Record DagRunRow := mkDagRunRow {
  drr_dag_id : string;
  drr_run_id : string;
  drr_state : DagRunState.t;
  drr_start_date : option datetime;
  last_scheduling_decision : option datetime;
  clear_number : Z
}.

(** A row of the [task_reschedule] table; the task instance it belongs
    to (the column [ti_id]) is given by its key. *)
Record TaskReschedule := mkTaskReschedule {
  tr_ti : TIKey;
  tr_try_number : Z;
  tr_start_date : datetime;
  tr_end_date : option datetime;
  reschedule_date : datetime
}.

(** [[f(x) for x in l]] for an [f] that reads and writes the world. *)
Fixpoint map_m {A B : Type} (f : A -> M B) (l : list A) : M (list B) :=
  match l with
  | [] => mret []
  | x :: l' => y ← f x; ys ← map_m f l'; mret (y :: ys)
  end.

(** The dictionary [run_ids_by_dag_id] of [clear_task_instances], a
    [defaultdict(set)]. *)
Definition run_ids_by_dag_id (tis : list TaskInstance) : gmap string (gset string) :=
  foldl (fun groups instance =>
           <[dag_id instance :=
               default ∅ (groups !! dag_id instance) ∪ {[run_id instance]}]> groups)
        ∅ tis.

(** The body of the loop [for dr in drs] of [clear_task_instances]. *)
Definition reset_dag_run (dag_run_state : DagRunState.t) (dr : DagRunRow) : M DagRunRow :=
  if finished_dr_states (drr_state dr) then
    now ← utcnow;
    let dr := mkDagRunRow (drr_dag_id dr) (drr_run_id dr) dag_run_state (Some now)
                (last_scheduling_decision dr) (clear_number dr) in
    if DagRunState.eqb dag_run_state DagRunState.QUEUED
    then mret (mkDagRunRow (drr_dag_id dr) (drr_run_id dr) (drr_state dr) None None
                 (clear_number dr + 1))
    else mret dr
  else mret dr.

Section Clearing.

Variable task_instance_mutation_hook : TaskInstance -> TaskInstance.

(** [DagBag(read_dags_from_db=True).get_dag(dag_id, session=session)]. *)
Variable dag_bag_get_dag : string -> option DAG.

(** [dag.get_task(task_id)] for a task id of [dag.task_dict]. *)
Variable get_task : DAG -> string -> Operator.

(** The body of the loop [for ti in tis] of [clear_task_instances];
    [dag.has_task(task_id)] is membership in [dag.task_dict]. *)
Definition clear_task_instance (dag' : option DAG) (ti : TaskInstance) : M TaskInstance :=
  record_ti ti;;
  try_id' ← uuid7;
  let ti := set_try_id try_id' ti in
  if state_eqb (state ti) (Some RUNNING) then
    mret (set_state_field (Some RESTARTING) ti)
  else
    let ti_dag :=
      match dag' with
      | Some d =>
          if String.eqb (dag_dag_id d) (dag_id ti) then Some d
          else dag_bag_get_dag (dag_id ti)
      | None => dag_bag_get_dag (dag_id ti)
      end in
    let task_id' := task_id ti in
    let found :=
      match ti_dag with
      | Some d => if bool_decide (is_Some (task_dict d !! task_id')) then Some d else None
      | None => None
      end in
    let ti :=
      match found with
      | Some d =>
          let task' := get_task d task_id' in
          let ti := refresh_from_task task_instance_mutation_hook ti task' None in
          set_max_tries (try_number ti + retries task') ti
      | None => set_max_tries (Z.max (max_tries ti) (try_number ti)) ti
      end in
    let ti := set_state_field None ti in
    let ti := set_external_executor_id None ti in
    let ti := clear_next_method_args ti in
    session_merge ti;;
    mret ti.

(** [clear_task_instances]: [dag_run_state] is [None] for [False]; the
    tables [task_reschedule] and [dag_run] are passed in and returned
    together with the task instance objects as assigned to.  The dag runs
    the query selects are objects of the session, so that assigning to
    them changes their rows. *)
Definition clear_task_instances
    (tis : list TaskInstance) (dag' : option DAG) (dag_run_state : option DagRunState.t)
    (task_reschedules : list TaskReschedule) (dag_runs : list DagRunRow)
    : M (list TaskInstance * list TaskReschedule * list DagRunRow) :=
  let task_instance_ids := ti_key <$> tis in
  tis ← map_m (clear_task_instance dag') tis;
  let task_reschedules :=
    if bool_decide (task_instance_ids <> [])
    then filter (fun tr => tr_ti tr ∉ task_instance_ids) task_reschedules
    else task_reschedules in
  dag_runs ←
    match dag_run_state with
    | Some dag_run_state =>
        if bool_decide (tis <> []) then
          let groups := run_ids_by_dag_id tis in
          map_m (fun dr =>
                   if bool_decide (drr_run_id dr ∈ default ∅ (groups !! drr_dag_id dr))
                   then reset_dag_run dag_run_state dr
                   else mret dr)
                dag_runs
        else mret dag_runs
    | None => mret dag_runs
    end;
  mret (tis, task_reschedules, dag_runs).

End Clearing.

(** What clearing leaves of a task instance [ti], as [ti']: an instance
    that was running is restarting, and with that eligible to retry,
    with its key and counters as they were; any other has no state, no
    external executor id and no continuation. *)
Definition cleared (ti ti' : TaskInstance) : Prop :=
  if state_eqb (state ti) (Some RUNNING)
  then state ti' = Some RESTARTING /\ is_eligible_to_retry ti' = true /\
       ti_key ti' = ti_key ti /\ try_number ti' = try_number ti /\ max_tries ti' = max_tries ti
  else state ti' = None /\ external_executor_id ti' = None /\
       next_method ti' = None /\ next_kwargs ti' = None.

(** [_handle_reschedule]: [reschedule_date'] is the
    [reschedule_date] of the exception; the table [task_reschedule] is
    passed in and returned together with the value returned, which is
    [None] in test mode and the task instance object otherwise. *)
Definition _handle_reschedule
    (ti : TaskInstance) (actual_start_date : datetime) (reschedule_date' : datetime)
    (test_mode' : bool) (task_reschedules : list TaskReschedule)
    : M (option TaskInstance * list TaskReschedule) :=
  if test_mode' then mret (None, task_reschedules)
  else
    ti ← refresh_from_db ti;
    now ← utcnow;
    let ti := set_end_date (Some now) ti in
    let ti := set_duration ti in
    let ti := set_state_field (Some UP_FOR_RESCHEDULE) ti in
    let ti := clear_next_method_args ti in
    session_merge ti;;
    mret (Some ti,
          task_reschedules ++
            [mkTaskReschedule (ti_key ti) (try_number ti) actual_start_date (end_date ti)
               reschedule_date']).

(** The statements of [_defer_task] that compute [ti.trigger_timeout]
    from the [timeout] of the deferral and the task's
    [execution_timeout]; the value is that of [ti.trigger_timeout]
    after them. *)
Definition deferral_trigger_timeout
    (ti : TaskInstance) (task' : Operator) (timeout : option timedelta)
    : M (option datetime) :=
  trigger_timeout ←
    match timeout with
    | Some timeout => now ← utcnow; t ← lift (datetime_add now timeout); mret (Some t)
    | None => mret None
    end;
  match execution_timeout task' with
  | Some execution_timeout' =>
      if execution_timeout' =? 0 then mret trigger_timeout
      else
        match start_date ti with
        | None => raise TypeError
        | Some start_date' =>
            bound ← lift (datetime_add start_date' execution_timeout');
            match trigger_timeout with
            | Some t => mret (Some (Z.min bound t))
            | None => mret (Some bound)
            end
        end
  | None => mret trigger_timeout
  end.

(** ** Sample values *)

Module Sample.

Definition example_dag : DAG :=
  mkDAG "etl" true
    (<["extract" := mkDagTask false]>
      (<["load" := mkDagTask false]> (<["cleanup" := mkDagTask true]> ∅))).

(** An operator of the DAG ["etl"]. *)
Definition make_operator (task_group' : TaskGroup)
    (mapped mapped_dependants multiple_outputs' : bool)
    (retries' : Z) (retry_delay' : timedelta) (backoff : bool)
    (max_retry_delay' : option timedelta) : Operator :=
  {| op_task_id := "extract";
     dag := Some example_dag;
     task_group := task_group';
     is_mapped_operator := mapped;
     has_mapped_dependants := mapped_dependants;
     retries := retries';
     retry_delay := retry_delay';
     retry_exponential_backoff := backoff;
     max_retry_delay := max_retry_delay';
     execution_timeout := None;
     do_xcom_push := true;
     multiple_outputs := multiple_outputs';
     deps := ∅;
     op_queue := Some "default";
     op_pool := "default_pool";
     op_pool_slots := 1;
     weight := Some 1;
     op_run_as_user := None;
     op_executor := None;
     op_executor_config := "";
     task_type := "PythonOperator";
     op_custom_operator_name := None;
     email := false;
     email_on_failure := true;
     email_on_retry := true;
     on_failure_callback := [];
     on_retry_callback := [];
     on_kill := None;
     unmap_raises := false |}.

(** An operator outside any task group, given its retry settings. *)
Definition operator_with (retries' : Z) (retry_delay' : timedelta) (backoff : bool)
    (max_retry_delay' : option timedelta) : Operator :=
  make_operator NoGroup false false false retries' retry_delay' backoff max_retry_delay'.

(** The root group of the DAG, a mapped task group ["tg1"] in it and a
    mapped task group ["tg1.inner"] inside that one. *)
Definition root_group : TaskGroup := Group None false NoGroup.
Definition tg1 : TaskGroup := Group (Some "tg1") true root_group.
Definition tg1_inner : TaskGroup := Group (Some "tg1.inner") true tg1.

(** An operator that declares multiple outputs. *)
Definition multiple_outputs_task : Operator :=
  make_operator NoGroup false false true 0 (300 * MICROSECONDS) false None.

(** An operator with mapped dependants, and a mapped operator with
    mapped dependants. *)
Definition upstream_of_mapped : Operator :=
  make_operator NoGroup false true false 0 (300 * MICROSECONDS) false None.
Definition mapped_upstream_of_mapped : Operator :=
  make_operator NoGroup true true false 0 (300 * MICROSECONDS) false None.

(** Lists and dictionaries are mappable. *)
Definition list_or_dict (v : PyValue) : bool :=
  match v with
  | VList _ | VDict _ => true
  | _ => false
  end.

(** An operator placed in a task group. *)
Definition operator_in (g : TaskGroup) : Operator :=
  make_operator g false false false 0 (300 * MICROSECONDS) false None.

(** An operator with three retries, a base retry delay of five
    minutes and no exponential backoff. *)
Definition example_task : Operator := operator_with 3 (300 * MICROSECONDS) false None.

(** Exponential backoff from one second, capped by the task at half a
    second. *)
Definition capped_task : Operator :=
  operator_with 3 (1 * MICROSECONDS) true (Some 500000).

(** Exponential backoff from five minutes, without a cap of the task's
    own. *)
Definition backoff_task : Operator := operator_with 3 (300 * MICROSECONDS) true None.

(** Stand-ins for the hash and for the rendering of a date, for
    evaluating the functions that take them. *)
Definition length_hash (s : string) : N := N.of_nat (String.length s).
Definition no_date_text (d : option datetime) : string := "2024-01-01 00:00:00+00:00".

(** 2024-01-01T00:00:00Z. *)
Definition t0 : datetime := 1704067200 * MICROSECONDS.

(** A stored row of the run ["run1"] of the DAG ["etl"]. *)
Definition example_row (task_id' : string) (map_index' : Z)
    (state' : option TaskInstanceState) : TaskInstance :=
  {| task_id := task_id';
     dag_id := "etl";
     run_id := "run1";
     map_index := map_index';
     start_date := Some t0;
     end_date := None;
     duration := None;
     state := state';
     try_id := 7;
     try_number := 1;
     max_tries := 3;
     hostname := None;
     pool := "default_pool";
     pool_slots := 1;
     queue := Some "default";
     priority_weight := Some 1;
     operator := Some "PythonOperator";
     custom_operator_name := None;
     queued_dttm := Some t0;
     scheduled_dttm := Some t0;
     pid := Some 4242;
     executor := None;
     executor_config := "";
     updated_at := Some t0;
     external_executor_id := None;
     next_method := None;
     next_kwargs := None;
     other_columns := [];
     task := None;
     test_mode := false;
     run_as_user := None;
     dag_run := None |}.

(** The task instance object a worker holds for a row. *)
Definition example_ti (task' : Operator) (row : TaskInstance) : TaskInstance :=
  set_dag_run (Some (mkDagRun (Some t0))) (set_task (Some task') row).

Definition world_of (l : list TaskInstance) : World :=
  {| rows := list_to_map ((fun r => (ti_key r, r)) <$> l);
     log_rows := [];
     history := [];
     xcoms := [];
     task_maps := [];
     events := [];
     clock := fun n => t0 + 60 * MICROSECONDS * (1 + Z.of_nat n);
     ticks := 0;
     next_uuid := 100 |}.

(** A row as loaded without its task, at its first try. *)
Definition unloaded_ti : TaskInstance := example_row "extract" (-1) (Some RUNNING).

(** A task instance cleared while running. *)
Definition restarting_ti : TaskInstance :=
  example_ti example_task (example_row "extract" (-1) (Some RESTARTING)).

(** The fifth instance of a task mapped through the group ["tg1"]. *)
Definition mapped_ti : TaskInstance :=
  example_ti (operator_in tg1) (example_row "extract" 4 (Some RUNNING)).

(** A running instance of ["extract"], as held by its worker. *)
Definition running_ti : TaskInstance :=
  example_ti example_task (example_row "extract" (-1) (Some RUNNING)).

(** Two dependency classes, of which the pool is requeueable, an
    evaluation in which the trigger rule fails and one in which the pool
    has no free slot. *)
Definition running_deps : gset string := {[ "Pool Slots Available"; "Trigger Rule" ]}.
Definition requeueable_deps : gset string := {[ "Pool Slots Available" ]}.
Definition trigger_rule_fails (dep : string) (ti : TaskInstance) (w : World)
    (ctx : DepContext) : list TIDepStatus :=
  if String.eqb dep "Trigger Rule"
  then [mkTIDepStatus "Trigger Rule" false "upstream tasks have failed"]
  else [].

Definition pool_is_full (dep : string) (ti : TaskInstance) (w : World)
    (ctx : DepContext) : list TIDepStatus :=
  if String.eqb dep "Pool Slots Available"
  then [mkTIDepStatus "Pool Slots Available" false "the pool has no open slot"]
  else [mkTIDepStatus dep true ""].

(** The rows of a run: a queued ["transform"] alone. *)
Definition queued_rows : list TaskInstance :=
  [example_row "transform" (-1) (Some QUEUED)].

(** The queued ["transform"], as held by its worker. *)
Definition queued_ti : TaskInstance :=
  example_ti example_task (example_row "transform" (-1) (Some QUEUED)).

(** The rows of a run: a running ["extract"], a scheduled ["load"] and
    the scheduled teardown ["cleanup"]. *)
Definition run_rows : list TaskInstance :=
  [example_row "extract" (-1) (Some RUNNING);
   example_row "load" (-1) (Some SCHEDULED);
   example_row "cleanup" (-1) (Some SCHEDULED)].

(** The rows of a run in which ["extract"] is mapped twice and both
    instances are running. *)
Definition mapped_run_rows : list TaskInstance :=
  [example_row "extract" 0 (Some RUNNING); example_row "extract" 1 (Some RUNNING)].

(** The first of the two mapped instances of ["extract"], as held by
    its worker. *)
Definition mapped_failing_ti : TaskInstance :=
  example_ti example_task (example_row "extract" 0 (Some RUNNING)).

(** A failed attempt waiting for its retry, ended at [t0]. *)
Definition retry_ti (task' : Operator) (try_number' : Z) : TaskInstance :=
  let r := example_row "extract" (-1) (Some UP_FOR_RETRY) in
  example_ti task'
    (mkTaskInstance (task_id r) (dag_id r) (run_id r) (map_index r) (start_date r)
       (Some t0) (duration r) (state r) (try_id r) try_number' (max_tries r) (hostname r)
       (pool r) (pool_slots r) (queue r) (priority_weight r) (operator r)
       (custom_operator_name r) (queued_dttm r) (scheduled_dttm r) (pid r) (executor r)
       (executor_config r) (updated_at r) (external_executor_id r) (next_method r)
       (next_kwargs r) (other_columns r) (task r) (test_mode r) (run_as_user r) (dag_run r)).

(** The DAG ["etl"] without fail-fast. *)
Definition plain_dag : DAG := mkDAG "etl" false (task_dict example_dag).

(** An operator as [t], of the DAG [d] and with the execution timeout
    [timeout]. *)
Definition configured (d : DAG) (timeout : option timedelta) (t : Operator) : Operator :=
  {| op_task_id := op_task_id t;
     dag := Some d;
     task_group := task_group t;
     is_mapped_operator := is_mapped_operator t;
     has_mapped_dependants := has_mapped_dependants t;
     retries := retries t;
     retry_delay := retry_delay t;
     retry_exponential_backoff := retry_exponential_backoff t;
     max_retry_delay := max_retry_delay t;
     execution_timeout := timeout;
     do_xcom_push := do_xcom_push t;
     multiple_outputs := multiple_outputs t;
     deps := deps t;
     op_queue := op_queue t;
     op_pool := op_pool t;
     op_pool_slots := op_pool_slots t;
     weight := weight t;
     op_run_as_user := op_run_as_user t;
     op_executor := op_executor t;
     op_executor_config := op_executor_config t;
     task_type := task_type t;
     op_custom_operator_name := op_custom_operator_name t;
     email := email t;
     email_on_failure := email_on_failure t;
     email_on_retry := email_on_retry t;
     on_failure_callback := on_failure_callback t;
     on_retry_callback := on_retry_callback t;
     on_kill := on_kill t;
     unmap_raises := unmap_raises t |}.

(** The task ["extract"] in the DAG without fail-fast, and its running
    instance as held by its worker. *)
Definition plain_task : Operator := configured plain_dag None example_task.
Definition plain_ti : TaskInstance :=
  example_ti plain_task (example_row "extract" (-1) (Some RUNNING)).

(** The same task with an execution timeout of thirty seconds, and its
    instance resuming from a deferral. *)
Definition timed_task : Operator :=
  configured plain_dag (Some (30 * MICROSECONDS)) example_task.
Definition resumed_ti : TaskInstance :=
  set_next_method (Some "execute_complete")
    (example_ti timed_task (example_row "extract" (-1) (Some RUNNING))).

(** The rows of a run that holds an instance of ["transform"], a task
    the DAG does not have. *)
Definition removed_task_rows : list TaskInstance :=
  [example_row "extract" (-1) (Some RUNNING); example_row "transform" (-1) (Some QUEUED)].

(** The running instance of a task that declares multiple outputs. *)
Definition multiple_outputs_ti : TaskInstance :=
  example_ti multiple_outputs_task (example_row "extract" (-1) (Some RUNNING)).

End Sample.

(** * Theorems *)

(** ** Retry eligibility *)

Lemma state_eqb_true (a b : option TaskInstanceState) : state_eqb a b = true <-> a = b.
Proof. unfold state_eqb. apply bool_decide_eq_true. Qed.

Lemma state_eqb_false (a b : option TaskInstanceState) : state_eqb a b = false <-> a <> b.
Proof. unfold state_eqb. apply bool_decide_eq_false. Qed.

(** C4, as stated, fails: a task instance whose task could not be loaded
    is eligible as soon as [try_number <= max_tries], although no task
    declares a retry count for it. *)
Lemma eligible_without_task :
  _is_eligible_to_retry Sample.unloaded_ti = true /\
  ~ (state Sample.unloaded_ti = Some RESTARTING \/
     ((exists t, task Sample.unloaded_ti = Some t /\ retries t <> 0) /\
      try_number Sample.unloaded_ti <= max_tries Sample.unloaded_ti)).
Proof.
  split; [reflexivity|].
  intros [H | [[t [H _]] _]]; discriminate.
Qed.

(** C4, amended: [_is_eligible_to_retry] holds exactly when the state is
    restarting, or [try_number <= max_tries] and the task, when it is
    loaded, declares a nonzero retry count.  With [max_tries = 3], an
    instance that is not restarting is not eligible at [try_number = 4],
    is eligible at [try_number = 3] when its task declares a nonzero
    retry count, and a restarting instance is eligible whatever the
    counters. *)
Theorem is_eligible_to_retry_iff (ti : TaskInstance) :
  (_is_eligible_to_retry ti = true <->
     state ti = Some RESTARTING \/
     (try_number ti <= max_tries ti /\
      match task ti with
      | Some t => retries t <> 0
      | None => True
      end)) /\
  (state ti <> Some RESTARTING -> max_tries ti = 3 -> try_number ti = 4 ->
     _is_eligible_to_retry ti = false) /\
  (forall t, task ti = Some t -> retries t <> 0 -> max_tries ti = 3 -> try_number ti = 3 ->
     _is_eligible_to_retry ti = true) /\
  (state ti = Some RESTARTING -> _is_eligible_to_retry ti = true).
Proof.
  unfold _is_eligible_to_retry.
  destruct (state_eqb (state ti) (Some RESTARTING)) eqn:Hs.
  - apply state_eqb_true in Hs. repeat split; auto; congruence.
  - apply state_eqb_false in Hs.
    split; [|split; [|split]].
    + destruct (task ti) as [t|].
      * rewrite andb_true_iff, negb_true_iff, Z.eqb_neq, Z.leb_le. tauto.
      * rewrite Z.leb_le. tauto.
    + intros _ Hm Ht. rewrite Hm, Ht.
      destruct (task ti); [apply andb_false_r | reflexivity].
    + intros t Ht Hr Hm Hn. rewrite Ht, Hm, Hn.
      apply andb_true_iff. split; [|reflexivity].
      apply negb_true_iff, Z.eqb_neq, Hr.
    + congruence.
Qed.

Lemma is_eligible_to_retry_iff_witness :
  state Sample.restarting_ti = Some RESTARTING /\
  _is_eligible_to_retry Sample.restarting_ti = true.
Proof.
  pose proof (is_eligible_to_retry_iff Sample.restarting_ti) as (_ & _ & _ & H).
  split; [reflexivity | apply H; reflexivity].
Defined.

(** ** Next retry time and readiness *)

Lemma rbind_OK {A B : Type} (m : Result A) (k : A -> Result B) (b : B) :
  m ≫= k = OK b -> exists a, m = OK a /\ k a = OK b.
Proof. destruct m as [a|e]; simpl; [eauto | discriminate]. Qed.

(** C5: the next retry time is [end_date] plus the delay; the readiness
    check answers true exactly when the state is up_for_retry and the
    clock has passed the next retry time; an instance in up_for_retry
    whose next retry time has not passed is premature and not ready, and
    once the clock has passed it the instance is ready and no longer
    premature.  Without exponential backoff the next retry time is
    computed whenever [end_date] is set and the sum is a datetime. *)
Theorem ready_for_retry_iff
    (MAX_RETRY_DELAY : Z) (sha1_int : string -> N) (str_datetime : option datetime -> string)
    (ti : TaskInstance) (now : datetime) :
  let next := next_retry_datetime MAX_RETRY_DELAY sha1_int str_datetime ti in
  let ready := ready_for_retry MAX_RETRY_DELAY sha1_int str_datetime ti now in
  let premature := is_premature MAX_RETRY_DELAY sha1_int str_datetime ti now in
  (forall t, next = OK t ->
     exists tk e delay,
       task ti = Some tk /\ end_date ti = Some e /\
       retry_delay_of MAX_RETRY_DELAY sha1_int str_datetime tk ti = OK delay /\
       t = e + delay) /\
  (forall tk e,
     task ti = Some tk -> retry_exponential_backoff tk = false -> end_date ti = Some e ->
     DATETIME_MIN <= e + retry_delay tk <= DATETIME_MAX ->
     next = OK (e + retry_delay tk)) /\
  (ready = OK true <-> state ti = Some UP_FOR_RETRY /\ exists t, next = OK t /\ t < now) /\
  (forall t, state ti = Some UP_FOR_RETRY -> next = OK t -> now <= t ->
     premature = OK true /\ ready = OK false) /\
  (forall t, state ti = Some UP_FOR_RETRY -> next = OK t -> t < now ->
     ready = OK true /\ premature = OK false) /\
  (state ti <> Some UP_FOR_RETRY -> ready = OK false /\ premature = OK false).
Proof.
  intros next ready premature.
  subst next ready premature.
  unfold is_premature, ready_for_retry.
  split; [|split; [|split; [|split; [|split]]]].
  - unfold next_retry_datetime. intros t H.
    destruct (task ti) as [tk|]; [|discriminate].
    apply rbind_OK in H as (delay & Hd & H).
    destruct (end_date ti) as [e|]; [|discriminate].
    unfold datetime_add in H.
    destruct (_ && _); [|discriminate].
    exists tk, e, delay. repeat split; congruence.
  - intros tk e Ht Hb He [Hlo Hhi].
    unfold next_retry_datetime, retry_delay_of. rewrite Ht, Hb, He. simpl.
    unfold datetime_add.
    apply Z.leb_le in Hlo, Hhi. rewrite Hlo, Hhi. reflexivity.
  - destruct (state_eqb (state ti) (Some UP_FOR_RETRY)) eqn:Hs.
    + apply state_eqb_true in Hs. split.
      * intros H. apply rbind_OK in H as (t & Ht & H).
        split; [exact Hs|]. exists t. split; [exact Ht|]. apply Z.ltb_lt. congruence.
      * intros [_ (t & Ht & Hlt)]. rewrite Ht. simpl.
        apply Z.ltb_lt in Hlt. rewrite Hlt. reflexivity.
    + apply state_eqb_false in Hs. split; [discriminate | tauto].
  - intros t Hs Ht Hle.
    apply state_eqb_true in Hs. rewrite Hs, Ht. simpl.
    apply Z.ltb_ge in Hle. rewrite Hle. split; reflexivity.
  - intros t Hs Ht Hlt.
    apply state_eqb_true in Hs. rewrite Hs, Ht. simpl.
    apply Z.ltb_lt in Hlt. rewrite Hlt. split; reflexivity.
  - intros Hs. apply state_eqb_false in Hs. rewrite Hs. split; reflexivity.
Qed.

Lemma ready_for_retry_iff_witness :
  let ti := Sample.retry_ti Sample.example_task 1 in
  let next := Sample.t0 + 300 * MICROSECONDS in
  state ti = Some UP_FOR_RETRY /\
  next_retry_datetime 86400 Sample.length_hash Sample.no_date_text ti = OK next /\
  (ready_for_retry 86400 Sample.length_hash Sample.no_date_text ti (next + 1) = OK true /\
   is_premature 86400 Sample.length_hash Sample.no_date_text ti (next + 1) = OK false).
Proof.
  intros ti next.
  pose proof (ready_for_retry_iff 86400 Sample.length_hash Sample.no_date_text ti (next + 1))
    as (_ & _ & _ & _ & H & _).
  split; [reflexivity|]. split; [reflexivity|].
  apply (H next); [reflexivity | reflexivity | lia].
Defined.

(** ** Exponential backoff *)

(** The scaling is done in floating point: five minutes at the third
    attempt give twenty minutes, and the product leaves the range of a
    float from the 1025th attempt on, which [math.ceil] (or the
    conversion of [2 ** 1024]) answers with an [OverflowError]. *)
Example ceil_scaled_third_attempt : ceil_scaled (300 * MICROSECONDS) 3 = OK 1200.
Proof. vm_compute. reflexivity. Qed.

Example ceil_scaled_overflow : ceil_scaled (1 * MICROSECONDS) 1025 = Raise OverflowError.
Proof. vm_compute. reflexivity. Qed.

(** On base delays from a quarter of a second to two and a half minutes,
    in steps of a quarter of a second, and for the first twenty
    attempts, the floating-point scaling is the exact ceiling of
    [d_seconds * 2^(n-1)]. *)
Example ceil_scaled_exact_on_common_delays :
  forallb (fun q =>
    forallb (fun n =>
      match ceil_scaled (q * 250000) n with
      | OK c => c =? - ((- (q * 250000 * 2 ^ (n - 1))) / MICROSECONDS)
      | Raise _ => false
      end) (seqZ 1 20)) (seqZ 1 600) = true.
Proof. vm_compute. reflexivity. Qed.

(** C2, as stated, fails: with a base delay of one second, at the first
    attempt, a task whose [max_retry_delay] is half a second gets a
    delay of half a second, which is less than one second.  (Here
    [min_backoff] is 1, so the hash does not enter the result.) *)
Lemma backoff_below_one_second :
  backoff_delay 86400 Sample.length_hash Sample.no_date_text Sample.capped_task
    (Sample.retry_ti Sample.capped_task 1) = OK 500000 /\
  500000 < 1 * MICROSECONDS.
Proof. split; [vm_compute; reflexivity | reflexivity]. Qed.

(** C2, amended: when the floating-point scaling
    [ceil(d_seconds * 2^(n-1))] gives [c] and [MAX_RETRY_DELAY] is at
    least one second (and a representable number of seconds), the delay
    under exponential backoff is [min_backoff + h mod min_backoff]
    seconds with [min_backoff = max(1, c)] and [h] the hash of
    ["dag_id#task_id#logical_date#try_number"], capped at
    [MAX_RETRY_DELAY] and then at the task's [max_retry_delay] when that
    is set and not zero.  The jittered value lies in
    [[min_backoff, 2 * min_backoff)]; the delay is at least one second
    unless the task's own cap is below one second; it depends on the
    task instance only through [dag_id], [task_id], [logical_date] and
    [try_number], and on the task only through its base delay and its
    cap; and the next retry time is [end_date] plus that delay. *)
Theorem backoff_delay_spec
    (MAX_RETRY_DELAY : Z) (sha1_int : string -> N) (str_datetime : option datetime -> string)
    (t : Operator) (ti : TaskInstance) (c : Z) :
  1 <= MAX_RETRY_DELAY <= 86399999999999 ->
  ceil_scaled (retry_delay t) (try_number ti) = OK c ->
  let min_backoff := Z.max 1 c in
  let h := Z.of_N (sha1_int (ti_hash_input str_datetime ti)) in
  let jittered := min_backoff + h `mod` min_backoff in
  let capped := Z.min jittered MAX_RETRY_DELAY * MICROSECONDS in
  let delay :=
    match max_retry_delay t with
    | Some m => if m =? 0 then capped else Z.min m capped
    | None => capped
    end in
  backoff_delay MAX_RETRY_DELAY sha1_int str_datetime t ti = OK delay /\
  min_backoff <= jittered < 2 * min_backoff /\
  1 * MICROSECONDS <= capped <= MAX_RETRY_DELAY * MICROSECONDS /\
  delay <= capped /\
  (forall m, max_retry_delay t = Some m -> m <> 0 -> delay <= m) /\
  (match max_retry_delay t with
   | Some m => m = 0 \/ 1 * MICROSECONDS <= m
   | None => True
   end -> 1 * MICROSECONDS <= delay) /\
  (forall t' ti',
     retry_delay t' = retry_delay t -> max_retry_delay t' = max_retry_delay t ->
     dag_id ti' = dag_id ti -> task_id ti' = task_id ti ->
     logical_date ti' = logical_date ti -> try_number ti' = try_number ti ->
     backoff_delay MAX_RETRY_DELAY sha1_int str_datetime t' ti' = OK delay) /\
  (forall e, task ti = Some t -> retry_exponential_backoff t = true -> end_date ti = Some e ->
     next_retry_datetime MAX_RETRY_DELAY sha1_int str_datetime ti = datetime_add e delay).
Proof.
  intros [Hmax1 Hmax2] Hc min_backoff h jittered capped delay.
  assert (Hmb : (if c <? 1 then 1 else c) = min_backoff).
  { subst min_backoff. destruct (c <? 1) eqn:E; [apply Z.ltb_lt in E | apply Z.ltb_ge in E]; lia. }
  assert (Hpos : 1 <= min_backoff) by (subst min_backoff; lia).
  assert (Hmod : 0 <= h `mod` min_backoff < min_backoff) by (apply Z.mod_pos_bound; lia).
  assert (Hj : min_backoff <= jittered < 2 * min_backoff) by (subst jittered; lia).
  assert (Hcap : 1 * MICROSECONDS <= capped <= MAX_RETRY_DELAY * MICROSECONDS).
  { subst capped. unfold MICROSECONDS. lia. }
  assert (Htd : timedelta_of_seconds (Z.min jittered MAX_RETRY_DELAY) = OK capped).
  { unfold timedelta_of_seconds. fold capped.
    assert (Hlo : TIMEDELTA_MIN <= capped) by (unfold TIMEDELTA_MIN, MICROSECONDS in *; lia).
    assert (Hhi : capped <= TIMEDELTA_MAX) by (unfold TIMEDELTA_MAX, MICROSECONDS in *; lia).
    apply Z.leb_le in Hlo, Hhi. rewrite Hlo, Hhi. reflexivity. }
  assert (Hgen : forall t' ti',
     retry_delay t' = retry_delay t -> max_retry_delay t' = max_retry_delay t ->
     dag_id ti' = dag_id ti -> task_id ti' = task_id ti ->
     logical_date ti' = logical_date ti -> try_number ti' = try_number ti ->
     backoff_delay MAX_RETRY_DELAY sha1_int str_datetime t' ti' = OK delay).
  { intros t' ti' Hd Hm Hdag Htask Hdate Htry.
    unfold backoff_delay, ti_hash_input. rewrite Hd, Hm, Hdag, Htask, Hdate, Htry, Hc.
    simpl. rewrite Hmb. fold (ti_hash_input str_datetime ti). fold h. fold jittered.
    rewrite Htd. simpl. subst delay.
    destruct (max_retry_delay t) as [m|]; [destruct (m =? 0)|]; reflexivity. }
  split; [apply Hgen; reflexivity|].
  split; [exact Hj|]. split; [exact Hcap|].
  split; [|split; [|split; [|split; [exact Hgen|]]]].
  - subst delay. destruct (max_retry_delay t) as [m|]; [destruct (m =? 0)|]; lia.
  - intros m Hm Hne. subst delay. rewrite Hm.
    apply Z.eqb_neq in Hne. rewrite Hne. lia.
  - subst delay. destruct (max_retry_delay t) as [m|]; [|lia].
    destruct (m =? 0) eqn:E; [lia|]. apply Z.eqb_neq in E. lia.
  - intros e Ht Hb He. unfold next_retry_datetime, retry_delay_of.
    rewrite Ht, Hb, He, (Hgen t ti); reflexivity.
Qed.

Lemma backoff_delay_spec_witness :
  1 <= 86400 <= 86399999999999 /\
  ceil_scaled (retry_delay Sample.backoff_task) 3 = OK 1200 /\
  backoff_delay 86400 Sample.length_hash Sample.no_date_text Sample.backoff_task
    (Sample.retry_ti Sample.backoff_task 3) = OK (1239 * MICROSECONDS).
Proof.
  assert (H1 : 1 <= 86400 <= 86399999999999) by lia.
  assert (H2 : ceil_scaled (retry_delay Sample.backoff_task)
                 (try_number (Sample.retry_ti Sample.backoff_task 3)) = OK 1200)
    by (vm_compute; reflexivity).
  split; [exact H1|]. split; [exact H2|].
  exact (proj1 (backoff_delay_spec 86400 Sample.length_hash Sample.no_date_text
                  Sample.backoff_task (Sample.retry_ti Sample.backoff_task 3) 1200 H1 H2)).
Defined.

(** ** Mapped-index resolution *)

(** Two operators none of whose surrounding mapped task groups share a
    [group_id] have no common ancestor. *)
Lemma find_common_ancestor_disjoint (node1 node2 : Operator) :
  (forall g1 g2, g1 ∈ iter_mapped_task_groups node1 -> g2 ∈ iter_mapped_task_groups node2 ->
     group_id g1 <> group_id g2) ->
  _find_common_ancestor_mapped_group node1 node2 = None.
Proof.
  intros H. unfold _find_common_ancestor_mapped_group.
  destruct (dag node1) as [d1|]; [|reflexivity].
  destruct (dag node2) as [d2|]; [|reflexivity].
  destruct (negb _); [reflexivity|].
  apply head_None, elem_of_nil_inv.
  intros g Hg. apply list_elem_of_filter in Hg as [Hin Hg2].
  apply list_elem_of_fmap in Hin as (g1 & Heq & Hg1).
  apply (H g1 g Hg1 Hg2). congruence.
Qed.

(** The common ancestor found is the innermost mapped task group around
    the second operator whose [group_id] is that of a mapped task group
    around the first. *)
Lemma find_common_ancestor_Some (node1 node2 : Operator) (g : TaskGroup) :
  _find_common_ancestor_mapped_group node1 node2 = Some g ->
  g ∈ iter_mapped_task_groups node2 /\
  exists g1, g1 ∈ iter_mapped_task_groups node1 /\ group_id g1 = group_id g.
Proof.
  unfold _find_common_ancestor_mapped_group.
  destruct (dag node1) as [d1|]; [|discriminate].
  destruct (dag node2) as [d2|]; [|discriminate].
  destruct (negb _); [discriminate|].
  intros H. apply head_Some_elem_of, list_elem_of_filter in H as [Hin Hg2].
  split; [exact Hg2|].
  apply list_elem_of_fmap in Hin as (g1 & Heq & Hg1). eauto.
Qed.

(** C3: for a task instance expanded to [ti_count >= 1] instances,
    [get_relevant_upstream_map_indexes] returns [None] when there is no
    common mapped task group; otherwise the scaled index
    [map_index * ancestor_ti_count // ti_count] when the upstream is not
    further mapped inside the common group; otherwise the range from
    [ancestor_map_index * further_count] of length
    [further_count = ti_count // ancestor_ti_count].  With 6 instances,
    2 of the ancestor and map index 4 the scaled index is 1 and the
    range is [[3, 6)]. *)
Theorem get_relevant_upstream_map_indexes_spec
    (get_mapped_ti_count : TaskGroup -> string -> Result Z)
    (self : TaskInstance) (self_task upstream : Operator) (ti_count : Z) :
  task self = Some self_task ->
  ti_count <> 0 ->
  let result :=
    get_relevant_upstream_map_indexes get_mapped_ti_count self upstream (Some ti_count) in
  ((forall g1 g2, g1 ∈ iter_mapped_task_groups self_task ->
      g2 ∈ iter_mapped_task_groups upstream -> group_id g1 <> group_id g2) ->
   result = OK WholeValue) /\
  (_find_common_ancestor_mapped_group self_task upstream = None -> result = OK WholeValue) /\
  (forall common ancestor_ti_count,
     _find_common_ancestor_mapped_group self_task upstream = Some common ->
     get_mapped_ti_count common (run_id self) = OK ancestor_ti_count ->
     let ancestor_map_index := map_index self * ancestor_ti_count / ti_count in
     let further_count := ti_count / ancestor_ti_count in
     (_is_further_mapped_inside upstream common = false ->
      result = OK (SingleIndex ancestor_map_index)) /\
     (_is_further_mapped_inside upstream common = true -> ancestor_ti_count <> 0 ->
      result = OK (IndexRange (ancestor_map_index * further_count)
                              (ancestor_map_index * further_count + further_count))) /\
     (ti_count = 6 -> ancestor_ti_count = 2 -> map_index self = 4 ->
      ancestor_map_index = 1 /\
      (_is_further_mapped_inside upstream common = false -> result = OK (SingleIndex 1)) /\
      (_is_further_mapped_inside upstream common = true -> result = OK (IndexRange 3 6)))).
Proof.
  intros Htask Hcount result.
  assert (Hres : result =
    match _find_common_ancestor_mapped_group self_task upstream with
    | None => OK WholeValue
    | Some common_ancestor =>
        ancestor_ti_count ← get_mapped_ti_count common_ancestor (run_id self);
        ancestor_map_index ← floordiv (map_index self * ancestor_ti_count) ti_count;
        if negb (_is_further_mapped_inside upstream common_ancestor)
        then OK (SingleIndex ancestor_map_index)
        else
          further_count ← floordiv ti_count ancestor_ti_count;
          OK (IndexRange (ancestor_map_index * further_count)
                (ancestor_map_index * further_count + further_count))
    end).
  { subst result. unfold get_relevant_upstream_map_indexes. rewrite Htask.
    destruct ti_count; [contradiction | reflexivity | reflexivity]. }
  split; [|split].
  - intros Hdis. rewrite Hres, find_common_ancestor_disjoint; [reflexivity | exact Hdis].
  - intros Hnone. rewrite Hres, Hnone. reflexivity.
  - intros common ancestor_ti_count Hcommon Hget ancestor_map_index further_count.
    assert (Hsingle : _is_further_mapped_inside upstream common = false ->
                      result = OK (SingleIndex ancestor_map_index)).
    { intros Hf. rewrite Hres, Hcommon, Hget. simpl. unfold floordiv.
      apply Z.eqb_neq in Hcount. rewrite Hcount. simpl. rewrite Hf. reflexivity. }
    assert (Hrange : _is_further_mapped_inside upstream common = true ->
                     ancestor_ti_count <> 0 ->
                     result = OK (IndexRange (ancestor_map_index * further_count)
                                    (ancestor_map_index * further_count + further_count))).
    { intros Hf Hne. rewrite Hres, Hcommon, Hget. simpl. unfold floordiv.
      apply Z.eqb_neq in Hcount, Hne. rewrite Hcount. simpl. rewrite Hf, Hne. reflexivity. }
    split; [exact Hsingle|]. split; [exact Hrange|].
    intros H6 H2 H4.
    assert (Hidx : ancestor_map_index = 1).
    { subst ancestor_map_index. rewrite H6, H2, H4. reflexivity. }
    split; [exact Hidx|]. split.
    + intros Hf. rewrite <- Hidx. apply Hsingle, Hf.
    + intros Hf. rewrite (Hrange Hf); [|lia].
      rewrite Hidx. subst further_count. rewrite H6, H2. reflexivity.
Qed.

(** A common ancestor that was expanded to no instance makes the range
    case divide by zero. *)
Lemma get_relevant_upstream_map_indexes_zero_ancestor
    (get_mapped_ti_count : TaskGroup -> string -> Result Z)
    (self : TaskInstance) (self_task upstream : Operator) (ti_count : Z) (common : TaskGroup) :
  task self = Some self_task ->
  ti_count <> 0 ->
  _find_common_ancestor_mapped_group self_task upstream = Some common ->
  get_mapped_ti_count common (run_id self) = OK 0 ->
  _is_further_mapped_inside upstream common = true ->
  get_relevant_upstream_map_indexes get_mapped_ti_count self upstream (Some ti_count)
  = Raise ZeroDivisionError.
Proof.
  intros Htask Hcount Hcommon Hget Hf.
  unfold get_relevant_upstream_map_indexes. rewrite Htask.
  destruct ti_count; [contradiction| |];
    rewrite Hcommon, Hget; unfold floordiv; simpl; rewrite Hf; reflexivity.
Qed.

Lemma get_relevant_upstream_map_indexes_spec_witness :
  task Sample.mapped_ti = Some (Sample.operator_in Sample.tg1) /\
  6 <> 0 /\
  get_relevant_upstream_map_indexes (fun _ _ => OK 2) Sample.mapped_ti
    (Sample.operator_in Sample.tg1_inner) (Some 6) = OK (IndexRange 3 6).
Proof.
  assert (H6 : 6 <> 0) by lia.
  split; [reflexivity|]. split; [exact H6|].
  pose proof (get_relevant_upstream_map_indexes_spec (fun _ _ => OK 2) Sample.mapped_ti
                (Sample.operator_in Sample.tg1) (Sample.operator_in Sample.tg1_inner) 6
                eq_refl H6) as (_ & _ & H).
  destruct (H Sample.tg1 2 eq_refl eq_refl) as (_ & _ & H3).
  destruct (H3 eq_refl eq_refl eq_refl) as (_ & _ & Hr).
  apply Hr. reflexivity.
Defined.

(** ** The termination-signal handler *)

(** C9, as stated, fails: in a process other than the one that installed
    the handler the signal is not ignored; the handler ends that process
    with exit status 1. *)
Lemma signal_handler_exits_forked_child :
  signal_handler Sample.running_ti 4242 4243 (Sample.world_of [])
  = (OK (ProcessExits 1), Sample.world_of []) /\
  signal_handler Sample.running_ti 4242 4243 (Sample.world_of [])
  <> (OK HandlerReturns, Sample.world_of []).
Proof. split; [reflexivity | discriminate]. Qed.

(** C9, amended: when the observed process id differs from the one
    recorded at installation, the handler ends the process at once with
    exit status 1 ([os._exit(1)]), invoking no cleanup hook and raising
    nothing; when they are equal it invokes the task's cleanup hook and
    then, the hook having returned, raises [AirflowTaskTerminated]. *)
Theorem signal_handler_spec (self : TaskInstance) (parent_pid pid' : Z) (w : World) :
  (pid' <> parent_pid ->
   signal_handler self parent_pid pid' w = (OK (ProcessExits 1), w)) /\
  (pid' = parent_pid ->
   forall t, task self = Some t ->
     snd (signal_handler self parent_pid pid' w) = with_events (events w ++ [OnKill]) w /\
     (on_kill t = None ->
      fst (signal_handler self parent_pid pid' w) = Raise AirflowTaskTerminated) /\
     (forall e, on_kill t = Some e ->
      fst (signal_handler self parent_pid pid' w) = Raise e)).
Proof.
  unfold signal_handler. split.
  - intros H. apply Z.eqb_neq in H. rewrite H. reflexivity.
  - intros H t Ht. apply Z.eqb_eq in H. rewrite H, Ht. simpl.
    unfold mbind, M_bind, emit, raise. simpl.
    destruct (on_kill t) as [e|]; simpl.
    + split; [reflexivity|]. split; [discriminate|]. intros e' [= ->]. reflexivity.
    + split; [reflexivity|]. split; [reflexivity|]. discriminate.
Qed.

Lemma signal_handler_spec_witness :
  4243 <> 4242 /\
  signal_handler Sample.running_ti 4242 4243 (Sample.world_of [])
  = (OK (ProcessExits 1), Sample.world_of []).
Proof.
  assert (H : 4243 <> 4242) by lia.
  split; [exact H|].
  exact (proj1 (signal_handler_spec Sample.running_ti 4242 4243 (Sample.world_of [])) H).
Defined.

(** ** Setting the state *)

(** C10: [_set_state] returns [False] and changes neither the object nor
    the stored rows when the instance is already in the state asked for,
    so that a second call with the same state does nothing; otherwise it
    returns [True], the state is the one asked for, [start_date] is the
    current time if it was unset, [end_date] (if unset) and [duration]
    are set when the new state is finished or up_for_retry and are left
    alone otherwise, and the object is merged into the session. *)
Theorem set_state_spec (ti : TaskInstance) (s : option TaskInstanceState) (w : World) :
  let now := clock w (ticks w) in
  let start_date' := default now (start_date ti) in
  let end_date' := default now (end_date ti) in
  (state ti = s -> _set_state ti s w = (OK (false, ti), w)) /\
  (state ti <> s ->
   exists ti',
     _set_state ti s w
     = (OK (true, ti'), with_rows (<[ti_key ti := row_of ti']> (rows w)) (with_ticks (S (ticks w)) w)) /\
     state ti' = s /\
     start_date ti' = Some start_date' /\
     (State_finished s || state_eqb s (Some UP_FOR_RETRY) = true ->
      end_date ti' = Some end_date' /\
      duration ti' = Some (total_seconds (datetime_sub end_date' start_date'))) /\
     (State_finished s || state_eqb s (Some UP_FOR_RETRY) = false ->
      end_date ti' = end_date ti /\ duration ti' = duration ti) /\
     ti_key ti' = ti_key ti /\ try_number ti' = try_number ti /\
     max_tries ti' = max_tries ti) /\
  (forall b ti' w', _set_state ti s w = (OK (b, ti'), w') ->
     _set_state ti' s w' = (OK (false, ti'), w')).
Proof.
  intros now start_date' end_date'.
  assert (Hsame : state ti = s -> _set_state ti s w = (OK (false, ti), w)).
  { intros H. unfold _set_state. apply state_eqb_true in H. rewrite H. reflexivity. }
  assert (Hdiff : state ti <> s ->
   exists ti',
     _set_state ti s w
     = (OK (true, ti'), with_rows (<[ti_key ti := row_of ti']> (rows w)) (with_ticks (S (ticks w)) w)) /\
     state ti' = s /\
     start_date ti' = Some start_date' /\
     (State_finished s || state_eqb s (Some UP_FOR_RETRY) = true ->
      end_date ti' = Some end_date' /\
      duration ti' = Some (total_seconds (datetime_sub end_date' start_date'))) /\
     (State_finished s || state_eqb s (Some UP_FOR_RETRY) = false ->
      end_date ti' = end_date ti /\ duration ti' = duration ti) /\
     ti_key ti' = ti_key ti /\ try_number ti' = try_number ti /\
     max_tries ti' = max_tries ti).
  { intros H. unfold _set_state. apply state_eqb_false in H. rewrite H.
    unfold mbind, M_bind, utcnow, session_merge, mret, M_ret. simpl.
    fold now. fold start_date'. fold end_date'.
    destruct (State_finished s || state_eqb s (Some UP_FOR_RETRY)) eqn:E;
      eexists; (split; [reflexivity|]); simpl; repeat split; try reflexivity;
      intros; discriminate. }
  split; [exact Hsame|]. split; [exact Hdiff|].
  intros b ti' w' Hrun.
  destruct (decide (state ti = s)) as [Heq|Hne].
  - rewrite (Hsame Heq) in Hrun. injection Hrun as <- <- <-. exact (Hsame Heq).
  - destruct (Hdiff Hne) as (ti2 & Hrun2 & Hs & _).
    rewrite Hrun2 in Hrun. injection Hrun as <- <- <-.
    unfold _set_state. apply state_eqb_true in Hs. rewrite Hs. reflexivity.
Qed.

Lemma set_state_spec_witness :
  state Sample.running_ti = Some RUNNING /\
  _set_state Sample.running_ti (Some RUNNING) (Sample.world_of [])
  = (OK (false, Sample.running_ti), Sample.world_of []).
Proof.
  split; [reflexivity|].
  exact (proj1 (set_state_spec Sample.running_ti (Some RUNNING) (Sample.world_of [])) eq_refl).
Defined.

(** ** An externally set terminal state *)

Lemma refresh_from_db_found (self row : TaskInstance) (w : World) :
  rows w !! ti_key self = Some row ->
  refresh_from_db self w = (OK (with_columns_of row self), w).
Proof.
  intros H. unfold refresh_from_db, get_task_instance, reads, mbind, M_bind.
  rewrite H. reflexivity.
Qed.

(** C8: when a timeout, an [AirflowException] or a termination is being
    handled and the row read back from the database is already in a
    finished state, the handler returns without raising: the
    continuation arguments are cleared, the row is saved with the
    state, the retry counters and the try id it had, and nothing of
    failure handling happens: no audit log row, no history record, no
    listener, email or callback event. *)
Theorem external_terminal_state_respected
    (ti row : TaskInstance) (e : FailureExn) (w : World) :
  (e = IsAirflowTaskTimeout \/ (exists msg, e = IsAirflowException msg)
   \/ e = IsAirflowTaskTerminated) ->
  rows w !! ti_key ti = Some row ->
  ti_key row = ti_key ti ->
  State_finished (state row) = true ->
  let now := clock w (ticks w) in
  let saved := set_updated_at (Some now) (clear_next_method_args (with_columns_of row ti)) in
  let w' := with_rows (<[ti_key ti := row_of saved]> (rows w)) (with_ticks (S (ticks w)) w) in
  _run_raw_task_failed ti false e w = (OK saved, w') /\
  next_method saved = None /\ next_kwargs saved = None /\
  state saved = state row /\
  try_number saved = try_number row /\ max_tries saved = max_tries row /\
  try_id saved = try_id row /\
  start_date saved = start_date row /\ end_date saved = end_date row /\
  duration saved = duration row /\
  rows w' !! ti_key ti = Some (row_of saved) /\
  (forall k, k <> ti_key ti -> rows w' !! k = rows w !! k) /\
  events w' = events w /\ log_rows w' = log_rows w /\ history w' = history w.
Proof.
  intros He Hrow Hkey Hfin now saved w'.
  split.
  - unfold _run_raw_task_failed.
    assert (Hbody :
      (ti0 ← (if negb false then refresh_from_db ti else mret ti);
       if State_finished (state ti0)
       then save_to_db (clear_next_method_args ti0)
       else handle_failure ti0 (Some false) true false;; raise (exn_of e)) w
      = (OK saved, w')).
    { simpl. unfold mbind at 1. unfold M_bind.
      rewrite (refresh_from_db_found ti row w Hrow).
      change (state (with_columns_of row ti)) with (state row). rewrite Hfin.
      unfold save_to_db, mbind, M_bind, utcnow, session_merge, mret, M_ret. simpl.
      subst w' saved now. simpl. unfold ti_key at 1. simpl.
      fold (ti_key row). rewrite Hkey. reflexivity. }
    destruct He as [-> | [[msg ->] | ->]]; exact Hbody.
  - subst w'. simpl.
    repeat (split; [reflexivity|]).
    split; [apply lookup_insert_eq|].
    split; [|repeat split; reflexivity].
    intros k Hk. apply lookup_insert_ne. congruence.
Qed.

Lemma external_terminal_state_respected_witness :
  let row := Sample.example_row "extract" (-1) (Some SUCCESS) in
  let w := Sample.world_of [row] in
  fst (_run_raw_task_failed Sample.running_ti false IsAirflowTaskTerminated w)
  = OK (set_updated_at (Some (clock w (ticks w)))
          (clear_next_method_args (with_columns_of row Sample.running_ti))).
Proof.
  intros row w.
  assert (H1 : IsAirflowTaskTerminated = IsAirflowTaskTimeout
               \/ (exists msg, IsAirflowTaskTerminated = IsAirflowException msg)
               \/ IsAirflowTaskTerminated = IsAirflowTaskTerminated)
    by (right; right; reflexivity).
  assert (H2 : rows w !! ti_key Sample.running_ti = Some row) by (vm_compute; reflexivity).
  rewrite (proj1 (external_terminal_state_respected Sample.running_ti row
                    IsAirflowTaskTerminated w H1 H2 eq_refl eq_refl)).
  reflexivity.
Defined.

(** When the row read back is still running, the same signal is handled
    as a failure: the exception leaves [_run_raw_task] and the listener
    is called. *)
Example running_state_is_failed :
  let w := Sample.world_of [Sample.example_row "extract" (-1) (Some RUNNING)] in
  let r := _run_raw_task_failed Sample.running_ti false IsAirflowTaskTerminated w in
  fst r = Raise AirflowTaskTerminated /\
  events (snd r) = [ListenerTaskInstanceFailed ("etl", "extract", "run1", -1)] /\
  state <$> rows (snd r) !! ("etl", "extract", "run1", -1) = Some (Some UP_FOR_RETRY).
Proof. vm_compute. repeat split; reflexivity. Qed.

(** ** Result push contract *)

Lemma push_items_ok (ti : TaskInstance) (items : list (PyValue * PyValue)) (w : World) :
  forallb is_str (fst <$> items) = true ->
  exists w', push_items ti items w = (OK tt, w').
Proof.
  unfold push_items. revert w.
  induction items as [|[k v] items IH]; intros w H; simpl in *.
  - eexists. reflexivity.
  - apply andb_true_iff in H as [Hk Hrest].
    destruct k; try discriminate.
    unfold mbind, M_bind, xcom_push at 1.
    apply IH, Hrest.
Qed.

(** Pushing the value itself succeeds when it is [None], when the task
    does not declare multiple outputs, or when it is a dictionary whose
    keys are all strings. *)
Lemma push_xcom_value_ok (ti : TaskInstance) (t : Operator) (v : PyValue) (w : World) :
  is_none v = true \/ multiple_outputs t = false \/
  (exists items, v = VDict items /\ forallb is_str (fst <$> items) = true) ->
  exists w', push_xcom_value ti t v w = (OK tt, w').
Proof.
  unfold push_xcom_value. intros [H | H].
  - rewrite H. eexists. reflexivity.
  - destruct (is_none v); [eexists; reflexivity|]. simpl.
    destruct H as [H | (items & -> & H)].
    + rewrite H. eexists. reflexivity.
    + rewrite H. unfold mbind, M_bind.
      destruct (multiple_outputs t).
      * destruct (push_items_ok ti items w H) as [w1 ->]. eexists. reflexivity.
      * eexists. reflexivity.
Qed.

(** C7, as stated, fails twice: a dictionary with a key that is not a
    string is pushed without an error when the task does not declare
    multiple outputs; and for a mapped operator with mapped dependants a
    null return value raises nothing. *)
Lemma push_contract_exceptions :
  fst (push_result Sample.list_or_dict 1024 Sample.running_ti Sample.example_task
         Sample.example_task (VDict [(VInt 1, VStr "a")]) (Sample.world_of [])) = OK tt /\
  fst (push_result Sample.list_or_dict 1024 Sample.running_ti Sample.example_task
         Sample.mapped_upstream_of_mapped VNone (Sample.world_of [])) = OK tt.
Proof. split; reflexivity. Qed.

(** C7, amended: with [xcom_value] the value to push (the return value,
    or [None] when the task does not push), a value that is not [None]
    fails with the type-mismatch error when the task declares multiple
    outputs and the value is not a mapping, and with the key-type error
    when the task declares multiple outputs and the value is a mapping
    with a key that is not a string, in both cases before anything is
    written.  When the original task has mapped dependants and is not
    itself a mapped operator, then, the value itself having been pushed,
    [None] fails with the not-pushed error, a value that is not mappable
    with the unmappable-type error, and a mappable value longer than
    [max_map_length] with the length-exceeded error.  A task without
    mapped dependants, or a mapped operator, is not checked. *)
Theorem push_result_contract
    (is_mappable_value : PyValue -> bool) (max_map_length : Z)
    (ti : TaskInstance) (task_to_execute task_orig : Operator) (result : PyValue) (w : World) :
  let xcom_value := if do_xcom_push task_to_execute then result else VNone in
  let r := push_result is_mappable_value max_map_length ti task_to_execute task_orig result w in
  let pushed :=
    multiple_outputs task_to_execute = false \/
    (exists items, xcom_value = VDict items /\ forallb is_str (fst <$> items) = true) in
  (is_none xcom_value = false -> multiple_outputs task_to_execute = true ->
   (forall items, xcom_value <> VDict items) ->
   r = (Raise (AirflowException ExpectedDictForMultipleOutputs), w)) /\
  (forall items k,
     multiple_outputs task_to_execute = true -> xcom_value = VDict items ->
     k ∈ fst <$> items -> is_str k = false ->
     r = (Raise (AirflowException KeysMustBeStrings), w)) /\
  (has_mapped_dependants task_orig = true -> is_mapped_operator task_orig = false ->
   (is_none xcom_value = true -> fst r = Raise XComForMappingNotPushed) /\
   (pushed -> is_none xcom_value = false -> is_mappable_value xcom_value = false ->
    fst r = Raise UnmappableXComTypePushed) /\
   (forall n, pushed -> is_none xcom_value = false -> is_mappable_value xcom_value = true ->
      py_len xcom_value = OK n -> n > max_map_length ->
      fst r = Raise UnmappableXComLengthPushed)) /\
  (has_mapped_dependants task_orig = false \/ is_mapped_operator task_orig = true ->
   is_none xcom_value = true \/ pushed -> fst r = OK tt).
Proof.
  intros xcom_value r pushed.
  subst r. unfold push_result. fold xcom_value.
  split; [|split; [|split]].
  - intros Hnone Hmulti Hnodict.
    unfold push_xcom_value, mbind, M_bind. rewrite Hnone, Hmulti. simpl.
    destruct xcom_value; try reflexivity. exfalso. eapply Hnodict. reflexivity.
  - intros items k Hmulti Hdict Hin Hk.
    unfold push_xcom_value, mbind, M_bind. rewrite Hdict, Hmulti. simpl.
    assert (Hall : forallb is_str (fst <$> items) = false).
    { apply not_true_is_false. intros Hall.
      rewrite forallb_forall in Hall.
      apply list_elem_of_In in Hin. rewrite (Hall k Hin) in Hk. discriminate. }
    rewrite Hall. reflexivity.
  - intros Hdep Hmapped.
    split; [|split].
    + intros Hnone.
      destruct (push_xcom_value_ok ti task_to_execute xcom_value w (or_introl Hnone))
        as [w1 Hpush].
      unfold mbind, M_bind. rewrite Hpush.
      unfold _record_task_map_for_downstreams. rewrite Hdep, Hmapped, Hnone. reflexivity.
    + intros Hpushed Hnone Hmap.
      destruct (push_xcom_value_ok ti task_to_execute xcom_value w (or_intror Hpushed))
        as [w1 Hpush].
      unfold mbind, M_bind. rewrite Hpush.
      unfold _record_task_map_for_downstreams. rewrite Hdep, Hmapped, Hnone, Hmap.
      reflexivity.
    + intros n Hpushed Hnone Hmap Hlen Hbig.
      destruct (push_xcom_value_ok ti task_to_execute xcom_value w (or_intror Hpushed))
        as [w1 Hpush].
      unfold mbind, M_bind. rewrite Hpush.
      unfold _record_task_map_for_downstreams. rewrite Hdep, Hmapped, Hnone, Hmap. simpl.
      unfold mbind, M_bind, lift. rewrite Hlen.
      apply Z.gtb_gt in Hbig. rewrite Hbig. reflexivity.
  - intros Hskip Hpushed.
    assert (Hok : is_none xcom_value = true \/ multiple_outputs task_to_execute = false \/
                  (exists items, xcom_value = VDict items /\
                                 forallb is_str (fst <$> items) = true))
      by (destruct Hpushed; [left | right]; assumption).
    destruct (push_xcom_value_ok ti task_to_execute xcom_value w Hok) as [w1 Hpush].
    unfold mbind, M_bind. rewrite Hpush.
    unfold _record_task_map_for_downstreams.
    destruct Hskip as [-> | ->]; [reflexivity|].
    destruct (has_mapped_dependants task_orig); reflexivity.
Qed.

Lemma push_result_contract_witness :
  is_none (VList [VInt 1; VInt 2]) = false /\
  multiple_outputs Sample.multiple_outputs_task = true /\
  push_result Sample.list_or_dict 1024 Sample.running_ti Sample.multiple_outputs_task
    Sample.multiple_outputs_task (VList [VInt 1; VInt 2]) (Sample.world_of [])
  = (Raise (AirflowException ExpectedDictForMultipleOutputs), Sample.world_of []).
Proof.
  split; [reflexivity|]. split; [reflexivity|].
  apply (proj1 (push_result_contract Sample.list_or_dict 1024 Sample.running_ti
                  Sample.multiple_outputs_task Sample.multiple_outputs_task
                  (VList [VInt 1; VInt 2]) (Sample.world_of [])));
    [reflexivity | reflexivity | discriminate].
Defined.

(** A task with mapped dependants that returns nothing, a string, or a
    list longer than the maximum. *)
Example mapped_dependants_need_a_value :
  fst (push_result Sample.list_or_dict 2 Sample.running_ti Sample.upstream_of_mapped
         Sample.upstream_of_mapped VNone (Sample.world_of []))
  = Raise XComForMappingNotPushed /\
  fst (push_result Sample.list_or_dict 2 Sample.running_ti Sample.upstream_of_mapped
         Sample.upstream_of_mapped (VStr "abc") (Sample.world_of []))
  = Raise UnmappableXComTypePushed /\
  fst (push_result Sample.list_or_dict 2 Sample.running_ti Sample.upstream_of_mapped
         Sample.upstream_of_mapped (VList [VInt 1; VInt 2; VInt 3]) (Sample.world_of []))
  = Raise UnmappableXComLengthPushed /\
  task_maps (snd (push_result Sample.list_or_dict 2 Sample.running_ti
                    Sample.upstream_of_mapped Sample.upstream_of_mapped
                    (VList [VInt 1; VInt 2]) (Sample.world_of [])))
  = [(("etl", "extract", "run1", -1), 2)].
Proof. repeat split; reflexivity. Qed.

(** [_execute_task] reaches the push with the value the operator
    returned, when the task is not a mapped operator and has no
    timeout. *)
Lemma execute_task_pushes_result
    (is_mappable_value : PyValue -> bool) (max_map_length : Z)
    (ti : TaskInstance) (t task_orig : Operator) (result : PyValue) (w : World) :
  task ti = Some t -> is_mapped_operator t = false -> execution_timeout t = None ->
  _execute_task is_mappable_value max_map_length ti task_orig (OK result) w
  = match push_result is_mappable_value max_map_length ti t task_orig result w with
    | (OK _, w') => (OK result, w')
    | (Raise e, w') => (Raise e, w')
    end.
Proof.
  intros Ht Hm Hto. unfold _execute_task. rewrite Ht, Hm, Hto. simpl.
  unfold mbind, M_bind, _execute_callable, lift, mret, M_ret.
  destruct (push_result _ _ _ _ _ _ _) as [[[]|e] w']; reflexivity.
Qed.

(** ** The state transition guard *)

Section GuardFacts.

Variable RUNNING_DEPS : gset string.
Variable REQUEUEABLE_DEPS : gset string.
Variable get_dep_statuses : string -> TaskInstance -> World -> DepContext -> list TIDepStatus.
Variable task_instance_mutation_hook : TaskInstance -> TaskInstance.
Variable first_reschedule_start_date : TaskInstance -> World -> option datetime.

Lemma are_dependencies_met_spec (x : TaskInstance) (tk : Operator) (ctx : DepContext) (w : World) :
  task x = Some tk ->
  exists met, are_dependencies_met get_dep_statuses x ctx w = (OK met, w) /\
              (met = false <-> some_dep_fails get_dep_statuses tk ctx x w).
Proof.
  intros Ht. unfold are_dependencies_met, get_failed_dep_statuses. rewrite Ht.
  unfold mbind at 1. unfold M_bind, reads, mret, M_ret.
  eexists. split; [reflexivity|].
  rewrite bool_decide_eq_false. split.
  - intros Hne.
    destruct (filter _ _) as [|st l] eqn:E; [contradiction|].
    assert (Hin : st ∈ st :: l) by left.
    rewrite <- E in Hin. apply list_elem_of_filter in Hin as [Hp Hin].
    apply list_elem_of_bind in Hin as (dep & Hst & Hdep).
    apply elem_of_elements in Hdep.
    exists dep, st. auto.
  - intros (dep & st & Hdep & Hst & Hp) Hnil.
    assert (Hin : st ∈ filter (fun dep_status => passed dep_status = false)
                    (elements (dc_deps ctx ∪ deps tk) ≫=
                       (fun dep => get_dep_statuses dep x w ctx))).
    { apply list_elem_of_filter. split; [exact Hp|].
      apply list_elem_of_bind. exists dep. split; [exact Hst|].
      apply elem_of_elements, Hdep. }
    rewrite Hnil in Hin. inversion Hin.
Qed.

(** Stamping the start date always succeeds and changes nothing but
    [start_date] and the number of clock readings. *)
Lemma stamp_start_date_spec (ti : TaskInstance) (w : World) :
  exists ti2 w2,
    stamp_start_date first_reschedule_start_date ti w = (OK ti2, w2) /\
    rows w2 = rows w /\ log_rows w2 = log_rows w /\ events w2 = events w /\
    clock w2 = clock w /\
    ti_key ti2 = ti_key ti /\ task ti2 = task ti /\ state ti2 = state ti /\
    try_number ti2 = try_number ti /\ max_tries ti2 = max_tries ti.
Proof.
  unfold stamp_start_date, mbind, M_bind, utcnow, reads, mret, M_ret.
  destruct (truthy (next_method ti)); simpl;
    destruct (state_eqb (state ti) (Some UP_FOR_RESCHEDULE)); simpl;
    try destruct (first_reschedule_start_date _ _); simpl;
    do 2 eexists; (split; [reflexivity|]); simpl; repeat split; reflexivity.
Qed.

Variable ti row : TaskInstance.
Variable tk : Operator.
Variables ignore_all_deps' ignore_depends_on_past' wait_for_past_depends_before_skipping'
  ignore_task_deps' ignore_ti_state' test_mode' : bool.
Variable hostname' : string.
Variables pool' external_executor_id' : option string.
Variable w : World.

Hypothesis task_loaded : task ti = Some tk.
Hypothesis hook_keeps_key : forall x, ti_key (task_instance_mutation_hook x) = ti_key x.
Hypothesis hook_keeps_task : forall x, task (task_instance_mutation_hook x) = task x.
Hypothesis row_stored : rows w !! ti_key ti = Some row.
Hypothesis row_key : ti_key row = ti_key ti.

(** C1: without [mark_success], when a dependency checked in the
    non-requeueable context fails, the call returns [False] and writes
    nothing: the world, and so the stored row, is as before.  When none
    fails but a dependency checked in the requeueable context fails, the
    call returns [False] and the row stored for the instance has state
    [None], the current time as [queued_dttm], and the [try_number] and
    [max_tries] it had. *)
Theorem check_and_change_state_not_runnable :
  let run :=
    _check_and_change_state_before_execution RUNNING_DEPS REQUEUEABLE_DEPS get_dep_statuses
      task_instance_mutation_hook first_reschedule_start_date ti
      ignore_all_deps' ignore_depends_on_past' wait_for_past_depends_before_skipping'
      ignore_task_deps' ignore_ti_state' false test_mode' hostname' pool'
      external_executor_id' w in
  let ti1 :=
    set_pid None (set_hostname (Some hostname')
      (with_columns_of row
         (set_test_mode test_mode'
            (refresh_from_task task_instance_mutation_hook ti tk pool')))) in
  let ctx1 :=
    non_requeueable_dep_context RUNNING_DEPS REQUEUEABLE_DEPS ignore_all_deps'
      ignore_depends_on_past' wait_for_past_depends_before_skipping' ignore_task_deps'
      ignore_ti_state' in
  let ctx2 :=
    requeueable_dep_context REQUEUEABLE_DEPS ignore_all_deps'
      ignore_depends_on_past' wait_for_past_depends_before_skipping' ignore_task_deps'
      ignore_ti_state' in
  (some_dep_fails get_dep_statuses tk ctx1 ti1 w -> run = (OK (false, ti1), w)) /\
  (~ some_dep_fails get_dep_statuses tk ctx1 ti1 w ->
   exists ti2 w2,
     stamp_start_date first_reschedule_start_date ti1 w = (OK ti2, w2) /\
     (some_dep_fails get_dep_statuses tk ctx2 ti2 w2 ->
      let now := clock w2 (ticks w2) in
      let ti3 := set_queued_dttm (Some now) (set_state_field None ti2) in
      let w3 := with_rows (<[ti_key ti := row_of ti3]> (rows w)) (with_ticks (S (ticks w2)) w2) in
      run = (OK (false, ti3), w3) /\
      rows w3 !! ti_key ti = Some (row_of ti3) /\
      state (row_of ti3) = None /\
      queued_dttm (row_of ti3) = Some now /\
      try_number (row_of ti3) = try_number row /\
      max_tries (row_of ti3) = max_tries row /\
      (forall k, k <> ti_key ti -> rows w3 !! k = rows w !! k))).
Proof.
  intros run ti1 ctx1 ctx2.
  assert (Hkey0 : ti_key (set_test_mode test_mode'
                    (refresh_from_task task_instance_mutation_hook ti tk pool')) = ti_key ti).
  { unfold refresh_from_task, _refresh_from_task.
    change (ti_key (set_test_mode test_mode' ?x)) with (ti_key x).
    rewrite hook_keeps_key. destruct (weight tk); reflexivity. }
  assert (Htask1 : task ti1 = Some tk).
  { subst ti1. unfold refresh_from_task, _refresh_from_task.
    change (task (set_pid ?a (set_hostname ?b (with_columns_of ?c (set_test_mode ?d ?x)))))
      with (task x).
    rewrite hook_keeps_task. destruct (weight tk); reflexivity. }
  assert (Hrefresh :
    refresh_for_execution task_instance_mutation_hook ti tk test_mode' hostname' pool' w
    = (OK ti1, w)).
  { unfold refresh_for_execution, mbind, M_bind.
    rewrite (refresh_from_db_found _ row w); [reflexivity|].
    rewrite Hkey0. exact row_stored. }
  assert (Hrun : run =
    match are_dependencies_met get_dep_statuses ti1 ctx1 w with
    | (OK met, w1) =>
        (if negb met then mret (false, ti1)
         else
           ti2 ← stamp_start_date first_reschedule_start_date ti1;
           met2 ← are_dependencies_met get_dep_statuses ti2 ctx2;
           if negb met2 then
             now ← utcnow;
             session_merge (set_queued_dttm (Some now) (set_state_field None ti2));;
             mret (false, set_queued_dttm (Some now) (set_state_field None ti2))
           else start_running ti2 test_mode' external_executor_id') w1
    | (Raise e, w1) => (Raise e, w1)
    end).
  { subst run. unfold _check_and_change_state_before_execution.
    rewrite task_loaded. unfold mbind at 1. unfold M_bind at 1.
    rewrite Hrefresh. reflexivity. }
  destruct (are_dependencies_met_spec ti1 tk ctx1 w Htask1) as (met & Hmet & Hiff).
  rewrite Hmet in Hrun.
  split.
  - intros Hfail. apply Hiff in Hfail. subst met. exact Hrun.
  - intros Hpass.
    assert (Hmet_true : met = true).
    { destruct met; [reflexivity|]. exfalso. apply Hpass, Hiff. reflexivity. }
    subst met. simpl in Hrun.
    destruct (stamp_start_date_spec ti1 w)
      as (ti2 & w2 & Hstamp & Hrows & _ & _ & _ & Hkey2 & Htask2 & _ & Htry & Hmax).
    exists ti2, w2. split; [exact Hstamp|].
    intros Hfail2 now ti3 w3.
    unfold mbind at 1 in Hrun. unfold M_bind at 1 in Hrun. rewrite Hstamp in Hrun.
    rewrite Htask1 in Htask2.
    destruct (are_dependencies_met_spec ti2 tk ctx2 w2 Htask2) as (met2 & Hmet2 & Hiff2).
    apply Hiff2 in Hfail2. subst met2.
    unfold mbind at 1 in Hrun. unfold M_bind at 1 in Hrun. rewrite Hmet2 in Hrun.
    simpl in Hrun.
    assert (Hkey3 : ti_key ti3 = ti_key ti).
    { change (ti_key ti3) with (ti_key ti2). rewrite Hkey2.
      change (ti_key ti1) with (ti_key row). exact row_key. }
    assert (Hw3 : (OK (false, ti3), w3) = run).
    { rewrite Hrun. unfold mbind, M_bind, utcnow, session_merge, mret, M_ret. simpl.
      fold now. fold ti3. subst w3. rewrite Hkey3, Hrows. reflexivity. }
    split; [symmetry; exact Hw3|].
    subst w3. simpl.
    split; [apply lookup_insert_eq|].
    split; [reflexivity|]. split; [reflexivity|].
    split; [exact Htry|]. split; [exact Hmax|].
    intros k Hk. apply lookup_insert_ne. congruence.
Qed.

End GuardFacts.

Lemma check_and_change_state_not_runnable_witness :
  exists ti1,
    _check_and_change_state_before_execution Sample.running_deps Sample.requeueable_deps
      Sample.trigger_rule_fails (fun x => x) (fun _ _ => None) Sample.running_ti
      false false false false false false false "worker-1" None None
      (Sample.world_of Sample.run_rows)
    = (OK (false, ti1), Sample.world_of Sample.run_rows).
Proof.
  assert (Hrow : rows (Sample.world_of Sample.run_rows) !! ti_key Sample.running_ti
                 = Some (Sample.example_row "extract" (-1) (Some RUNNING)))
    by (vm_compute; reflexivity).
  eexists.
  apply (proj1 (check_and_change_state_not_runnable Sample.running_deps
                  Sample.requeueable_deps Sample.trigger_rule_fails (fun x => x)
                  (fun _ _ => None) Sample.running_ti
                  (Sample.example_row "extract" (-1) (Some RUNNING)) Sample.example_task
                  false false false false false false "worker-1" None None
                  (Sample.world_of Sample.run_rows)
                  eq_refl (fun x => eq_refl) (fun x => eq_refl) Hrow eq_refl)).
  exists "Trigger Rule", (mkTIDepStatus "Trigger Rule" false "upstream tasks have failed").
  split; [|split; [left | reflexivity]].
  apply elem_of_union_l, elem_of_difference. split.
  - apply elem_of_union_r, elem_of_singleton. reflexivity.
  - intros H. apply elem_of_singleton in H. discriminate.
Defined.

(** A full pool sends a queued instance back: the call returns [False],
    and the stored row has no state, the time of the second clock
    reading as [queued_dttm], and its [try_number] of 1. *)
Example requeued_when_pool_is_full :
  match _check_and_change_state_before_execution Sample.running_deps Sample.requeueable_deps
          Sample.pool_is_full (fun x => x) (fun _ _ => None) Sample.queued_ti
          false false false false false false false "worker-1" None None
          (Sample.world_of Sample.queued_rows) with
  | (OK (runnable, _), w') =>
      runnable = false /\
      (state <$> rows w' !! ("etl", "transform", "run1", -1)) = Some None /\
      (queued_dttm <$> rows w' !! ("etl", "transform", "run1", -1))
      = Some (Some (Sample.t0 + 120 * MICROSECONDS)) /\
      (try_number <$> rows w' !! ("etl", "transform", "run1", -1)) = Some 1
  | (Raise _, _) => False
  end.
Proof. vm_compute. repeat split; reflexivity. Qed.

(** ** Fail-fast propagation *)

Lemma world_of_stored_under_key (l : list TaskInstance) :
  stored_under_key (Sample.world_of l).
Proof.
  intros k r H. simpl in H.
  apply elem_of_list_to_map_2, list_elem_of_fmap in H as (r' & Heq & _).
  injection Heq as -> ->. reflexivity.
Qed.

Lemma passed_over_test (f r : TaskInstance) :
  String.eqb (task_id r) (task_id f)
  || state_eqb (state r) (Some SUCCESS) || state_eqb (state r) (Some FAILED) = true
  <-> passed_over f r.
Proof.
  unfold passed_over.
  rewrite !orb_true_iff, String.eqb_eq, !state_eqb_true. tauto.
Qed.

Lemma stop_task_passed_over (f r : TaskInstance) (w : World) :
  passed_over f r -> stop_task f r w = (OK tt, w).
Proof.
  intros H. apply passed_over_test in H. unfold stop_task. rewrite H. reflexivity.
Qed.

(** What [stop_task] does to a task instance that is not passed over. *)
Lemma stop_task_not_passed_over (f r : TaskInstance) (w w' : World) :
  ~ passed_over f r ->
  stop_task f r w = (OK tt, w') ->
  exists d tdef,
    task f ≫= dag = Some d /\ task_dict d !! task_id r = Some tdef /\
    (is_teardown tdef = true -> w' = w) /\
    (is_teardown tdef = false -> state r = Some RUNNING ->
     rows w' = <[ti_key r := row_of (set_state_field (Some FAILED) r)]> (rows w)) /\
    (is_teardown tdef = false -> state r = Some SKIPPED -> w' = w) /\
    (is_teardown tdef = false -> state r <> Some RUNNING -> state r <> Some SKIPPED ->
     exists r', rows w' = <[ti_key r := row_of r']> (rows w) /\ state r' = Some SKIPPED).
Proof.
  intros Hnot Hrun.
  assert (Htest : String.eqb (task_id r) (task_id f)
                  || state_eqb (state r) (Some SUCCESS) || state_eqb (state r) (Some FAILED)
                  = false).
  { apply not_true_is_false. intros H. apply Hnot, passed_over_test, H. }
  unfold stop_task in Hrun. rewrite Htest in Hrun.
  destruct (task f ≫= dag) as [d|] eqn:Hd; [|discriminate].
  destruct (task_dict d !! task_id r) as [tdef|] eqn:Htd; [|discriminate].
  exists d, tdef. split; [reflexivity|]. split; [exact Htd|].
  destruct (is_teardown tdef); simpl in Hrun.
  - injection Hrun as <-.
    split; [reflexivity|]. repeat split; intros; discriminate.
  - split; [discriminate|].
    destruct (state_eqb (state r) (Some RUNNING)) eqn:Erun.
    + apply state_eqb_true in Erun.
      unfold error, mbind, M_bind, session_merge, mret, M_ret in Hrun. simpl in Hrun.
      injection Hrun as <-.
      split; [reflexivity|].
      split; [intros _ Hs; congruence|]. intros _ Hs; congruence.
    + apply state_eqb_false in Erun.
      split; [intros _ Hs; congruence|].
      unfold set_state, _set_state in Hrun.
      destruct (state_eqb (state r) (Some SKIPPED)) eqn:Eskip.
      * apply state_eqb_true in Eskip.
        unfold mbind, M_bind, mret, M_ret in Hrun. simpl in Hrun. injection Hrun as <-.
        split; [reflexivity|]. intros _ _ Hs. congruence.
      * apply state_eqb_false in Eskip.
        split; [intros _ Hs; congruence|].
        intros _ _ _.
        unfold mbind, M_bind, utcnow, session_merge, mret, M_ret in Hrun. simpl in Hrun.
        injection Hrun as <-. simpl.
        eexists. split; [reflexivity|]. reflexivity.
Qed.

(** [stop_task] writes no row but that of the task instance it is
    given, whatever it ends in. *)
Lemma stop_task_other_rows (f r : TaskInstance) (w w' : World) (res : Result unit) :
  stop_task f r w = (res, w') ->
  forall k, k <> ti_key r -> rows w' !! k = rows w !! k.
Proof.
  intros Hrun k Hk. unfold stop_task in Hrun.
  destruct (_ || _); [injection Hrun as <- <-; reflexivity|].
  destruct (task f ≫= dag) as [d|]; [|injection Hrun as <- <-; reflexivity].
  destruct (task_dict d !! task_id r) as [tdef|]; [|injection Hrun as <- <-; reflexivity].
  destruct (is_teardown tdef); simpl in Hrun; [injection Hrun as <- <-; reflexivity|].
  destruct (state_eqb (state r) (Some RUNNING)).
  - unfold error, mbind, M_bind, session_merge, mret, M_ret in Hrun. simpl in Hrun.
    injection Hrun as <- <-. simpl. apply lookup_insert_ne.
    intros Heq. apply Hk. rewrite <- Heq. reflexivity.
  - unfold set_state, _set_state in Hrun.
    destruct (state_eqb (state r) (Some SKIPPED)).
    + unfold mbind, M_bind, mret, M_ret in Hrun. simpl in Hrun.
      injection Hrun as <- <-. reflexivity.
    + unfold mbind, M_bind, utcnow, session_merge, mret, M_ret in Hrun. simpl in Hrun.
      injection Hrun as <- <-. simpl. apply lookup_insert_ne.
    intros Heq. apply Hk. rewrite <- Heq. reflexivity.
Qed.

(** The loop over task instances with distinct keys: every one of them
    is handled by [stop_task] in a world where its row is as it was
    before the loop, and its row is not written again afterwards. *)
Lemma for_each_stop_task (f : TaskInstance) (l : list TaskInstance) :
  NoDup (ti_key <$> l) ->
  forall w w',
    for_each (stop_task f) l w = (OK tt, w') ->
    (forall k, k ∉ ti_key <$> l -> rows w' !! k = rows w !! k) /\
    (forall r, r ∈ l ->
       exists wi wi',
         stop_task f r wi = (OK tt, wi') /\
         rows wi !! ti_key r = rows w !! ti_key r /\
         rows w' !! ti_key r = rows wi' !! ti_key r).
Proof.
  induction l as [|x l IH]; intros Hnd w w' Hrun.
  - injection Hrun as <-. split; [reflexivity|]. intros r Hr. inversion Hr.
  - rewrite fmap_cons in Hnd. apply NoDup_cons in Hnd as [Hx Hnd].
    simpl in Hrun. unfold mbind, M_bind in Hrun.
    destruct (stop_task f x w) as [[[]|e] w1] eqn:Hstep; [|discriminate].
    destruct (IH Hnd w1 w' Hrun) as [Hother Hmem].
    split.
    + intros k Hk. rewrite fmap_cons in Hk. apply not_elem_of_cons in Hk as [Hkx Hkl].
      rewrite (Hother k Hkl). apply (stop_task_other_rows f x w w1 _ Hstep k Hkx).
    + intros r Hr. apply elem_of_cons in Hr as [-> | Hr].
      * exists w, w1. split; [exact Hstep|]. split; [reflexivity|]. apply Hother, Hx.
      * destruct (Hmem r Hr) as (wi & wi' & Hs & Hbefore & Hafter).
        exists wi, wi'. split; [exact Hs|]. split; [|exact Hafter].
        rewrite Hbefore. apply (stop_task_other_rows f x w w1 _ Hstep).
        intros Heq. apply Hx. rewrite <- Heq. apply list_elem_of_fmap. eauto.
Qed.

(** The task instances of a run, as queried, are rows of the table, each
    under its key, and no two of them share a key. *)
Lemma get_task_instances_spec (dag_id' run_id' : string) (w : World) :
  stored_under_key w ->
  exists l,
    get_task_instances dag_id' run_id' w = (OK l, w) /\
    NoDup (ti_key <$> l) /\
    (forall r, r ∈ l <->
       rows w !! ti_key r = Some r /\ dag_id r = dag_id' /\ run_id r = run_id').
Proof.
  intros Hwf. unfold get_task_instances, reads.
  eexists. split; [reflexivity|].
  assert (Hkeys : ti_key <$> (snd <$> map_to_list (rows w)) = fst <$> map_to_list (rows w)).
  { rewrite <- list_fmap_compose. apply list_fmap_ext.
    intros i [k r] Hin. simpl.
    apply Hwf. apply elem_of_map_to_list. eapply list_elem_of_lookup_2, Hin. }
  split.
  - apply (sublist_NoDup _ (ti_key <$> (snd <$> map_to_list (rows w)))).
    + rewrite Hkeys. apply NoDup_fst_map_to_list.
    + apply fmap_sublist, sublist_filter.
  - intros r. rewrite list_elem_of_filter, list_elem_of_fmap. split.
    + intros [[Hd Hr] ([k r'] & -> & Hin)]. simpl in *.
      apply elem_of_map_to_list in Hin.
      rewrite (Hwf k r' Hin). auto.
    + intros (Hrow & Hd & Hr). split; [auto|].
      exists (ti_key r, r). split; [reflexivity|]. apply elem_of_map_to_list, Hrow.
Qed.

(** What [_stop_remaining_tasks] leaves in the table when it returns. *)
Lemma stop_remaining_tasks_spec (f : TaskInstance) (w w' : World) :
  stored_under_key w ->
  _stop_remaining_tasks f w = (OK tt, w') ->
  forall k r, rows w !! k = Some r ->
    (dag_id r <> dag_id f \/ run_id r <> run_id f \/ passed_over f r ->
     rows w' !! k = Some r) /\
    (dag_id r = dag_id f -> run_id r = run_id f -> ~ passed_over f r ->
     exists d tdef,
       task f ≫= dag = Some d /\ task_dict d !! task_id r = Some tdef /\
       (is_teardown tdef = true -> rows w' !! k = Some r) /\
       (is_teardown tdef = false -> state r = Some RUNNING ->
        rows w' !! k = Some (row_of (set_state_field (Some FAILED) r))) /\
       (is_teardown tdef = false -> state r <> Some RUNNING ->
        exists r', rows w' !! k = Some r' /\ state r' = Some SKIPPED)).
Proof.
  intros Hwf Hrun k r Hrow.
  unfold _stop_remaining_tasks in Hrun.
  destruct (dag_run f) as [dr|]; [|discriminate].
  destruct (get_task_instances_spec (dag_id f) (run_id f) w Hwf) as (l & Hq & Hnd & Hmem).
  unfold mbind, M_bind in Hrun. rewrite Hq in Hrun.
  destruct (for_each_stop_task f l Hnd w w' Hrun) as [Hother Hin].
  pose proof (Hwf k r Hrow) as Hk. subst k.
  assert (Hrun_mem : dag_id r = dag_id f -> run_id r = run_id f ->
                     exists wi wi', stop_task f r wi = (OK tt, wi') /\
                                    rows wi !! ti_key r = Some r /\
                                    rows w' !! ti_key r = rows wi' !! ti_key r).
  { intros Hd Hr.
    destruct (Hin r) as (wi & wi' & Hs & Hb & Ha); [apply Hmem; auto|].
    exists wi, wi'. rewrite Hb. auto. }
  split.
  - intros Hcase.
    destruct (decide (dag_id r = dag_id f /\ run_id r = run_id f)) as [[Hd' Hr']|Hout].
    + destruct Hcase as [Hc | [Hc | Hpo]]; [contradiction | contradiction |].
      destruct (Hrun_mem Hd' Hr') as (wi & wi' & Hs & Hb & Ha).
      rewrite (stop_task_passed_over f r wi Hpo) in Hs. injection Hs as <-.
      rewrite Ha. exact Hb.
    + rewrite Hother; [exact Hrow|].
      intros Hkey. apply list_elem_of_fmap in Hkey as (r2 & Hk2 & Hr2).
      apply Hmem in Hr2 as (Hrow2 & Hd2 & Hrun2).
      rewrite <- Hk2, Hrow in Hrow2. injection Hrow2 as <-. auto.
  - intros Hd Hr Hnot.
    destruct (Hrun_mem Hd Hr) as (wi & wi' & Hs & Hb & Ha).
    destruct (stop_task_not_passed_over f r wi wi' Hnot Hs)
      as (dg & tdef & Hdag & Htd & Htear & Hrunning & Hskipped & Hrest).
    exists dg, tdef. split; [exact Hdag|]. split; [exact Htd|].
    split; [|split].
    + intros Ht. rewrite Ha, (Htear Ht). exact Hb.
    + intros Ht Hst. rewrite Ha, (Hrunning Ht Hst). apply lookup_insert_eq.
    + intros Ht Hst.
      destruct (decide (state r = Some SKIPPED)) as [Hsk|Hsk].
      * exists r. rewrite Ha, (Hskipped Ht Hsk). auto.
      * destruct (Hrest Ht Hst Hsk) as (r' & Hrows & Hst').
        exists (row_of r'). rewrite Ha, Hrows. split; [apply lookup_insert_eq | exact Hst'].
Qed.

Lemma for_each_stop_task_returns (f : TaskInstance) (d : DAG) (l : list TaskInstance) :
  task f ≫= dag = Some d ->
  (forall r, r ∈ l -> passed_over f r \/ is_Some (task_dict d !! task_id r)) ->
  forall w, exists w', for_each (stop_task f) l w = (OK tt, w').
Proof.
  intros Hdag. induction l as [|x l IH]; intros Hl w.
  - eexists. reflexivity.
  - assert (Hstep : exists w1, stop_task f x w = (OK tt, w1)).
    { destruct (Hl x) as [Hpo | [tdef Htd]]; [left|..].
      - eexists. apply stop_task_passed_over, Hpo.
      - unfold stop_task. rewrite Hdag, Htd.
        destruct (_ || _); [eexists; reflexivity|].
        destruct (is_teardown tdef); simpl; [eexists; reflexivity|].
        destruct (state_eqb (state x) (Some RUNNING)).
        + unfold error, mbind, M_bind, session_merge, mret, M_ret. eexists. reflexivity.
        + unfold set_state, _set_state.
          destruct (state_eqb (state x) (Some SKIPPED));
            unfold mbind, M_bind, utcnow, session_merge, mret, M_ret; simpl;
            eexists; reflexivity. }
    destruct Hstep as [w1 Hstep]. simpl. unfold mbind, M_bind. rewrite Hstep.
    apply IH. intros r Hr. apply Hl. right. exact Hr.
Qed.

(** [_stop_remaining_tasks] returns when the run is known and every task
    instance of the run that is not passed over belongs to a task of the
    DAG. *)
Lemma stop_remaining_tasks_returns (f : TaskInstance) (d : DAG) (w : World) :
  is_Some (dag_run f) ->
  task f ≫= dag = Some d ->
  (forall k r, rows w !! k = Some r -> dag_id r = dag_id f -> run_id r = run_id f ->
     passed_over f r \/ is_Some (task_dict d !! task_id r)) ->
  exists w', _stop_remaining_tasks f w = (OK tt, w').
Proof.
  intros [dr Hdr] Hdag Hall. unfold _stop_remaining_tasks. rewrite Hdr.
  unfold mbind, M_bind, get_task_instances, reads.
  apply (for_each_stop_task_returns f d _ Hdag).
  intros r Hr. apply list_elem_of_filter in Hr as [[Hd Hr] Hin].
  apply list_elem_of_fmap in Hin as ([k r'] & -> & Hin).
  apply elem_of_map_to_list in Hin. eapply Hall; eauto.
Qed.

Lemma set_duration_keeps (x : TaskInstance) :
  ti_key (set_duration x) = ti_key x /\ task (set_duration x) = task x /\
  dag_run (set_duration x) = dag_run x /\ state (set_duration x) = state x.
Proof. unfold set_duration. destruct (end_date x), (start_date x); repeat split. Qed.

(** The first statements of failure handling always succeed; they write
    no row, and the object keeps its key, its task and its run. *)
Lemma record_failure_spec (ti : TaskInstance) (test_mode' : bool) (w : World) :
  stored_under_key w ->
  exists ti2 w2,
    record_failure ti test_mode' w = (OK ti2, w2) /\
    rows w2 = rows w /\ events w2 = events w /\
    ti_key ti2 = ti_key ti /\ task ti2 = task ti /\ dag_run ti2 = dag_run ti.
Proof.
  intros Hwf. unfold record_failure.
  assert (Hrefresh : exists ti1,
    (if negb test_mode' then refresh_from_db ti else mret ti) w = (OK ti1, w) /\
    ti_key ti1 = ti_key ti /\ task ti1 = task ti /\ dag_run ti1 = dag_run ti).
  { destruct test_mode'; simpl.
    - exists ti. repeat split.
    - unfold refresh_from_db, get_task_instance, reads, mbind, M_bind.
      destruct (rows w !! ti_key ti) as [row|] eqn:Hrow.
      + exists (with_columns_of row ti). split; [reflexivity|].
        split; [exact (Hwf _ _ Hrow) | split; reflexivity].
      + exists (set_state_field None ti). repeat split. }
  destruct Hrefresh as (ti1 & Hr & Hk & Ht & Hd).
  unfold mbind at 1. unfold M_bind at 1. rewrite Hr.
  unfold mbind, M_bind, utcnow, session_add_log, mret, M_ret. simpl.
  destruct (set_duration_keeps (set_end_date (Some (clock w (ticks w))) ti1))
    as (Hk2 & Ht2 & Hd2 & _).
  destruct test_mode'; simpl; do 2 eexists; (split; [reflexivity|]); simpl;
    (split; [reflexivity|]); (split; [reflexivity|]);
    change (ti_key (clear_next_method_args ?x)) with (ti_key x);
    change (task (clear_next_method_args ?x)) with (task x);
    change (dag_run (clear_next_method_args ?x)) with (dag_run x);
    rewrite Hk2, Ht2, Hd2; auto.
Qed.

(** When the instance comes out marked failed and a task was resolved,
    the remaining tasks have been stopped. *)
Lemma fail_or_retry_failed
    (ti : TaskInstance) (task' : option Operator) (context force_fail : bool)
    (fc : FailureContext) (w w' : World) :
  fail_or_retry ti task' context force_fail true w = (OK fc, w') ->
  state (fc_ti fc) = Some FAILED ->
  is_Some (fc_task fc) ->
  _stop_remaining_tasks (set_state_field (Some FAILED) ti) w = (OK tt, w').
Proof.
  unfold fail_or_retry. intros Hrun Hstate Htask.
  destruct (force_fail || negb (is_eligible_to_retry ti)).
  - unfold mbind, M_bind, mret, M_ret in Hrun.
    destruct task' as [t|].
    + simpl in Hrun.
      destruct (_stop_remaining_tasks _ w) as [[[]|e] w1]; [|discriminate].
      injection Hrun as _ <-. reflexivity.
    + simpl in Hrun. injection Hrun as <- <-. simpl in Htask.
      destruct Htask; discriminate.
  - exfalso.
    unfold mbind, M_bind, record_ti, uuid7, mret, M_ret in Hrun.
    destruct (state_eqb (state ti) (Some RUNNING)); simpl in Hrun;
      injection Hrun as <- <-; discriminate.
Qed.

(** C6, as stated, fails: in a run with fail-fast, when one instance of
    a mapped task is marked failed, the other instance of that task,
    running and not a teardown, is left running: the loop passes over
    every instance of the failing task. *)
Lemma fail_fast_leaves_mapped_sibling :
  state (Sample.example_row "extract" 1 (Some RUNNING)) = Some RUNNING /\
  match fetch_handle_failure_context Sample.mapped_failing_ti false true true true
          (Sample.world_of Sample.mapped_run_rows) with
  | (OK fc, w') =>
      state (fc_ti fc) = Some FAILED /\
      is_Some (fc_task fc) /\
      rows w' !! ("etl", "extract", "run1", 1)
      = Some (Sample.example_row "extract" 1 (Some RUNNING))
  | (Raise _, _) => False
  end.
Proof.
  split; [reflexivity|]. vm_compute.
  split; [reflexivity|]. split; [eexists|]; reflexivity.
Qed.

(** C6, amended: when a failure is handled in a run with fail-fast, the
    instance comes out marked failed and its task was resolved, then of
    the task instances of the same run those of the failing task itself
    and those in state success or failed are left as they are; every
    other one belongs to a task of the DAG, and it is left as it is when
    that task is a teardown, forced to failed when it is running, and
    in state skipped otherwise. *)
Theorem fail_fast_stops_remaining_tasks
    (ti : TaskInstance) (test_mode' context force_fail : bool) (fc : FailureContext)
    (w w' : World) :
  stored_under_key w ->
  fetch_handle_failure_context ti test_mode' context force_fail true w = (OK fc, w') ->
  state (fc_ti fc) = Some FAILED ->
  is_Some (fc_task fc) ->
  forall k r,
    rows w !! k = Some r -> dag_id r = dag_id ti -> run_id r = run_id ti ->
    (passed_over ti r -> rows w' !! k = Some r) /\
    (~ passed_over ti r ->
     exists d tdef,
       task ti ≫= dag = Some d /\ task_dict d !! task_id r = Some tdef /\
       (is_teardown tdef = true -> rows w' !! k = Some r) /\
       (is_teardown tdef = false -> state r = Some RUNNING ->
        rows w' !! k = Some (row_of (set_state_field (Some FAILED) r))) /\
       (is_teardown tdef = false -> state r <> Some RUNNING ->
        exists r', rows w' !! k = Some r' /\ state r' = Some SKIPPED)).
Proof.
  intros Hwf Hrun Hstate Htask k r Hrow Hd Hr.
  unfold fetch_handle_failure_context in Hrun.
  destruct (record_failure_spec ti test_mode' w Hwf)
    as (ti2 & w2 & Hrec & Hrows2 & _ & Hkey2 & Htask2 & _).
  unfold mbind at 1 in Hrun. unfold M_bind at 1 in Hrun. rewrite Hrec in Hrun.
  unfold mbind at 1 in Hrun. unfold M_bind at 1 in Hrun.
  destruct (fail_or_retry ti2 _ _ force_fail true w2) as [[fc1|e] w3] eqn:Hfr; [|discriminate].
  unfold mbind, M_bind, emit, mret, M_ret in Hrun. injection Hrun as <- <-.
  pose proof (fail_or_retry_failed _ _ _ _ _ _ _ Hfr Hstate Htask) as Hstop.
  assert (Hwf2 : stored_under_key w2).
  { intros k' r' H'. apply Hwf. rewrite <- Hrows2. exact H'. }
  injection Hkey2 as Hdag Htid Hrid Hmap.
  assert (Hpo : passed_over (set_state_field (Some FAILED) ti2) r <-> passed_over ti r).
  { unfold passed_over. simpl. rewrite Htid. tauto. }
  rewrite <- Hrows2 in Hrow.
  destruct (stop_remaining_tasks_spec _ w2 w3 Hwf2 Hstop k r Hrow) as [Hleft Hforced].
  simpl. split.
  - intros H. apply Hleft. right. right. apply Hpo, H.
  - intros H.
    destruct Hforced as (d & tdef & Hd' & Htd & Hrest).
    + simpl. congruence.
    + simpl. congruence.
    + intros H'. apply H, Hpo, H'.
    + exists d, tdef. simpl in Hd'. rewrite Htask2 in Hd'. auto.
Qed.

(** Failure handling returns when the run of the instance is known, its
    task belongs to a DAG and every task instance of the run that is not
    passed over belongs to a task of that DAG. *)
Lemma fetch_handle_failure_context_returns
    (ti : TaskInstance) (test_mode' context force_fail fail_fast' : bool) (d : DAG)
    (w : World) :
  stored_under_key w ->
  is_Some (dag_run ti) ->
  task ti ≫= dag = Some d ->
  (forall k r, rows w !! k = Some r -> dag_id r = dag_id ti -> run_id r = run_id ti ->
     passed_over ti r \/ is_Some (task_dict d !! task_id r)) ->
  exists fc w',
    fetch_handle_failure_context ti test_mode' context force_fail fail_fast' w = (OK fc, w').
Proof.
  intros Hwf Hdr Hdag Hall.
  unfold fetch_handle_failure_context.
  destruct (record_failure_spec ti test_mode' w Hwf)
    as (ti2 & w2 & Hrec & Hrows2 & _ & Hkey2 & Htask2 & Hdr2).
  unfold mbind at 1. unfold M_bind at 1. rewrite Hrec.
  unfold mbind at 1. unfold M_bind at 1.
  injection Hkey2 as Hdagid Htid Hrid Hmap.
  assert (Hfr : exists fc1 w3,
    fail_or_retry ti2
      match task ti2 with
      | Some t =>
          if (context || bool_decide (is_Some (task ti2))) && negb (unmap_raises t)
          then Some t else None
      | None => None
      end (context || bool_decide (is_Some (task ti2))) force_fail fail_fast' w2
    = (OK fc1, w3)).
  { unfold fail_or_retry.
    destruct (force_fail || negb (is_eligible_to_retry ti2)).
    - destruct (_ && fail_fast').
      + destruct (stop_remaining_tasks_returns (set_state_field (Some FAILED) ti2) d w2)
          as [w3 Hstop].
        * simpl. rewrite Hdr2. exact Hdr.
        * simpl. rewrite Htask2. exact Hdag.
        * intros k r Hrow Hd Hr. rewrite Hrows2 in Hrow. simpl in Hd, Hr.
          destruct (Hall k r Hrow) as [Hpo | Hin]; [congruence | congruence | |].
          -- left. unfold passed_over in *. simpl. rewrite Htid. exact Hpo.
          -- right. exact Hin.
        * unfold mbind, M_bind. rewrite Hstop. do 2 eexists. reflexivity.
      + do 2 eexists. reflexivity.
    - unfold mbind, M_bind, record_ti, uuid7, mret, M_ret.
      destruct (state_eqb (state ti2) (Some RUNNING)); do 2 eexists; reflexivity. }
  destruct Hfr as (fc1 & w3 & ->).
  unfold mbind, M_bind, emit, mret, M_ret. do 2 eexists. reflexivity.
Qed.

Lemma fail_fast_stops_remaining_tasks_witness :
  exists fc w',
    fetch_handle_failure_context Sample.running_ti false true true true
      (Sample.world_of Sample.run_rows) = (OK fc, w') /\
    (exists r', rows w' !! ("etl", "load", "run1", -1) = Some r' /\ state r' = Some SKIPPED) /\
    rows w' !! ("etl", "cleanup", "run1", -1)
    = Some (Sample.example_row "cleanup" (-1) (Some SCHEDULED)).
Proof.
  pose (res := fetch_handle_failure_context Sample.running_ti false true true true
              (Sample.world_of Sample.run_rows)).
  assert (Hok : exists fc, fst res = OK fc /\ state (fc_ti fc) = Some FAILED /\ is_Some (fc_task fc)).
  { vm_compute. eexists. split; [reflexivity|]. split; [reflexivity|]. eexists. reflexivity. }
  destruct Hok as (fc & Hfst & Hstate & Htask).
  assert (Hrun : fetch_handle_failure_context Sample.running_ti false true true true
              (Sample.world_of Sample.run_rows) = (OK fc, snd res)).
  { rewrite <- Hfst. apply surjective_pairing. }
  exists fc, (snd res). split; [exact Hrun|].
  pose proof (fail_fast_stops_remaining_tasks Sample.running_ti false true true fc
                (Sample.world_of Sample.run_rows) (snd res)
                (world_of_stored_under_key Sample.run_rows) Hrun Hstate Htask) as H.
  split.
  - destruct (H ("etl", "load", "run1", -1) (Sample.example_row "load" (-1) (Some SCHEDULED)))
      as [_ Hforced]; [vm_compute; reflexivity | reflexivity | reflexivity |].
    destruct Hforced as (d & tdef & Hd & Htd & _ & _ & Hskip).
    + intros [Hp | [Hp | Hp]]; discriminate.
    + apply Hskip; [|discriminate].
      injection Hd as <-. vm_compute in Htd. injection Htd as <-. reflexivity.
  - destruct (H ("etl", "cleanup", "run1", -1)
                (Sample.example_row "cleanup" (-1) (Some SCHEDULED)))
      as [_ Hforced]; [vm_compute; reflexivity | reflexivity | reflexivity |].
    destruct Hforced as (d & tdef & Hd & Htd & Htear & _).
    + intros [Hp | [Hp | Hp]]; discriminate.
    + apply Htear.
      injection Hd as <-. vm_compute in Htd. injection Htd as <-. reflexivity.
Defined.

(** * Further properties *)

(** ** Sequencing in the world *)

(** A computation that returns [a] passes it on. *)
Lemma M_bind_OK {A B : Type} (m : M A) (k : A -> M B) (w w' : World) (a : A) :
  m w = (OK a, w') -> (m ≫= k) w = k a w'.
Proof. intros H. unfold mbind, M_bind. rewrite H. reflexivity. Qed.

Lemma M_bind_bind_OK {A B C : Type} (m : M A) (k0 : A -> M B) (k : B -> M C)
    (w w' : World) (a : A) :
  m w = (OK a, w') -> ((m ≫= k0) ≫= k) w = (k0 a ≫= k) w'.
Proof. intros H. unfold mbind, M_bind. rewrite H. reflexivity. Qed.

(** An exception ends the sequence. *)
Lemma M_bind_Raise {A B : Type} (m : M A) (k : A -> M B) (w w' : World) (e : Exn) :
  m w = (Raise e, w') -> (m ≫= k) w = (Raise e, w').
Proof. intros H. unfold mbind, M_bind. rewrite H. reflexivity. Qed.

(** Whatever a sequence ends in, either its first part returned and the
    rest ran from there, or its first part raised. *)
Lemma M_bind_inv {A B : Type} (m : M A) (k : A -> M B) (w w' : World) (res : Result B) :
  (m ≫= k) w = (res, w') ->
  (exists a w1, m w = (OK a, w1) /\ k a w1 = (res, w')) \/
  (exists e, m w = (Raise e, w') /\ res = Raise e).
Proof.
  unfold mbind, M_bind. destruct (m w) as [[a|e] w1].
  - intros H. left. exists a, w1. split; [reflexivity|exact H].
  - intros [= <- <-]. right. exists e. split; reflexivity.
Qed.

Lemma then_raise_not_OK {A B : Type} (m : M A) (e : Exn) (w w' : World) (b : B) :
  (m;; raise e) w <> (OK b, w').
Proof.
  unfold mbind, M_bind, raise. destruct (m w) as [[a|e'] w1]; discriminate.
Qed.

Lemma with_events_same (w : World) : with_events (events w) w = w.
Proof. destruct w. reflexivity. Qed.

Lemma save_to_db_spec (ti : TaskInstance) (w : World) :
  save_to_db ti w
  = (OK (set_updated_at (Some (clock w (ticks w))) ti),
     with_rows (<[ti_key ti := row_of (set_updated_at (Some (clock w (ticks w))) ti)]> (rows w))
       (with_ticks (S (ticks w)) w)).
Proof. reflexivity. Qed.

(** ** The command line *)

Lemma pretty_Z_no_double_dash (z : Z) (s : string) :
  pretty z <> "--" +:+ s.
Proof.
  destruct z as [|p|p]; unfold pretty, pretty_Z.
  - discriminate.
  - unfold pretty, pretty_positive, pretty, pretty_N.
    destruct (decide (N.pos p = 0%N)) as [?|_]; [discriminate|].
    apply (pretty_N_go_ne_dash (N.pos p) "" ("-" +:+ s)). discriminate.
  - simpl. intros [= Heq]. revert Heq.
    unfold pretty, pretty_positive, pretty, pretty_N.
    destruct (decide (N.pos p = 0%N)) as [?|_]; [discriminate|].
    apply (pretty_N_go_ne_dash (N.pos p) "" s). discriminate.
Qed.

Lemma extend_if (b : bool) (cmd ext : list string) :
  (if b then cmd ++ ext else cmd) = cmd ++ (if b then ext else []).
Proof. destruct b; [reflexivity|]. symmetry. apply app_nil_r. Qed.

(** The command as the fixed words followed by one segment per option. *)
Lemma generate_command_segments
    (d t r : string) (mark_success iad idop wait itd its local : bool)
    (file_path : option string) (raw : bool) (pool' cfg_path : option string) (m : Z) :
  generate_command d t r mark_success iad idop wait itd its local file_path raw pool' cfg_path m
  = ["airflow"; "tasks"; "run"; d; t; r]
    ++ (if mark_success then ["--mark-success"] else [])
    ++ (if iad then ["--ignore-all-dependencies"] else [])
    ++ (if itd then ["--ignore-dependencies"] else [])
    ++ (if idop then ["--depends-on-past"; "ignore"]
        else if wait then ["--depends-on-past"; "wait"] else [])
    ++ (if its then ["--force"] else [])
    ++ (if local then ["--local"] else [])
    ++ (if truthy pool' then ["--pool"; default "" pool'] else [])
    ++ (if raw then ["--raw"] else [])
    ++ (if truthy file_path then ["--subdir"; default "" file_path] else [])
    ++ (if truthy cfg_path then ["--cfg-path"; default "" cfg_path] else [])
    ++ (if negb (m =? -1) then ["--map-index"; pretty m] else []).
Proof.
  cbv beta delta [generate_command].
  destruct idop, wait;
    repeat lazymatch goal with
    | |- (let cmd := ?v in @?F cmd) = ?rhs =>
        change (F v = rhs); cbv beta iota; rewrite ?extend_if
    end;
    rewrite <- ?app_assoc, ?app_nil_r; reflexivity.
Qed.

Lemma followed_by_app_l (f v : string) (a b : list string) :
  followed_by f v a -> followed_by f v (a ++ b).
Proof. intros (l1 & l2 & ->). exists l1, (l2 ++ b). rewrite <- app_assoc. reflexivity. Qed.

Lemma followed_by_app_r (f v : string) (a b : list string) :
  followed_by f v b -> followed_by f v (a ++ b).
Proof. intros (l1 & l2 & ->). exists (a ++ l1), l2. rewrite <- app_assoc. reflexivity. Qed.

Lemma followed_by_here (f v : string) : followed_by f v [f; v].
Proof. exists [], []. reflexivity. Qed.

Lemma count_occ_segment (b : bool) (l : list string) (f : string) :
  count_occ string_dec (if b then l else []) f = if b then count_occ string_dec l f else 0%nat.
Proof. destruct b; reflexivity. Qed.

Lemma count_occ_pair (g v f : string) :
  count_occ string_dec [g; v] f
  = (count_occ string_dec [g] f + count_occ string_dec [v] f)%nat.
Proof. apply (count_occ_app string_dec [g] [v]). Qed.

Lemma if_add (b : bool) (n k : nat) :
  (if b then (n + k)%nat else 0%nat) = ((if b then n else 0) + (if b then k else 0))%nat.
Proof. destruct b; reflexivity. Qed.

Lemma if_same {A : Type} (b : bool) (x : A) : (if b then x else x) = x.
Proof. destruct b; reflexivity. Qed.

(** X1: the command [generate_command] builds starts with
    [airflow tasks run dag_id task_id run_id]; when none of [pool],
    [file_path] and [cfg_path] starts with two dashes, each option name
    occurs after these words exactly once when the option is asked for
    and not at all otherwise ([--depends-on-past] once when either of the
    two arguments about past runs is set, [--map-index] once when the map
    index is not -1); [--depends-on-past] is followed by [ignore] when
    [ignore_depends_on_past] is set, whatever
    [wait_for_past_depends_before_skipping] is, and by [wait] when only
    the latter is set; [--pool], [--subdir], [--cfg-path] and
    [--map-index] are followed by their values. *)
Theorem generate_command_options
    (d t r : string) (mark_success iad idop wait itd its local : bool)
    (file_path : option string) (raw : bool) (pool' cfg_path : option string) (m : Z) :
  (forall v s, v ∈ [pool'; file_path; cfg_path] -> v <> Some ("--" +:+ s)) ->
  let cmd := generate_command d t r mark_success iad idop wait itd its local
               file_path raw pool' cfg_path m in
  let occurrences flag := count_occ string_dec (drop 6 cmd) flag in
  take 6 cmd = ["airflow"; "tasks"; "run"; d; t; r] /\
  occurrences "--mark-success" = Nat.b2n mark_success /\
  occurrences "--ignore-all-dependencies" = Nat.b2n iad /\
  occurrences "--ignore-dependencies" = Nat.b2n itd /\
  occurrences "--depends-on-past" = Nat.b2n (idop || wait) /\
  occurrences "--force" = Nat.b2n its /\
  occurrences "--local" = Nat.b2n local /\
  occurrences "--pool" = Nat.b2n (truthy pool') /\
  occurrences "--raw" = Nat.b2n raw /\
  occurrences "--subdir" = Nat.b2n (truthy file_path) /\
  occurrences "--cfg-path" = Nat.b2n (truthy cfg_path) /\
  occurrences "--map-index" = Nat.b2n (negb (m =? -1)) /\
  (idop = true -> followed_by "--depends-on-past" "ignore" (drop 6 cmd)) /\
  (idop = false -> wait = true -> followed_by "--depends-on-past" "wait" (drop 6 cmd)) /\
  (truthy pool' = true -> followed_by "--pool" (default "" pool') (drop 6 cmd)) /\
  (truthy file_path = true -> followed_by "--subdir" (default "" file_path) (drop 6 cmd)) /\
  (truthy cfg_path = true -> followed_by "--cfg-path" (default "" cfg_path) (drop 6 cmd)) /\
  (m <> -1 -> followed_by "--map-index" (pretty m) (drop 6 cmd)).
Proof.
  intros Hvalues cmd occurrences. subst occurrences cmd. cbv beta.
  rewrite generate_command_segments.
  assert (Hval : forall v s, v ∈ [pool'; file_path; cfg_path] ->
            (if truthy v
             then count_occ string_dec [default "" v] ("--" +:+ s)
             else 0%nat) = 0%nat).
  { intros v s Hin. destruct v as [p|]; [|reflexivity].
    destruct (truthy (Some p)); [|reflexivity]. simpl.
    destruct (string_dec p ("--" +:+ s)) as [->|]; [|reflexivity].
    exfalso. apply (Hvalues _ s Hin). reflexivity. }
  assert (Hp := fun s => Hval pool' s ltac:(set_solver)).
  assert (Hf := fun s => Hval file_path s ltac:(set_solver)).
  assert (Hc := fun s => Hval cfg_path s ltac:(set_solver)).
  assert (Hm : forall s,
            (if negb (m =? -1)
             then count_occ string_dec [pretty m] ("--" +:+ s)
             else 0%nat) = 0%nat).
  { intros s. destruct (negb (m =? -1)); [|reflexivity]. cbn [count_occ].
    destruct (string_dec _ _) as [E|]; [|reflexivity].
    exfalso. exact (pretty_Z_no_double_dash m s E). }
  clear Hval Hvalues. cbv beta iota fix delta [String.append] in Hp, Hf, Hc, Hm.
  change (take 6 (?a ++ ?b)) with a.
  change (drop 6 (["airflow"; "tasks"; "run"; d; t; r] ++ ?b)) with b.
  split; [reflexivity|].
  repeat split.
  1-11: destruct idop, wait;
    rewrite !count_occ_app, ?count_occ_segment, ?count_occ_pair, ?if_add;
    rewrite Hp, Hf, Hc, Hm;
    cbn [orb]; count_flags;
    rewrite ?if_same; cbn [Nat.add Nat.b2n]; rewrite ?Nat.add_0_r;
    try reflexivity;
    repeat match goal with |- context [if ?b then _ else _] => destruct b end; reflexivity.
  - intros ->. do 3 apply followed_by_app_r. apply followed_by_app_l, followed_by_here.
  - intros -> ->. do 3 apply followed_by_app_r. apply followed_by_app_l, followed_by_here.
  - intros ->. do 6 apply followed_by_app_r. apply followed_by_app_l, followed_by_here.
  - intros ->. do 8 apply followed_by_app_r. apply followed_by_app_l, followed_by_here.
  - intros ->. do 9 apply followed_by_app_r. apply followed_by_app_l, followed_by_here.
  - intros H. do 10 apply followed_by_app_r.
    replace (m =? -1) with false by (symmetry; apply Z.eqb_neq; exact H).
    apply followed_by_here.
Qed.

(** ** Filters on the task instance table *)

Lemma grouped_snoc {K V : Type} `{Countable K} (key : TaskInstance -> K)
    (val : TaskInstance -> V) (tis : list TaskInstance) (t : TaskInstance) :
  grouped key val (tis ++ [t])
  = let groups := grouped key val tis in
    let group := default ∅ (groups !! (dag_id t, run_id t)) in
    <[(dag_id t, run_id t) := <[key t := default [] (group !! key t) ++ [val t]]> group]> groups.
Proof. unfold grouped. rewrite foldl_app. reflexivity. Qed.

(** The nested dictionary holds [v] under [(d, r)] and [k] exactly when
    some task instance of the list has these four values. *)
Lemma grouped_spec {K V : Type} `{Countable K} (key : TaskInstance -> K)
    (val : TaskInstance -> V) (tis : list TaskInstance) (d r : string) (k : K) (v : V) :
  (exists l, default ∅ (grouped key val tis !! (d, r)) !! k = Some l /\ v ∈ l)
  <-> exists t, t ∈ tis /\ dag_id t = d /\ run_id t = r /\ key t = k /\ val t = v.
Proof.
  revert d r k v. induction tis as [|t tis IH] using rev_ind; intros d r k v.
  - unfold grouped. simpl. rewrite lookup_empty. simpl. split.
    + intros (l & Hl & _). rewrite lookup_empty in Hl. discriminate.
    + intros (t & Ht & _). inversion Ht.
  - rewrite grouped_snoc. cbv zeta.
    destruct (decide ((dag_id t, run_id t) = (d, r))) as [Hdr|Hdr].
    + rewrite Hdr, lookup_insert_eq. simpl.
      destruct (decide (key t = k)) as [Hk|Hk].
      * rewrite Hk, lookup_insert_eq. split.
        -- intros (l & [= <-] & Hv). apply elem_of_app in Hv as [Hv|Hv].
           ++ destruct (default ∅ (grouped key val tis !! (d, r)) !! k) as [l0|] eqn:Hl0.
              ** destruct (proj1 (IH d r k v)) as (t0 & Ht0 & Hrest).
                 { exists l0. split; [exact Hl0|exact Hv]. }
                 exists t0. split; [apply elem_of_app; left; exact Ht0|exact Hrest].
              ** inversion Hv.
           ++ apply list_elem_of_singleton in Hv. exists t.
              injection Hdr as Hd Hr.
              split; [apply elem_of_app; right; apply list_elem_of_singleton; reflexivity|].
              repeat split; congruence.
        -- intros (t0 & Ht0 & Hd0 & Hr0 & Hk0 & Hv0). eexists. split; [reflexivity|].
           apply elem_of_app in Ht0 as [Ht0|Ht0].
           ++ destruct (proj2 (IH d r k v)) as (l0 & Hl0 & Hv).
              { exists t0. repeat split; assumption. }
              rewrite Hl0. simpl. apply elem_of_app. left. exact Hv.
           ++ apply list_elem_of_singleton in Ht0. subst t0.
              apply elem_of_app. right. apply list_elem_of_singleton. symmetry. exact Hv0.
      * rewrite lookup_insert_ne by exact Hk. rewrite IH. split.
        -- intros (t0 & Ht0 & Hrest). exists t0. split; [apply elem_of_app; left; exact Ht0|exact Hrest].
        -- intros (t0 & Ht0 & Hd0 & Hr0 & Hk0 & Hv0).
           apply elem_of_app in Ht0 as [Ht0|Ht0].
           ++ exists t0. repeat split; assumption.
           ++ apply list_elem_of_singleton in Ht0. subst t0. contradiction.
    + rewrite lookup_insert_ne by exact Hdr. rewrite IH. split.
      * intros (t0 & Ht0 & Hrest). exists t0. split; [apply elem_of_app; left; exact Ht0|exact Hrest].
      * intros (t0 & Ht0 & Hd0 & Hr0 & Hk0 & Hv0).
        apply elem_of_app in Ht0 as [Ht0|Ht0].
        -- exists t0. repeat split; assumption.
        -- apply list_elem_of_singleton in Ht0. subst t0. exfalso. apply Hdr. congruence.
Qed.

Lemma elem_of_column_set {A : Type} `{Countable A} (f : TaskInstance -> A)
    (tis : list TaskInstance) (x : A) :
  x ∈ (list_to_set (f <$> tis) : gset A) <-> exists t, t ∈ tis /\ f t = x.
Proof.
  rewrite elem_of_list_to_set, list_elem_of_fmap. split.
  - intros (t & -> & Ht). exists t. split; [exact Ht|reflexivity].
  - intros (t & Ht & <-). exists t. split; [reflexivity|exact Ht].
Qed.

Lemma column_set_singleton {A : Type} `{Countable A} (f : TaskInstance -> A)
    (tis : list TaskInstance) (x : A) (t : TaskInstance) :
  (list_to_set (f <$> tis) : gset A) = {[x]} -> t ∈ tis -> f t = x.
Proof.
  intros Hset Ht. apply (elem_of_singleton (C := gset A)). rewrite <- Hset.
  apply elem_of_column_set. exists t. split; [exact Ht|reflexivity].
Qed.

Lemma ti_key_eq (a b : TaskInstance) :
  ti_key a = ti_key b
  <-> dag_id a = dag_id b /\ run_id a = run_id b /\ task_id a = task_id b /\
      map_index a = map_index b.
Proof.
  unfold ti_key. split.
  - intros [= -> -> -> ->]. repeat split.
  - intros (-> & -> & -> & ->). reflexivity.
Qed.

Lemma holds_And4 (c1 c2 c3 c4 : Clause) (row : TaskInstance) :
  holds (And [c1; c2; c3; c4]) row = true
  <-> holds c1 row = true /\ holds c2 row = true /\ holds c3 row = true /\ holds c4 row = true.
Proof.
  cbn [holds forallb]. rewrite !andb_true_iff. intuition.
Qed.

Lemma holds_Or (cs : list Clause) (row : TaskInstance) :
  holds (Or cs) row = true <-> exists c, c ∈ cs /\ holds c row = true.
Proof.
  cbn [holds]. rewrite existsb_exists. split.
  - intros (c & Hin & Hc). exists c. split; [apply list_elem_of_In; exact Hin|exact Hc].
  - intros (c & Hin & Hc). exists c. split; [apply list_elem_of_In; exact Hin|exact Hc].
Qed.

(** The expression of the general case selects the rows whose key is
    that of a listed task instance. *)
Lemma filter_for_tis_general (tis : list TaskInstance) (row : TaskInstance) :
  let task_id_groups := grouped task_id map_index tis in
  let map_index_groups := grouped map_index task_id tis in
  holds (Or (
    cur ← (cur_dag_id ← elements (list_to_set (dag_id <$> tis) : gset string);
           cur_run_id ← elements (list_to_set (run_id <$> tis) : gset string);
           [(cur_dag_id, cur_run_id)]);
    let dag_task_id_groups := default ∅ (task_id_groups !! cur) in
    let dag_map_index_groups := default ∅ (map_index_groups !! cur) in
    if (size dag_task_id_groups <=? size dag_map_index_groups)%nat
    then (fun item =>
            And [DagIdEq (fst cur); RunIdEq (snd cur); TaskIdEq (fst item);
                 MapIndexIn (snd item)]) <$> map_to_list dag_task_id_groups
    else (fun item =>
            And [DagIdEq (fst cur); RunIdEq (snd cur); TaskIdIn (snd item);
                 MapIndexEq (fst item)]) <$> map_to_list dag_map_index_groups)) row = true
  <-> exists t, t ∈ tis /\ ti_key t = ti_key row.
Proof.
  cbv zeta. rewrite holds_Or. setoid_rewrite ti_key_eq. split.
  - intros (c & Hc & Hrow). apply list_elem_of_bind in Hc as (cur & Hc & _).
    destruct cur as [d r]. cbn [fst snd] in Hc.
    destruct (size _ <=? size _)%nat.
    + apply list_elem_of_fmap in Hc as ([k l] & -> & Hitem).
      apply elem_of_map_to_list in Hitem. cbn [fst snd] in Hrow.
      apply holds_And4 in Hrow as (Hd & Hr & Hk & Hv). cbn [holds] in Hd, Hr, Hk, Hv.
      apply bool_decide_eq_true in Hd, Hr, Hk, Hv.
      destruct (proj1 (grouped_spec task_id map_index tis d r k (map_index row)))
        as (t & Ht & Hd' & Hr' & Hk' & Hv').
      { exists l. split; assumption. }
      exists t. split; [exact Ht|]. repeat split; congruence.
    + apply list_elem_of_fmap in Hc as ([k l] & -> & Hitem).
      apply elem_of_map_to_list in Hitem. cbn [fst snd] in Hrow.
      apply holds_And4 in Hrow as (Hd & Hr & Hv & Hk). cbn [holds] in Hd, Hr, Hk, Hv.
      apply bool_decide_eq_true in Hd, Hr, Hk, Hv.
      destruct (proj1 (grouped_spec map_index task_id tis d r k (task_id row)))
        as (t & Ht & Hd' & Hr' & Hk' & Hv').
      { exists l. split; assumption. }
      exists t. split; [exact Ht|]. repeat split; congruence.
  - intros (t & Ht & Hd & Hr & Hk & Hv).
    assert (Hcur : (dag_id t, run_id t)
              ∈ (cur_dag_id ← elements (list_to_set (dag_id <$> tis) : gset string);
                 cur_run_id ← elements (list_to_set (run_id <$> tis) : gset string);
                 [(cur_dag_id, cur_run_id)])).
    { apply list_elem_of_bind. exists (dag_id t). split.
      - apply list_elem_of_bind. exists (run_id t). split; [left|].
        apply elem_of_elements, elem_of_column_set. exists t. split; [exact Ht|reflexivity].
      - apply elem_of_elements, elem_of_column_set. exists t. split; [exact Ht|reflexivity]. }
    destruct (size (default ∅ (grouped task_id map_index tis !! (dag_id t, run_id t)))
              <=? size (default ∅ (grouped map_index task_id tis !! (dag_id t, run_id t))))%nat
      eqn:Hsize.
    + destruct (proj2 (grouped_spec task_id map_index tis (dag_id t) (run_id t)
                         (task_id t) (map_index t))) as (l & Hl & Hin).
      { exists t. repeat split. exact Ht. }
      eexists. split.
      * apply list_elem_of_bind. exists (dag_id t, run_id t). split; [|exact Hcur].
        cbv zeta. rewrite Hsize. apply list_elem_of_fmap. exists (task_id t, l).
        split; [reflexivity|]. apply elem_of_map_to_list. exact Hl.
      * apply holds_And4. cbn [holds fst snd]. rewrite !bool_decide_eq_true.
        repeat split; congruence.
    + destruct (proj2 (grouped_spec map_index task_id tis (dag_id t) (run_id t)
                         (map_index t) (task_id t))) as (l & Hl & Hin).
      { exists t. repeat split. exact Ht. }
      eexists. split.
      * apply list_elem_of_bind. exists (dag_id t, run_id t). split; [|exact Hcur].
        cbv zeta. rewrite Hsize. apply list_elem_of_fmap. exists (map_index t, l).
        split; [reflexivity|]. apply elem_of_map_to_list. exact Hl.
      * apply holds_And4. cbn [holds fst snd]. rewrite !bool_decide_eq_true.
        repeat split; congruence.
Qed.

(** X2: [filter_for_tis] returns [None] for an empty collection only;
    otherwise the filter it returns, in each of its three shortcuts as in
    the general case, is satisfied by exactly the rows whose [dag_id],
    [task_id], [run_id] and [map_index] are those of one of the given
    task instances. *)
Theorem filter_for_tis_exact (tis : list TaskInstance) :
  match filter_for_tis tis with
  | None => tis = []
  | Some c => forall row, holds c row = true <-> exists t, t ∈ tis /\ ti_key t = ti_key row
  end.
Proof.
  destruct tis as [|first rest]; [reflexivity|].
  unfold filter_for_tis. set (tis := first :: rest).
  assert (Hfirst : first ∈ tis) by (left).
  assert (Hcol : forall (A : Type) `(Countable A) (f : TaskInstance -> A) (row : TaskInstance),
            f row ∈ elements (list_to_set (f <$> tis) : gset A)
            <-> exists t, t ∈ tis /\ f t = f row).
  { intros. rewrite elem_of_elements. apply elem_of_column_set. }
  destruct (bool_decide (list_to_set (dag_id <$> tis) = ({[dag_id first]} : gset string))) eqn:Hd;
    [apply bool_decide_eq_true in Hd|cbn [andb]; intros row; apply filter_for_tis_general].
  pose proof (fun t => column_set_singleton dag_id tis _ t Hd) as Hd'.
  destruct (bool_decide (list_to_set (run_id <$> tis) = ({[run_id first]} : gset string))) eqn:Hr;
  destruct (bool_decide (list_to_set (map_index <$> tis) = ({[map_index first]} : gset Z))) eqn:Hm;
  destruct (bool_decide (list_to_set (task_id <$> tis) = ({[task_id first]} : gset string))) eqn:Ht;
  cbn [andb]; try (intros row; apply filter_for_tis_general);
  try (apply bool_decide_eq_true in Hr;
       pose proof (fun t => column_set_singleton run_id tis _ t Hr) as Hr');
  try (apply bool_decide_eq_true in Hm;
       pose proof (fun t => column_set_singleton map_index tis _ t Hm) as Hm');
  try (apply bool_decide_eq_true in Ht;
       pose proof (fun t => column_set_singleton task_id tis _ t Ht) as Ht');
  intros row; rewrite holds_And4; cbn [holds]; rewrite !bool_decide_eq_true, ?Hcol;
  setoid_rewrite ti_key_eq;
  (split;
   [ intros Hrow;
     repeat match goal with
     | H : _ /\ _ |- _ => destruct H
     | H : exists _, _ |- _ => destruct H as (t & Hin & E)
     end;
     exists t; split; [exact Hin|]
   | intros (t & Hin & E1 & E2 & E3 & E4) ]);
  pose proof (Hd' t Hin);
  try pose proof (Hr' t Hin); try pose proof (Hm' t Hin); try pose proof (Ht' t Hin);
  repeat match goal with |- _ /\ _ => split end;
  try congruence; exists t; (split; [exact Hin|congruence]).
Qed.

(** X3: the condition [ti_selector_condition] builds is satisfied by
    exactly the rows whose task id is among the given task ids or whose
    task id and map index are among the given pairs; for an empty
    collection it is satisfied by none. *)
Theorem ti_selector_condition_spec (vals : list Selector) (row : TaskInstance) :
  holds (ti_selector_condition vals) row = true
  <-> ByTaskId (task_id row) ∈ vals \/
      ByTaskIdAndMapIndex (task_id row) (map_index row) ∈ vals.
Proof.
  unfold ti_selector_condition.
  set (task_id_only := omap (fun v => match v with ByTaskId s => Some s | _ => None end) vals).
  set (with_map_index :=
         omap (fun v => match v with ByTaskIdAndMapIndex s i => Some (s, i) | _ => None end)
           vals).
  assert (H1 : task_id row ∈ task_id_only <-> ByTaskId (task_id row) ∈ vals).
  { subst task_id_only. rewrite list_elem_of_omap. split.
    - intros ([s|s i] & Hin & [= <-]). exact Hin.
    - intros Hin. eexists. split; [exact Hin|reflexivity]. }
  assert (H2 : (task_id row, map_index row) ∈ with_map_index
               <-> ByTaskIdAndMapIndex (task_id row) (map_index row) ∈ vals).
  { subst with_map_index. rewrite list_elem_of_omap. split.
    - intros ([s|s i] & Hin & [= <- <-]). exact Hin.
    - intros Hin. eexists. split; [exact Hin|reflexivity]. }
  rewrite <- H1, <- H2. clear H1 H2.
  destruct task_id_only as [|a l1], with_map_index as [|b l2];
    rewrite ?(bool_decide_eq_true_2 (_ :: _ <> [])) by discriminate;
    rewrite ?(bool_decide_eq_false_2 ([] <> [])) by (intros H; apply H; reflexivity);
    cbn [app holds existsb]; rewrite ?orb_true_iff, ?bool_decide_eq_true, ?orb_false_r.
  - split; [discriminate|]. intros [H|H]; inversion H.
  - split; [auto|]. intros [H|H]; [inversion H|exact H].
  - split; [auto|]. intros [H|H]; [exact H|inversion H].
  - split; intros [H|H]; auto. destruct H as [H|H]; [auto|discriminate].
Qed.

(** ** Clearing *)

Lemma run_ids_by_dag_id_spec (tis : list TaskInstance) (d r : string) :
  r ∈ default ∅ (run_ids_by_dag_id tis !! d)
  <-> exists ti, ti ∈ tis /\ dag_id ti = d /\ run_id ti = r.
Proof.
  revert d r. induction tis as [|t tis IH] using rev_ind; intros d r.
  - unfold run_ids_by_dag_id. simpl. rewrite lookup_empty. simpl. split.
    + intros H. apply elem_of_empty in H. contradiction.
    + intros (ti & Hin & _). inversion Hin.
  - unfold run_ids_by_dag_id. rewrite foldl_app. simpl.
    fold (run_ids_by_dag_id tis).
    destruct (decide (dag_id t = d)) as [Hd|Hd].
    + rewrite Hd, lookup_insert_eq. simpl. rewrite elem_of_union, elem_of_singleton, IH.
      split.
      * intros [(ti & Hin & Hrest)|Hr].
        -- exists ti. split; [apply elem_of_app; left; exact Hin|exact Hrest].
        -- exists t. split; [apply elem_of_app; right; apply list_elem_of_singleton; reflexivity|].
           split; congruence.
      * intros (ti & Hin & Hd' & Hr'). apply elem_of_app in Hin as [Hin|Hin].
        -- left. exists ti. repeat split; assumption.
        -- apply list_elem_of_singleton in Hin. subst ti. right. congruence.
    + rewrite lookup_insert_ne by exact Hd. rewrite IH. split.
      * intros (ti & Hin & Hrest). exists ti. split; [apply elem_of_app; left; exact Hin|exact Hrest].
      * intros (ti & Hin & Hd' & Hr'). apply elem_of_app in Hin as [Hin|Hin].
        -- exists ti. repeat split; assumption.
        -- apply list_elem_of_singleton in Hin. subst ti. contradiction.
Qed.

(** What [reset_dag_run] does to a row. *)
Lemma reset_dag_run_spec (s : DagRunState.t) (dr : DagRunRow) (w : World) :
  exists dr' w',
    reset_dag_run s dr w = (OK dr', w') /\
    rows w' = rows w /\ history w' = history w /\
    drr_dag_id dr' = drr_dag_id dr /\ drr_run_id dr' = drr_run_id dr /\
    (finished_dr_states (drr_state dr) = false -> dr' = dr) /\
    (finished_dr_states (drr_state dr) = true ->
     drr_state dr' = s /\
     (s = DagRunState.QUEUED ->
      drr_start_date dr' = None /\ last_scheduling_decision dr' = None /\
      clear_number dr' = clear_number dr + 1) /\
     (s <> DagRunState.QUEUED ->
      drr_start_date dr' = Some (clock w (ticks w)) /\
      last_scheduling_decision dr' = last_scheduling_decision dr /\
      clear_number dr' = clear_number dr)).
Proof.
  unfold reset_dag_run. destruct (finished_dr_states (drr_state dr)) eqn:Hfin.
  - cbn. destruct s; cbn; eexists _, _; (split; [reflexivity|]); cbn;
      repeat split; try discriminate; try congruence.
  - eexists _, _. split; [reflexivity|]. repeat split; try discriminate.
Qed.

Section ClearingFacts.

Variable task_instance_mutation_hook : TaskInstance -> TaskInstance.
Variable dag_bag_get_dag : string -> option DAG.
Variable get_task : DAG -> string -> Operator.

Lemma clear_task_instance_spec (dag' : option DAG) (ti : TaskInstance) (w : World) :
  exists ti' w',
    clear_task_instance task_instance_mutation_hook dag_bag_get_dag get_task dag' ti w
    = (OK ti', w') /\
    cleared ti ti' /\
    history w' = history w ++ [row_of ti] /\
    (state ti = Some RUNNING -> rows w' = rows w) /\
    (state ti <> Some RUNNING -> rows w' = <[ti_key ti' := row_of ti']> (rows w)).
Proof.
  unfold clear_task_instance, record_ti, uuid7, cleared. cbn.
  destruct (state_eqb (state ti) (Some RUNNING)) eqn:Hstate.
  - eexists _, _. split; [reflexivity|]. cbn. repeat split.
    intros Hne. apply state_eqb_true in Hstate. contradiction.
  - cbv zeta. eexists _, _. split; [reflexivity|]. cbn. repeat split.
    intros Hrun. apply state_eqb_false in Hstate. contradiction.
Qed.

Lemma map_m_clear_task_instance (dag' : option DAG) (tis : list TaskInstance) (w : World) :
  exists tis' w',
    map_m (clear_task_instance task_instance_mutation_hook dag_bag_get_dag get_task dag') tis w
    = (OK tis', w') /\
    Forall2 cleared tis tis' /\
    history w' = history w ++ (row_of <$> tis).
Proof.
  revert w. induction tis as [|ti tis IH]; intros w.
  - exists [], w. split; [reflexivity|]. split; [constructor|]. cbn. symmetry. apply app_nil_r.
  - destruct (clear_task_instance_spec dag' ti w) as (ti' & w1 & Hrun & Hcl & Hh & _).
    destruct (IH w1) as (tis' & w2 & Hrun2 & Hcl2 & Hh2).
    exists (ti' :: tis'), w2. split; [|split].
    + cbn [map_m]. unfold mbind, M_bind. rewrite Hrun, Hrun2. reflexivity.
    + constructor; assumption.
    + rewrite Hh2, Hh. cbn. rewrite <- app_assoc. reflexivity.
Qed.

Lemma map_m_reset_dag_run (s : DagRunState.t) (sel : DagRunRow -> bool)
    (drs : list DagRunRow) (w : World) :
  exists drs' w',
    map_m (fun dr => if sel dr then reset_dag_run s dr else mret dr) drs w = (OK drs', w') /\
    history w' = history w /\ rows w' = rows w /\
    Forall2 (fun dr dr' =>
      drr_dag_id dr' = drr_dag_id dr /\ drr_run_id dr' = drr_run_id dr /\
      (sel dr = false -> dr' = dr) /\
      (finished_dr_states (drr_state dr) = false -> dr' = dr) /\
      (sel dr = true -> finished_dr_states (drr_state dr) = true ->
       drr_state dr' = s /\
       (s = DagRunState.QUEUED ->
        drr_start_date dr' = None /\ last_scheduling_decision dr' = None /\
        clear_number dr' = clear_number dr + 1) /\
       (s <> DagRunState.QUEUED ->
        is_Some (drr_start_date dr') /\
        last_scheduling_decision dr' = last_scheduling_decision dr /\
        clear_number dr' = clear_number dr))) drs drs'.
Proof.
  revert w. induction drs as [|dr drs IH]; intros w.
  - exists [], w. repeat split. constructor.
  - destruct (sel dr) eqn:Hsel.
    + destruct (reset_dag_run_spec s dr w)
        as (dr' & w1 & Hrun & Hrows & Hhist & Hd & Hr & Hnot & Hfin).
      destruct (IH w1) as (drs' & w2 & Hrun2 & Hhist2 & Hrows2 & Hall).
      exists (dr' :: drs'), w2. split; [|split; [|split]].
      * cbn [map_m]. rewrite Hsel. rewrite (M_bind_OK _ _ _ _ _ Hrun), (M_bind_OK _ _ _ _ _ Hrun2).
        reflexivity.
      * congruence.
      * congruence.
      * constructor; [|exact Hall]. split; [exact Hd|]. split; [exact Hr|].
        split; [intros ?; congruence|]. split; [exact Hnot|]. intros _ Hf.
        destruct (Hfin Hf) as (Hs & Hq & Hnq). split; [exact Hs|]. split; [exact Hq|].
        intros Hne. destruct (Hnq Hne) as (Hsd & Hrest). split; [|exact Hrest].
        rewrite Hsd. eexists. reflexivity.
    + destruct (IH w) as (drs' & w2 & Hrun2 & Hhist2 & Hrows2 & Hall).
      exists (dr :: drs'), w2. split; [|split; [|split]].
      * cbn [map_m]. rewrite Hsel. rewrite (M_bind_OK _ _ w w dr) by reflexivity.
        rewrite (M_bind_OK _ _ _ _ _ Hrun2). reflexivity.
      * exact Hhist2.
      * exact Hrows2.
      * constructor; [|exact Hall]. repeat split; intros; try reflexivity; congruence.
Qed.

(** X4: [clear_task_instances] always returns.  A task instance that was
    running comes out in state restarting, which makes it eligible to
    retry, with its key, [try_number] and [max_tries] as they were; any
    other comes out in state [None] with no external executor id and no
    continuation ([next_method], [next_kwargs]).  One record per given
    task instance is added to the history, in order, holding the
    instance as it was before clearing.  The reschedule records of the
    given task instances are deleted and no others. *)
Theorem clear_task_instances_outcome
    (tis : list TaskInstance) (dag' : option DAG) (dag_run_state : option DagRunState.t)
    (task_reschedules : list TaskReschedule) (dag_runs : list DagRunRow) (w : World) :
  exists tis' task_reschedules' dag_runs' w',
    clear_task_instances task_instance_mutation_hook dag_bag_get_dag get_task
      tis dag' dag_run_state task_reschedules dag_runs w
    = (OK (tis', task_reschedules', dag_runs'), w') /\
    Forall2 cleared tis tis' /\
    history w' = history w ++ (row_of <$> tis) /\
    (forall tr, tr ∈ task_reschedules'
       <-> tr ∈ task_reschedules /\ forall ti, ti ∈ tis -> tr_ti tr <> ti_key ti).
Proof.
  unfold clear_task_instances.
  destruct (map_m_clear_task_instance dag' tis w) as (tis' & w1 & Hrun & Hcl & Hhist).
  unfold mbind at 1, M_bind at 1. rewrite Hrun.
  set (selected := fun dr : DagRunRow =>
         bool_decide (drr_run_id dr ∈ default ∅ (run_ids_by_dag_id tis' !! drr_dag_id dr))).
  assert (Hdrs : exists dag_runs' w',
            match dag_run_state with
            | Some dag_run_state =>
                if bool_decide (tis' <> []) then
                  map_m (fun dr => if selected dr then reset_dag_run dag_run_state dr else mret dr)
                    dag_runs
                else mret dag_runs
            | None => mret dag_runs
            end w1 = (OK dag_runs', w') /\ history w' = history w1).
  { destruct dag_run_state as [s|]; [|exists dag_runs, w1; split; reflexivity].
    destruct (bool_decide (tis' <> [])); [|exists dag_runs, w1; split; reflexivity].
    destruct (map_m_reset_dag_run s selected dag_runs w1) as (drs' & w2 & Hr & Hh & _).
    exists drs', w2. split; assumption. }
  destruct Hdrs as (dag_runs' & w2 & Hrun2 & Hhist2).
  eexists tis', _, dag_runs', w2. split; [|split; [exact Hcl|split]].
  - unfold mbind, M_bind. cbv zeta. subst selected. cbv beta in Hrun2. rewrite Hrun2.
    reflexivity.
  - congruence.
  - intros tr. destruct (bool_decide (ti_key <$> tis <> [])) eqn:Hne.
    + rewrite list_elem_of_filter. split.
      * intros [Hnot Hin]. split; [exact Hin|]. intros ti Hti Heq. apply Hnot.
        rewrite Heq. apply list_elem_of_fmap. exists ti. split; [reflexivity|exact Hti].
      * intros [Hin Hnot]. split; [|exact Hin]. intros Hmem.
        apply list_elem_of_fmap in Hmem as (ti & Heq & Hti). exact (Hnot ti Hti Heq).
    + split; [|intros [Hin _]; exact Hin]. intros Hin. split; [exact Hin|].
      intros ti Hti. apply bool_decide_eq_false in Hne.
      exfalso. apply Hne. intros Hnil. destruct tis; [inversion Hti|discriminate].
Qed.

(** X5: clearing a task instance that is not running writes its row, and
    sets its retry budget: when its DAG (the one given, if it is the
    instance's, otherwise the one of the DAG bag) has the task,
    [max_tries] becomes [try_number] plus the task's [retries]; when the
    DAG or the task is not found, [try_number] is kept and [max_tries]
    becomes the larger of [max_tries] and [try_number], so that it never
    decreases and is at least [try_number]. *)
Theorem clear_task_instance_retry_budget (dag' : option DAG) (ti : TaskInstance) (w : World) :
  state ti <> Some RUNNING ->
  exists ti' w',
    clear_task_instance task_instance_mutation_hook dag_bag_get_dag get_task dag' ti w
    = (OK ti', w') /\
    rows w' !! ti_key ti' = Some (row_of ti') /\
    let ti_dag :=
      match dag' with
      | Some d => if String.eqb (dag_dag_id d) (dag_id ti) then Some d
                  else dag_bag_get_dag (dag_id ti)
      | None => dag_bag_get_dag (dag_id ti)
      end in
    match ti_dag ≫= (fun d => task_dict d !! task_id ti ≫= (fun _ => Some d)) with
    | Some d => max_tries ti' = try_number ti' + retries (get_task d (task_id ti))
    | None =>
        try_number ti' = try_number ti /\
        max_tries ti' = Z.max (max_tries ti) (try_number ti) /\
        try_number ti' <= max_tries ti' /\ max_tries ti <= max_tries ti'
    end.
Proof.
  intros Hstate. apply state_eqb_false in Hstate.
  unfold clear_task_instance, record_ti, uuid7, session_merge, mbind, M_bind, mret, M_ret.
  change (state (set_try_id ?v ?x)) with (state x). rewrite Hstate. cbv zeta.
  change (dag_id (set_try_id ?v ?x)) with (dag_id x).
  change (task_id (set_try_id ?v ?x)) with (task_id x).
  set (ti_dag := match dag' with Some d => _ | None => _ end).
  destruct ti_dag as [d|]; cbn [option_bind].
  - destruct (task_dict d !! task_id ti) as [tdef|] eqn:Htd; cbn [option_bind].
    + rewrite bool_decide_eq_true_2 by (eexists; reflexivity).
      eexists _, _. split; [reflexivity|]. split; [apply lookup_insert_eq|]. reflexivity.
    + rewrite bool_decide_eq_false_2 by (intros [x Hx]; discriminate).
      eexists _, _. split; [reflexivity|]. split; [apply lookup_insert_eq|].
      cbn. repeat split; lia.
  - eexists _, _. split; [reflexivity|]. split; [apply lookup_insert_eq|].
    cbn. repeat split; lia.
Qed.

(** X6: [clear_task_instances] leaves a row of the [dag_run] table as it
    is when no state is asked for ([dag_run_state] is [False]), when the
    run is not finished (queued or running) or when none of the cleared
    task instances belongs to it; a finished run of a cleared task
    instance is set to the state asked for, and when that is queued its
    start date and last scheduling decision are erased and its
    [clear_number] goes up by one, while for another state its start
    date is set and the other two are kept.  No row changes its
    [dag_id] or [run_id]. *)
Theorem clear_task_instances_dag_runs
    (tis : list TaskInstance) (dag' : option DAG) (dag_run_state : option DagRunState.t)
    (task_reschedules : list TaskReschedule) (dag_runs : list DagRunRow) (w : World) :
  exists tis' task_reschedules' dag_runs' w',
    clear_task_instances task_instance_mutation_hook dag_bag_get_dag get_task
      tis dag' dag_run_state task_reschedules dag_runs w
    = (OK (tis', task_reschedules', dag_runs'), w') /\
    Forall2 (fun dr dr' =>
      drr_dag_id dr' = drr_dag_id dr /\ drr_run_id dr' = drr_run_id dr /\
      (dag_run_state = None -> dr' = dr) /\
      (finished_dr_states (drr_state dr) = false -> dr' = dr) /\
      ((forall ti, ti ∈ tis' -> dag_id ti = drr_dag_id dr -> run_id ti <> drr_run_id dr) ->
       dr' = dr) /\
      (forall s ti,
         dag_run_state = Some s -> finished_dr_states (drr_state dr) = true ->
         ti ∈ tis' -> dag_id ti = drr_dag_id dr -> run_id ti = drr_run_id dr ->
         drr_state dr' = s /\
         (s = DagRunState.QUEUED ->
          drr_start_date dr' = None /\ last_scheduling_decision dr' = None /\
          clear_number dr' = clear_number dr + 1) /\
         (s <> DagRunState.QUEUED ->
          is_Some (drr_start_date dr') /\
          last_scheduling_decision dr' = last_scheduling_decision dr /\
          clear_number dr' = clear_number dr))) dag_runs dag_runs'.
Proof.
  unfold clear_task_instances.
  destruct (map_m_clear_task_instance dag' tis w) as (tis' & w1 & Hrun & Hcl & Hhist).
  unfold mbind at 1, M_bind at 1. rewrite Hrun.
  set (selected := fun dr : DagRunRow =>
         bool_decide (drr_run_id dr ∈ default ∅ (run_ids_by_dag_id tis' !! drr_dag_id dr))).
  assert (Hsel : forall dr, selected dr = true
            <-> exists ti, ti ∈ tis' /\ dag_id ti = drr_dag_id dr /\ run_id ti = drr_run_id dr).
  { intros dr. unfold selected. rewrite bool_decide_eq_true. apply run_ids_by_dag_id_spec. }
  assert (Hsame : Forall2 (fun dr dr' : DagRunRow =>
            drr_dag_id dr' = drr_dag_id dr /\ drr_run_id dr' = drr_run_id dr /\ dr' = dr)
            dag_runs dag_runs).
  { clear. induction dag_runs; constructor; [repeat split|assumption]. }
  destruct dag_run_state as [s|].
  - destruct (bool_decide (tis' <> [])) eqn:Hne.
    + destruct (map_m_reset_dag_run s selected dag_runs w1) as (drs' & w2 & Hr & _ & _ & Hall).
      eexists tis', _, drs', w2. split.
      * unfold mbind, M_bind. cbv zeta. subst selected. cbv beta in Hr. rewrite Hr. reflexivity.
      * eapply Forall2_impl; [exact Hall|]. cbv beta.
        intros dr dr' (Hd & Hrid & Hnsel & Hnfin & Hfin).
        split; [exact Hd|]. split; [exact Hrid|]. split; [intros ?; discriminate|].
        split; [exact Hnfin|]. split.
        -- intros Hnone. apply Hnsel. destruct (selected dr) eqn:Hs; [|reflexivity].
           apply Hsel in Hs as (ti & Hti & Hdi & Hri). exfalso. exact (Hnone ti Hti Hdi Hri).
        -- intros s' ti [= <-] Hf Hti Hdi Hri. apply Hfin; [|exact Hf].
           apply Hsel. exists ti. repeat split; assumption.
    + eexists tis', _, dag_runs, w1. split; [reflexivity|].
      apply bool_decide_eq_false in Hne.
      assert (tis' = []) as ->.
      { destruct tis'; [reflexivity|]. exfalso. apply Hne. discriminate. }
      eapply Forall2_impl; [exact Hsame|]. cbv beta.
      intros dr dr' (Hd & Hrid & ->).
      repeat split; match goal with H : _ ∈ [] |- _ => inversion H end.
  - eexists tis', _, dag_runs, w1. split; [reflexivity|].
    eapply Forall2_impl; [exact Hsame|]. cbv beta.
    intros dr dr' (Hd & Hrid & ->). repeat split; discriminate.
Qed.

End ClearingFacts.

(** ** Rescheduling and deferring *)

(** X7: in test mode [_handle_reschedule] returns [None] and writes
    nothing.  Otherwise, for a stored task instance, it returns the
    instance in state up_for_reschedule, ended now, with the
    [try_number], [max_tries] and [try_id] of its row and no
    continuation, writes this as its row, and adds one reschedule
    record holding the row's [try_number], the given start date, the
    end date and the reschedule date; the history and the audit log are
    as before. *)
Theorem handle_reschedule_spec
    (ti row : TaskInstance) (actual_start_date reschedule_date' : datetime)
    (task_reschedules : list TaskReschedule) (w : World) :
  stored_under_key w ->
  rows w !! ti_key ti = Some row ->
  _handle_reschedule ti actual_start_date reschedule_date' true task_reschedules w
  = (OK (None, task_reschedules), w) /\
  exists ti' w',
    _handle_reschedule ti actual_start_date reschedule_date' false task_reschedules w
    = (OK (Some ti',
           task_reschedules ++
             [mkTaskReschedule (ti_key ti) (try_number row) actual_start_date
                (Some (clock w (ticks w))) reschedule_date']), w') /\
    state ti' = Some UP_FOR_RESCHEDULE /\
    end_date ti' = Some (clock w (ticks w)) /\
    try_number ti' = try_number row /\ max_tries ti' = max_tries row /\
    try_id ti' = try_id row /\
    next_method ti' = None /\ next_kwargs ti' = None /\
    rows w' = <[ti_key ti := row_of ti']> (rows w) /\
    history w' = history w /\ log_rows w' = log_rows w.
Proof.
  intros Hstored Hrow. pose proof (Hstored _ _ Hrow) as Hkey.
  split; [reflexivity|].
  unfold _handle_reschedule. cbn [negb].
  unfold mbind at 1, M_bind at 1. rewrite (refresh_from_db_found ti row w Hrow).
  unfold utcnow, session_merge, set_duration. cbn.
  assert (Hk : ti_key (with_columns_of row ti) = ti_key ti) by exact Hkey.
  destruct (start_date row) as [s|]; cbn; eexists _, _;
    (split; [rewrite <- Hkey; reflexivity|]); cbn; rewrite <- Hkey; repeat split.
Qed.

(** X8: for a task with an execution timeout and a started task
    instance, the trigger timeout [_defer_task] computes is the earlier
    of the start date plus the execution timeout and, when the deferral
    has a timeout, the current time plus that timeout; it is never
    later than the start date plus the execution timeout. *)
Theorem deferral_trigger_timeout_bounded
    (ti : TaskInstance) (task' : Operator) (timeout : option timedelta)
    (start_date' : datetime) (execution_timeout' : timedelta) (w : World) :
  start_date ti = Some start_date' ->
  execution_timeout task' = Some execution_timeout' ->
  execution_timeout' <> 0 ->
  DATETIME_MIN <= start_date' + execution_timeout' <= DATETIME_MAX ->
  (forall d, timeout = Some d -> DATETIME_MIN <= clock w (ticks w) + d <= DATETIME_MAX) ->
  exists t w',
    deferral_trigger_timeout ti task' timeout w = (OK (Some t), w') /\
    t <= start_date' + execution_timeout' /\
    match timeout with
    | Some d => t = Z.min (start_date' + execution_timeout') (clock w (ticks w) + d)
    | None => t = start_date' + execution_timeout'
    end.
Proof.
  intros Hstart Hexec Hne Hbound Htimeout.
  assert (Hadd : forall a b, DATETIME_MIN <= a + b <= DATETIME_MAX ->
            datetime_add a b = OK (a + b)).
  { intros a b [H1 H2]. unfold datetime_add.
    apply Z.leb_le in H1, H2. rewrite H1, H2. reflexivity. }
  unfold deferral_trigger_timeout. rewrite Hexec, Hstart.
  apply Z.eqb_neq in Hne. rewrite Hne.
  destruct timeout as [d|].
  - unfold mbind, M_bind, mret, M_ret, utcnow, lift. cbn -[datetime_add].
    rewrite (Hadd _ _ (Htimeout d eq_refl)).
    cbn -[datetime_add]. rewrite (Hadd _ _ Hbound). cbn.
    eexists _, _. split; [reflexivity|]. split; [lia|reflexivity].
  - unfold mbind, M_bind, mret, M_ret, lift. cbn -[datetime_add]. rewrite (Hadd _ _ Hbound). cbn.
    eexists _, _. split; [reflexivity|]. split; [lia|reflexivity].
Qed.

(** ** The runnable path of the state transition guard *)

Lemma start_running_spec (ti : TaskInstance) (test_mode' : bool)
    (external_executor_id' : option string) (w : World) :
  exists ti' w',
    start_running ti test_mode' external_executor_id' w = (OK (true, ti'), w') /\
    ti' = set_end_date None
            (if truthy external_executor_id'
             then set_external_executor_id external_executor_id'
                    (set_state_field (Some RUNNING) ti)
             else set_state_field (Some RUNNING) ti) /\
    events w' = events w /\ history w' = history w /\
    rows w' = (if test_mode' then rows w else <[ti_key ti := row_of ti']> (rows w)) /\
    log_rows w' = (if test_mode' then log_rows w else log_rows w ++ [("running", ti_key ti)]).
Proof.
  unfold start_running, emit_state_change_metric, session_add_log, session_merge, utcnow.
  change (end_date (set_state_field ?s ?x)) with (end_date x).
  change (queued_dttm (set_state_field ?s ?x)) with (queued_dttm x).
  destruct test_mode', (end_date ti), (queued_dttm ti), (truthy external_executor_id');
    eexists _, _; (split; [reflexivity|]); repeat split.
Qed.

Lemma stamp_start_date_plain
    (first_reschedule_start_date : TaskInstance -> World -> option datetime)
    (x : TaskInstance) (w : World) (x' : TaskInstance) (w' : World) :
  state x <> Some UP_FOR_RESCHEDULE ->
  stamp_start_date first_reschedule_start_date x w = (OK x', w') ->
  x' = if truthy (next_method x) then x else set_start_date (Some (clock w (ticks w))) x.
Proof.
  intros Hne. apply state_eqb_false in Hne.
  unfold stamp_start_date, utcnow, mbind, M_bind, mret, M_ret.
  destruct (truthy (next_method x)).
  - rewrite Hne. intros [= <- <-]. reflexivity.
  - change (state (set_start_date ?v x)) with (state x). rewrite Hne.
    intros [= <- <-]. reflexivity.
Qed.

Lemma stamp_start_date_keeps
    (first_reschedule_start_date : TaskInstance -> World -> option datetime)
    (x : TaskInstance) (w : World) (x' : TaskInstance) (w' : World) :
  stamp_start_date first_reschedule_start_date x w = (OK x', w') ->
  hostname x' = hostname x /\ pid x' = pid x.
Proof.
  unfold stamp_start_date, utcnow, reads, mbind, M_bind, mret, M_ret.
  destruct (truthy (next_method x)).
  - destruct (state_eqb (state x) (Some UP_FOR_RESCHEDULE));
      [destruct (first_reschedule_start_date x w)|]; intros [= <- <-]; split; reflexivity.
  - change (state (set_start_date ?v x)) with (state x).
    destruct (state_eqb (state x) (Some UP_FOR_RESCHEDULE));
      [destruct (first_reschedule_start_date _ _)|]; intros [= <- <-]; split; reflexivity.
Qed.

Section GuardRunnable.

Variable RUNNING_DEPS : gset string.
Variable REQUEUEABLE_DEPS : gset string.
Variable get_dep_statuses : string -> TaskInstance -> World -> DepContext -> list TIDepStatus.
Variable task_instance_mutation_hook : TaskInstance -> TaskInstance.
Variable first_reschedule_start_date : TaskInstance -> World -> option datetime.

Variable ti row : TaskInstance.
Variable tk : Operator.
Variables ignore_all_deps' ignore_depends_on_past' wait_for_past_depends_before_skipping'
  ignore_task_deps' ignore_ti_state' mark_success test_mode' : bool.
Variable hostname' : string.
Variables pool' external_executor_id' : option string.
Variable w : World.

Hypothesis task_loaded : task ti = Some tk.
Hypothesis hook_keeps_key : forall x, ti_key (task_instance_mutation_hook x) = ti_key x.
Hypothesis hook_keeps_task : forall x, task (task_instance_mutation_hook x) = task x.
Hypothesis row_stored : rows w !! ti_key ti = Some row.
Hypothesis row_key : ti_key row = ti_key ti.

(** X9: when [mark_success] is set, or when no dependency fails in the
    non-requeueable context nor, after the start date is stamped, in the
    requeueable one, the call returns [True] with the task instance in
    state running, without end date, on the given host, without pid, and
    with the [try_number] and [max_tries] of its row.  Outside test mode
    the instance is written as its row and a "running" entry is added to
    the audit log; in test mode neither table is written.  With
    [mark_success] the start date is the one of the row; otherwise, for
    a row not in state up_for_reschedule, it is the current time, unless
    the instance resumes from a deferral ([next_method] is set), which
    keeps the start date of the row. *)
Theorem check_and_change_state_runnable :
  let run :=
    _check_and_change_state_before_execution RUNNING_DEPS REQUEUEABLE_DEPS get_dep_statuses
      task_instance_mutation_hook first_reschedule_start_date ti
      ignore_all_deps' ignore_depends_on_past' wait_for_past_depends_before_skipping'
      ignore_task_deps' ignore_ti_state' mark_success test_mode' hostname' pool'
      external_executor_id' w in
  let ti1 :=
    set_pid None (set_hostname (Some hostname')
      (with_columns_of row
         (set_test_mode test_mode'
            (refresh_from_task task_instance_mutation_hook ti tk pool')))) in
  let ctx1 :=
    non_requeueable_dep_context RUNNING_DEPS REQUEUEABLE_DEPS ignore_all_deps'
      ignore_depends_on_past' wait_for_past_depends_before_skipping' ignore_task_deps'
      ignore_ti_state' in
  let ctx2 :=
    requeueable_dep_context REQUEUEABLE_DEPS ignore_all_deps'
      ignore_depends_on_past' wait_for_past_depends_before_skipping' ignore_task_deps'
      ignore_ti_state' in
  mark_success = true \/
  (~ some_dep_fails get_dep_statuses tk ctx1 ti1 w /\
   forall ti2 w2,
     stamp_start_date first_reschedule_start_date ti1 w = (OK ti2, w2) ->
     ~ some_dep_fails get_dep_statuses tk ctx2 ti2 w2) ->
  exists ti' w',
    run = (OK (true, ti'), w') /\
    state ti' = Some RUNNING /\ end_date ti' = None /\
    hostname ti' = Some hostname' /\ pid ti' = None /\
    try_number ti' = try_number row /\ max_tries ti' = max_tries row /\
    rows w' = (if test_mode' then rows w else <[ti_key ti := row_of ti']> (rows w)) /\
    log_rows w' = (if test_mode' then log_rows w else log_rows w ++ [("running", ti_key ti)]) /\
    (mark_success = true -> start_date ti' = start_date row) /\
    (mark_success = false -> state row <> Some UP_FOR_RESCHEDULE ->
     start_date ti' = if truthy (next_method row) then start_date row
                      else Some (clock w (ticks w))).
Proof.
  intros run ti1 ctx1 ctx2 Hcase.
  assert (Hkey0 : ti_key (set_test_mode test_mode'
                    (refresh_from_task task_instance_mutation_hook ti tk pool')) = ti_key ti).
  { unfold refresh_from_task, _refresh_from_task.
    change (ti_key (set_test_mode test_mode' ?x)) with (ti_key x).
    rewrite hook_keeps_key. destruct (weight tk); reflexivity. }
  assert (Htask1 : task ti1 = Some tk).
  { subst ti1. unfold refresh_from_task, _refresh_from_task.
    change (task (set_pid ?a (set_hostname ?b (with_columns_of ?c (set_test_mode ?d ?x)))))
      with (task x).
    rewrite hook_keeps_task. destruct (weight tk); reflexivity. }
  assert (Hkey1 : ti_key ti1 = ti_key ti) by exact row_key.
  assert (Hrefresh :
    refresh_for_execution task_instance_mutation_hook ti tk test_mode' hostname' pool' w
    = (OK ti1, w)).
  { unfold refresh_for_execution. rewrite (M_bind_OK _ _ w w
      (with_columns_of row (set_test_mode test_mode'
         (refresh_from_task task_instance_mutation_hook ti tk pool')))); [reflexivity|].
    apply refresh_from_db_found. rewrite Hkey0. exact row_stored. }
  subst run. unfold _check_and_change_state_before_execution. rewrite task_loaded.
  rewrite (M_bind_OK _ _ _ _ _ Hrefresh).
  assert (Hfinish : forall x wx,
            ti_key x = ti_key ti -> rows wx = rows w -> log_rows wx = log_rows w ->
            hostname x = Some hostname' -> pid x = None ->
            try_number x = try_number row -> max_tries x = max_tries row ->
            exists ti' w',
              start_running x test_mode' external_executor_id' wx = (OK (true, ti'), w') /\
              state ti' = Some RUNNING /\ end_date ti' = None /\
              hostname ti' = Some hostname' /\ pid ti' = None /\
              try_number ti' = try_number row /\ max_tries ti' = max_tries row /\
              rows w' = (if test_mode' then rows w else <[ti_key ti := row_of ti']> (rows w)) /\
              log_rows w' = (if test_mode' then log_rows w
                             else log_rows w ++ [("running", ti_key ti)]) /\
              start_date ti' = start_date x).
  { intros x wx Hkx Hrx Hlx Hhx Hpx Htx Hmx.
    destruct (start_running_spec x test_mode' external_executor_id' wx)
      as (ti' & w' & Hrun & Hti' & _ & _ & Hrows & Hlogs).
    exists ti', w'. split; [exact Hrun|].
    rewrite Hrows, Hlogs, Hrx, Hlx, Hkx.
    subst ti'. destruct (truthy external_executor_id'); repeat split; assumption. }
  destruct mark_success eqn:Hms; cbn [negb].
  - destruct (Hfinish ti1 w Hkey1 eq_refl eq_refl eq_refl eq_refl eq_refl eq_refl)
      as (ti' & w' & Hrun & H1 & H2 & H3 & H4 & H5 & H6 & H7 & H8 & H9).
    exists ti', w'. repeat (split; [assumption|]). split; [intros _; exact H9|discriminate].
  - destruct Hcase as [?|[Hpass1 Hpass2]]; [discriminate|].
    destruct (are_dependencies_met_spec get_dep_statuses ti1 tk ctx1 w Htask1)
      as (met & Hmet & Hiff).
    assert (met = true) as ->.
    { destruct met; [reflexivity|]. exfalso. apply Hpass1, Hiff. reflexivity. }
    rewrite (M_bind_OK _ _ _ _ _ Hmet). cbn [negb].
    destruct (stamp_start_date_spec first_reschedule_start_date ti1 w)
      as (ti2 & w2 & Hstamp & Hrows2 & Hlog2 & _ & _ & Hkey2 & Htask2 & Hst2 & Htry2 & Hmax2).
    rewrite (M_bind_OK _ _ _ _ _ Hstamp).
    rewrite Htask1 in Htask2.
    destruct (are_dependencies_met_spec get_dep_statuses ti2 tk ctx2 w2 Htask2)
      as (met2 & Hmet2 & Hiff2).
    assert (met2 = true) as ->.
    { destruct met2; [reflexivity|]. exfalso. apply (Hpass2 ti2 w2 Hstamp), Hiff2. reflexivity. }
    rewrite (M_bind_OK _ _ _ _ _ Hmet2). cbn [negb].
    assert (Hh2 : hostname ti2 = Some hostname' /\ pid ti2 = None /\
              (state row <> Some UP_FOR_RESCHEDULE ->
               start_date ti2 = if truthy (next_method row) then start_date row
                                else Some (clock w (ticks w)))).
    { assert (Hnr : state row <> Some UP_FOR_RESCHEDULE ->
                ti2 = if truthy (next_method row) then ti1
                      else set_start_date (Some (clock w (ticks w))) ti1).
      { intros Hne. exact (stamp_start_date_plain first_reschedule_start_date ti1 w ti2 w2
                             Hne Hstamp). }
      pose proof (stamp_start_date_keeps first_reschedule_start_date ti1 w ti2 w2 Hstamp)
        as (Hh & Hp).
      split; [exact Hh|]. split; [exact Hp|]. intros Hne. rewrite (Hnr Hne).
      destruct (truthy (next_method row)); reflexivity. }
    destruct Hh2 as (Hhost2 & Hpid2 & Hstart2).
    destruct (Hfinish ti2 w2) as (ti' & w' & Hrun & H1 & H2 & H3 & H4 & H5 & H6 & H7 & H8 & H9);
      try assumption; try congruence.
    exists ti', w'. repeat (split; [assumption|]). split; [discriminate|].
    intros _ Hne. rewrite H9. exact (Hstart2 Hne).
Qed.

End GuardRunnable.

(** ** Failure handling *)

Lemma stop_task_events (f r : TaskInstance) (w w' : World) (res : Result unit) :
  stop_task f r w = (res, w') -> events w' = events w /\ log_rows w' = log_rows w.
Proof.
  unfold stop_task.
  destruct (_ || _); [intros [= <- <-]; split; reflexivity|].
  destruct (task f ≫= dag) as [d|]; [|intros [= <- <-]; split; reflexivity].
  destruct (task_dict d !! task_id r) as [tdef|]; [|intros [= <- <-]; split; reflexivity].
  destruct (negb (is_teardown tdef)); [|intros [= <- <-]; split; reflexivity].
  destruct (state_eqb (state r) (Some RUNNING)).
  - unfold error, session_merge. cbn. intros [= <- <-]. split; reflexivity.
  - unfold set_state, _set_state.
    destruct (state_eqb (state r) (Some SKIPPED)); cbn; intros [= <- <-]; split; reflexivity.
Qed.

Lemma for_each_stop_task_events (f : TaskInstance) (l : list TaskInstance)
    (w w' : World) (res : Result unit) :
  for_each (stop_task f) l w = (res, w') -> events w' = events w /\ log_rows w' = log_rows w.
Proof.
  revert w. induction l as [|r l IH]; intros w.
  - intros [= <- <-]. split; reflexivity.
  - cbn [for_each]. intros H. apply M_bind_inv in H as [(a & w1 & H1 & H2)|(e & H1 & _)].
    + apply stop_task_events in H1 as [E1 L1]. apply IH in H2 as [E2 L2]. split; congruence.
    + apply stop_task_events in H1. exact H1.
Qed.

Lemma stop_remaining_tasks_events (f : TaskInstance) (w w' : World) (res : Result unit) :
  _stop_remaining_tasks f w = (res, w') -> events w' = events w /\ log_rows w' = log_rows w.
Proof.
  unfold _stop_remaining_tasks. destruct (dag_run f); [|intros [= <- <-]; split; reflexivity].
  intros H. apply M_bind_inv in H as [(l & w1 & H1 & H2)|(e & H1 & _)].
  - unfold get_task_instances, reads in H1. injection H1 as <- <-.
    apply for_each_stop_task_events in H2. exact H2.
  - unfold get_task_instances, reads in H1. discriminate.
Qed.

Lemma fail_or_retry_events
    (ti : TaskInstance) (task' : option Operator) (context force_fail fail_fast' : bool)
    (w w' : World) (res : Result FailureContext) :
  fail_or_retry ti task' context force_fail fail_fast' w = (res, w') ->
  events w' = events w /\ log_rows w' = log_rows w /\
  match res with
  | OK fc => ti_key (fc_ti fc) = ti_key ti
  | Raise _ => True
  end.
Proof.
  unfold fail_or_retry. destruct (force_fail || negb (is_eligible_to_retry ti)).
  - intros H. apply M_bind_inv in H as [(a & w1 & H1 & H2)|(e & H1 & ->)].
    + injection H2 as <- <-.
      destruct (bool_decide (is_Some task') && fail_fast').
      * apply stop_remaining_tasks_events in H1 as [E L]. repeat split; assumption.
      * injection H1 as _ <-. repeat split.
    + destruct (bool_decide (is_Some task') && fail_fast'); [|discriminate].
      apply stop_remaining_tasks_events in H1 as [E L]. repeat split; assumption.
  - unfold record_ti, uuid7. destruct (state_eqb (state ti) (Some RUNNING)); cbn;
      intros [= <- <-]; repeat split.
Qed.

Lemma email_step_spec (fc : FailureContext) (k : TIKey) (w : World) :
  exists evs,
    match fc_task fc with
    | Some t =>
        if email_for_state (fc_email_for_state fc) t && email t
        then emit (EmailAlert k)
        else mret tt
    | None => mret tt
    end w = (OK tt, with_events evs w).
Proof.
  destruct (fc_task fc) as [t|]; [destruct (_ && _)|].
  - eexists. reflexivity.
  - exists (events w). rewrite with_events_same. reflexivity.
  - exists (events w). rewrite with_events_same. reflexivity.
Qed.

Lemma callbacks_step_spec (fc : FailureContext) (w : World) :
  exists evs,
    match fc_callbacks fc with
    | Some (c :: cs) =>
        if fc_context fc then emit (FinishedCallbacks (c :: cs)) else mret tt
    | _ => mret tt
    end w = (OK tt, with_events evs w).
Proof.
  destruct (fc_callbacks fc) as [[|c cs]|]; [| destruct (fc_context fc) |].
  2: eexists; reflexivity.
  all: exists (events w); rewrite with_events_same; reflexivity.
Qed.

Lemma eligible_after_record (x : TaskInstance) (now : datetime) :
  is_eligible_to_retry (clear_next_method_args (set_duration (set_end_date (Some now) x)))
  = is_eligible_to_retry x.
Proof. unfold set_duration. cbn. destruct (start_date x); reflexivity. Qed.

(** What [record_failure] returns for a stored task instance outside
    test mode. *)
Lemma record_failure_found (ti row : TaskInstance) (w : World) :
  stored_under_key w ->
  rows w !! ti_key ti = Some row ->
  exists ti2 w2,
    record_failure ti false w = (OK ti2, w2) /\
    rows w2 = rows w /\ history w2 = history w /\ next_uuid w2 = next_uuid w /\
    events w2 = events w /\
    log_rows w2 = log_rows w ++ [("failed", ti_key ti)] /\
    clock w2 = clock w /\ ticks w2 = S (ticks w) /\
    is_eligible_to_retry ti2 = is_eligible_to_retry (with_columns_of row ti) /\
    state ti2 = state row /\ try_number ti2 = try_number row /\
    max_tries ti2 = max_tries row /\ end_date ti2 = Some (clock w (ticks w)) /\
    next_method ti2 = None /\ next_kwargs ti2 = None /\ try_id ti2 = try_id row /\
    ti_key ti2 = ti_key ti /\ task ti2 = task ti /\ dag_run ti2 = dag_run ti.
Proof.
  intros Hwf Hrow. pose proof (Hwf _ _ Hrow) as Hkey.
  unfold record_failure. cbn [negb].
  rewrite (M_bind_OK _ _ _ _ _ (refresh_from_db_found ti row w Hrow)).
  unfold utcnow, session_add_log, mbind, M_bind, mret, M_ret.
  eexists _, _. split; [reflexivity|].
  unfold set_duration. cbn [end_date set_end_date start_date with_columns_of set_task
    set_test_mode set_run_as_user set_dag_run].
  destruct (start_date row); cbn; rewrite <- Hkey; repeat split.
Qed.

Lemma fail_or_retry_no_fail_fast
    (ti : TaskInstance) (task' : option Operator) (ctx force_fail : bool) (w : World) :
  let retry := negb force_fail && is_eligible_to_retry ti in
  exists fc w',
    fail_or_retry ti task' ctx force_fail false w = (OK fc, w') /\
    rows w' = rows w /\ log_rows w' = log_rows w /\ events w' = events w /\
    clock w' = clock w /\ ticks w' = ticks w /\
    fc_ti fc = set_state_field (Some (if retry then UP_FOR_RETRY else FAILED))
                 (if retry && state_eqb (state ti) (Some RUNNING)
                  then set_try_id (next_uuid w) ti else ti) /\
    history w' = (if retry && state_eqb (state ti) (Some RUNNING)
                  then history w ++ [row_of ti] else history w).
Proof.
  unfold fail_or_retry. rewrite andb_false_r.
  destruct force_fail; cbn [orb negb andb].
  - eexists _, _. split; [reflexivity|]. repeat split.
  - destruct (is_eligible_to_retry ti); cbn [negb andb].
    + destruct (state_eqb (state ti) (Some RUNNING)).
      * eexists _, _. split; [reflexivity|]. repeat split.
      * eexists _, _. split; [reflexivity|]. repeat split.
    + eexists _, _. split; [reflexivity|]. repeat split.
Qed.

(** Failure handling outside test mode and without fail-fast, for a
    stored task instance. *)
Lemma handle_failure_without_fail_fast
    (ti row : TaskInstance) (context force_fail : bool) (w : World) :
  stored_under_key w ->
  rows w !! ti_key ti = Some row ->
  let retry := negb force_fail && is_eligible_to_retry (with_columns_of row ti) in
  exists ti' w',
    _handle_failure ti (Some false) context force_fail false w = (OK ti', w') /\
    state ti' = Some (if retry then UP_FOR_RETRY else FAILED) /\
    try_number ti' = try_number row /\ max_tries ti' = max_tries row /\
    end_date ti' = Some (clock w (ticks w)) /\
    next_method ti' = None /\ next_kwargs ti' = None /\
    rows w' = <[ti_key ti := row_of ti']> (rows w) /\
    log_rows w' = log_rows w ++ [("failed", ti_key ti)] /\
    if retry && state_eqb (state row) (Some RUNNING)
    then try_id ti' = next_uuid w /\
         exists archived,
           history w' = history w ++ [archived] /\ try_id archived = try_id row /\
           state archived = Some RUNNING /\ end_date archived = Some (clock w (ticks w))
    else try_id ti' = try_id row /\ history w' = history w.
Proof.
  intros Hwf Hrow retry.
  destruct (record_failure_found ti row w Hwf Hrow)
    as (ti2 & w2 & Hrec & Hrows2 & Hhist2 & Huuid2 & _ & Hlog2 & Hclock2 & Hticks2 & Hel &
        Hst & Htn & Hmt & Hed & Hnm & Hnk & Htid & Hk2 & _).
  unfold _handle_failure, fetch_handle_failure_context.
  change (default (test_mode ti) (Some false)) with false. cbv zeta. cbn [negb].
  rewrite (M_bind_bind_OK _ _ _ _ _ _ Hrec).
  set (ctx := context || bool_decide (is_Some (task ti2))).
  set (task' := match task ti2 with Some t => _ | None => None end).
  destruct (fail_or_retry_no_fail_fast ti2 task' ctx force_fail w2)
    as (fc & w3 & Hfr & Hrows3 & Hlog3 & Hev3 & Hclock3 & Hticks3 & Hfc & Hhist3).
  rewrite Hel, Hst in Hfc, Hhist3. rewrite Huuid2 in Hfc. rewrite Hhist2 in Hhist3.
  fold retry in Hfc, Hhist3.
  rewrite (M_bind_bind_OK _ _ _ _ _ _ Hfr).
  rewrite (M_bind_OK (emit _ ≫= _) _ w3
             (with_events (events w3 ++ [ListenerTaskInstanceFailed (ti_key (fc_ti fc))]) w3)
             fc eq_refl).
  set (w4 := with_events _ w3).
  destruct (email_step_spec fc (ti_key ti) w4) as (evs1 & Hemail).
  rewrite (M_bind_OK _ _ _ _ _ Hemail).
  destruct (callbacks_step_spec fc (with_events evs1 w4)) as (evs2 & Hcb).
  rewrite (M_bind_OK _ _ _ _ _ Hcb).
  rewrite save_to_db_spec. subst w4.
  eexists _, _. split; [reflexivity|].
  cbn [rows log_rows history clock ticks with_rows with_ticks with_events].
  change (ti_key (set_updated_at ?v ?x)) with (ti_key x).
  change (state (set_updated_at ?v ?x)) with (state x).
  change (try_number (set_updated_at ?v ?x)) with (try_number x).
  change (max_tries (set_updated_at ?v ?x)) with (max_tries x).
  change (end_date (set_updated_at ?v ?x)) with (end_date x).
  change (next_method (set_updated_at ?v ?x)) with (next_method x).
  change (next_kwargs (set_updated_at ?v ?x)) with (next_kwargs x).
  change (try_id (set_updated_at ?v ?x)) with (try_id x).
  rewrite Hfc.
  destruct (retry && state_eqb (state row) (Some RUNNING)) eqn:Harch.
  - change (rows w3 = rows w2) in Hrows3.
    split; [reflexivity|]. split; [exact Htn|]. split; [exact Hmt|]. split; [exact Hed|].
    split; [exact Hnm|]. split; [exact Hnk|].
    split; [rewrite Hrows3, Hrows2; f_equal; exact Hk2|].
    split; [rewrite Hlog3, Hlog2; reflexivity|].
    split; [reflexivity|]. exists (row_of ti2).
    split; [exact Hhist3|].
    apply andb_true_iff in Harch as [_ Hrun]. apply state_eqb_true in Hrun.
    split; [exact Htid|]. split; [change (state ti2 = Some RUNNING); congruence|exact Hed].
  - split; [reflexivity|]. split; [exact Htn|]. split; [exact Hmt|]. split; [exact Hed|].
    split; [exact Hnm|]. split; [exact Hnk|].
    split; [rewrite Hrows3, Hrows2; f_equal; exact Hk2|].
    split; [rewrite Hlog3, Hlog2; reflexivity|].
    split; [exact Htid|]. exact Hhist3.
Qed.

Lemma handle_failure_no_fail_fast
    (ti : TaskInstance) (test_mode' : option bool) (context force_fail : bool) :
  (forall d, task ti ≫= dag = Some d -> fail_fast d = false) ->
  handle_failure ti test_mode' context force_fail
  = _handle_failure ti test_mode' context force_fail false.
Proof.
  intros Hff. unfold handle_failure.
  destruct (task ti ≫= dag) as [d|]; [|reflexivity].
  rewrite (Hff d eq_refl). reflexivity.
Qed.

(** X10: outside test mode, for a stored task instance whose DAG does
    not ask for fail-fast, [handle_failure] returns the instance in state
    up_for_retry when [force_fail] is not set and the instance, as
    refreshed from its row, is eligible to retry, and in state failed
    otherwise; in both cases ended now, without continuation, with the
    [try_number] and [max_tries] of its row.  It writes this as the
    instance's row, and no other row, and adds a "failed" entry to the
    audit log.  When it retries an instance whose row is running, the
    attempt as it ended is added to the history and the instance gets a
    new [try_id]; otherwise the history and the [try_id] are as
    before. *)
Theorem handle_failure_outcome
    (ti row : TaskInstance) (context force_fail : bool) (w : World) :
  stored_under_key w ->
  rows w !! ti_key ti = Some row ->
  (forall d, task ti ≫= dag = Some d -> fail_fast d = false) ->
  let retry := negb force_fail && is_eligible_to_retry (with_columns_of row ti) in
  exists ti' w',
    handle_failure ti (Some false) context force_fail w = (OK ti', w') /\
    state ti' = Some (if retry then UP_FOR_RETRY else FAILED) /\
    try_number ti' = try_number row /\ max_tries ti' = max_tries row /\
    end_date ti' = Some (clock w (ticks w)) /\
    next_method ti' = None /\ next_kwargs ti' = None /\
    rows w' = <[ti_key ti := row_of ti']> (rows w) /\
    log_rows w' = log_rows w ++ [("failed", ti_key ti)] /\
    if retry && state_eqb (state row) (Some RUNNING)
    then try_id ti' = next_uuid w /\
         exists archived,
           history w' = history w ++ [archived] /\ try_id archived = try_id row /\
           state archived = Some RUNNING /\ end_date archived = Some (clock w (ticks w))
    else try_id ti' = try_id row /\ history w' = history w.
Proof.
  intros Hwf Hrow Hff.
  rewrite (handle_failure_no_fail_fast ti (Some false) context force_fail Hff).
  exact (handle_failure_without_fail_fast ti row context force_fail w Hwf Hrow).
Qed.

(** X11: when [_handle_failure] returns, it has called the listener
    hook [on_task_instance_failed] exactly once, for this task instance
    and before any email alert or callback; when it raises (which only
    stopping the remaining tasks of a fail-fast run can make it do), it
    has not called it. *)
Theorem handle_failure_notifies_listener_once
    (task_instance : TaskInstance) (test_mode_arg : option bool)
    (context force_fail fail_fast' : bool) (w w' : World) (res : Result TaskInstance) :
  stored_under_key w ->
  _handle_failure task_instance test_mode_arg context force_fail fail_fast' w = (res, w') ->
  match res with
  | OK _ =>
      exists rest,
        events w' = events w ++ ListenerTaskInstanceFailed (ti_key task_instance) :: rest /\
        forall k, ListenerTaskInstanceFailed k ∉ rest
  | Raise _ => events w' = events w
  end.
Proof.
  intros Hwf. unfold _handle_failure. cbv zeta.
  set (tm := default (test_mode task_instance) test_mode_arg).
  intros H. apply M_bind_inv in H as [(fc & w1 & Hfetch & H)|(e & Hfetch & ->)].
  - unfold fetch_handle_failure_context in Hfetch.
    destruct (record_failure_spec task_instance tm w Hwf)
      as (ti2 & w2 & Hrec & _ & Hev2 & Hkey2 & _).
    rewrite (M_bind_OK _ _ _ _ _ Hrec) in Hfetch.
    apply M_bind_inv in Hfetch as [(fc1 & w3 & Hfr & Hemit)|(e & Hfr & [=])].
    apply fail_or_retry_events in Hfr as (Hev3 & _ & Hkey3).
    unfold emit in Hemit. cbn in Hemit. injection Hemit as <- <-.
    assert (Hev1 : events (with_events (events w3 ++ [ListenerTaskInstanceFailed (ti_key (fc_ti fc1))]) w3)
                   = events w ++ [ListenerTaskInstanceFailed (ti_key task_instance)]).
    { cbn. congruence. }
    revert H Hev1. generalize (with_events (events w3 ++ [ListenerTaskInstanceFailed (ti_key (fc_ti fc1))]) w3).
    intros w1 H Hev1.
    apply M_bind_inv in H as [([] & w4 & Hemail & H)|(e & Hemail & ->)].
    + apply M_bind_inv in H as [([] & w5 & Hcb & H)|(e & Hcb & ->)].
      * assert (Hsave : events w' = events w5 /\ exists x, res = OK x).
        { destruct (negb tm).
          - unfold save_to_db, utcnow, session_merge in H. cbn in H. injection H as <- <-.
            split; [reflexivity|eexists; reflexivity].
          - injection H as <- <-. split; [reflexivity|eexists; reflexivity]. }
        destruct Hsave as (Hev5 & x & ->).
        assert (Hemail' : exists l1, events w4 = events w1 ++ l1 /\
                            forall k, ListenerTaskInstanceFailed k ∉ l1).
        { destruct (fc_task fc1) as [t|].
          - destruct (_ && _).
            + injection Hemail as <-. exists [EmailAlert (ti_key task_instance)].
              split; [reflexivity|]. intros k Hin. apply list_elem_of_singleton in Hin. discriminate.
            + injection Hemail as <-. exists []. split; [symmetry; apply app_nil_r|].
              intros k Hin. inversion Hin.
          - injection Hemail as <-. exists []. split; [symmetry; apply app_nil_r|].
            intros k Hin. inversion Hin. }
        assert (Hcb' : exists l2, events w5 = events w4 ++ l2 /\
                         forall k, ListenerTaskInstanceFailed k ∉ l2).
        { assert (Hnone : (mret tt : M unit) w4 = (OK tt, w5) ->
                    exists l2, events w5 = events w4 ++ l2 /\
                               forall k, ListenerTaskInstanceFailed k ∉ l2).
          { intros [= <-]. exists []. split; [symmetry; apply app_nil_r|].
            intros k Hin. inversion Hin. }
          destruct (fc_callbacks fc1) as [[|c cs]|]; try (apply Hnone; exact Hcb).
          destruct (fc_context fc1); [|apply Hnone; exact Hcb].
          injection Hcb as <-. exists [FinishedCallbacks (c :: cs)].
          split; [reflexivity|]. intros k Hin. apply list_elem_of_singleton in Hin. discriminate. }
        destruct Hemail' as (l1 & E1 & N1). destruct Hcb' as (l2 & E2 & N2).
        exists (l1 ++ l2). split.
        -- rewrite Hev5, E2, E1, Hev1. rewrite <- !app_assoc. reflexivity.
        -- intros k Hin. apply elem_of_app in Hin as [Hin|Hin]; [exact (N1 k Hin)|exact (N2 k Hin)].
      * exfalso. destruct (fc_callbacks fc1) as [[|c cs]|]; try discriminate.
        destruct (fc_context fc1); discriminate.
    + exfalso. destruct (fc_task fc1) as [t|]; [|discriminate].
      destruct (_ && _); discriminate.
  - unfold fetch_handle_failure_context in Hfetch.
    destruct (record_failure_spec task_instance tm w Hwf)
      as (ti2 & w2 & Hrec & _ & Hev2 & Hkey2 & _).
    rewrite (M_bind_OK _ _ _ _ _ Hrec) in Hfetch.
    apply M_bind_inv in Hfetch as [(fc1 & w3 & Hfr & Hemit)|(e' & Hfr & _)].
    + unfold emit in Hemit. cbn in Hemit. discriminate.
    + apply fail_or_retry_events in Hfr as (Hev3 & _). congruence.
Qed.

Lemma for_each_stop_task_keeps_row (f : TaskInstance) (k : TIKey) (l : list TaskInstance)
    (w w' : World) (res : Result unit) :
  (forall r, r ∈ l -> ti_key r = k -> passed_over f r) ->
  for_each (stop_task f) l w = (res, w') ->
  rows w' !! k = rows w !! k.
Proof.
  revert w. induction l as [|r l IH]; intros w Hpo.
  - intros [= <- <-]. reflexivity.
  - cbn [for_each]. intros H.
    assert (Hstep : forall res1 w1, stop_task f r w = (res1, w1) -> rows w1 !! k = rows w !! k).
    { intros res1 w1 H1. destruct (decide (ti_key r = k)) as [Hk|Hk].
      - rewrite stop_task_passed_over in H1 by (apply Hpo; [left|exact Hk]).
        injection H1 as _ <-. reflexivity.
      - apply (stop_task_other_rows f r w w1 res1 H1). congruence. }
    apply M_bind_inv in H as [(a & w1 & H1 & H2)|(e & H1 & _)].
    + rewrite (IH w1 (fun r' Hin => Hpo r' (list_elem_of_further _ _ _ Hin)) H2).
      exact (Hstep _ _ H1).
    + exact (Hstep _ _ H1).
Qed.

Lemma stop_remaining_tasks_keeps_own_row (f : TaskInstance) (w w' : World) (res : Result unit) :
  stored_under_key w ->
  _stop_remaining_tasks f w = (res, w') ->
  rows w' !! ti_key f = rows w !! ti_key f.
Proof.
  intros Hwf. unfold _stop_remaining_tasks.
  destruct (dag_run f); [|intros [= <- <-]; reflexivity].
  destruct (get_task_instances_spec (dag_id f) (run_id f) w Hwf) as (l & Hget & _ & Hl).
  rewrite (M_bind_OK _ _ _ _ _ Hget).
  apply for_each_stop_task_keeps_row.
  intros r _ Hk. left. unfold ti_key in Hk. congruence.
Qed.

Lemma fail_or_retry_rows
    (ti : TaskInstance) (task' : option Operator) (context force_fail fail_fast' : bool)
    (w w' : World) (res : Result FailureContext) :
  stored_under_key w ->
  fail_or_retry ti task' context force_fail fail_fast' w = (res, w') ->
  rows w' !! ti_key ti = rows w !! ti_key ti /\ (fail_fast' = false -> rows w' = rows w).
Proof.
  intros Hwf. unfold fail_or_retry. destruct (force_fail || negb (is_eligible_to_retry ti)).
  - destruct (bool_decide (is_Some task') && fail_fast') eqn:Hstop.
    + intros H.
      assert (Hrows : rows w' !! ti_key ti = rows w !! ti_key ti).
      { apply M_bind_inv in H as [(a & w1 & H1 & H2)|(e & H1 & _)].
        - injection H2 as _ <-.
          exact (stop_remaining_tasks_keeps_own_row _ w w1 _ Hwf H1).
        - exact (stop_remaining_tasks_keeps_own_row _ w w' _ Hwf H1). }
      split; [exact Hrows|]. intros ->. rewrite andb_false_r in Hstop. discriminate.
    + intros [= <- <-]. split; reflexivity.
  - unfold record_ti, uuid7. destruct (state_eqb (state ti) (Some RUNNING)); cbn;
      intros [= <- <-]; split; reflexivity.
Qed.

(** X12: in test mode [_handle_failure] adds nothing to the audit log
    and never writes the row of the task instance it handles; without
    fail-fast it writes no row at all. *)
Theorem handle_failure_test_mode
    (ti : TaskInstance) (context force_fail fail_fast' : bool) (w w' : World)
    (res : Result TaskInstance) :
  stored_under_key w ->
  _handle_failure ti (Some true) context force_fail fail_fast' w = (res, w') ->
  log_rows w' = log_rows w /\
  rows w' !! ti_key ti = rows w !! ti_key ti /\
  (fail_fast' = false -> rows w' = rows w).
Proof.
  intros Hwf. unfold _handle_failure, fetch_handle_failure_context. cbv zeta.
  change (default (test_mode ti) (Some true)) with true. cbn [negb].
  set (ti2 := clear_next_method_args (set_duration (set_end_date (Some (clock w (ticks w))) ti))).
  assert (Hrec : record_failure ti true w = (OK ti2, with_ticks (S (ticks w)) w))
    by reflexivity.
  assert (Hkey2 : ti_key ti2 = ti_key ti).
  { subst ti2. change (ti_key (clear_next_method_args ?x)) with (ti_key x).
    rewrite (proj1 (set_duration_keeps _)). reflexivity. }
  rewrite (M_bind_bind_OK _ _ _ _ _ _ Hrec). clear Hrec.
  set (w2 := with_ticks (S (ticks w)) w).
  assert (Hwf2 : stored_under_key w2) by exact Hwf.
  intros H.
  apply M_bind_inv in H as [(fc & w4 & Hfetch & H)|(e & Hfetch & _)].
  - apply M_bind_inv in Hfetch as [(fc1 & w3 & Hfr & Hemit)|(e & _ & [=])].
    unfold emit in Hemit. cbn in Hemit. injection Hemit as <- <-.
    pose proof (fail_or_retry_events _ _ _ _ _ _ _ _ Hfr) as (_ & Hlog3 & _).
    pose proof (fail_or_retry_rows _ _ _ _ _ _ _ _ Hwf2 Hfr) as (Hown3 & Hrows3).
    destruct (email_step_spec fc1 (ti_key ti)
                (with_events (events w3 ++ [ListenerTaskInstanceFailed (ti_key (fc_ti fc1))]) w3))
      as (evs1 & Hemail).
    rewrite (M_bind_OK _ _ _ _ _ Hemail) in H.
    match type of H with _ ?wx = _ =>
      destruct (callbacks_step_spec fc1 wx) as (evs2 & Hcb) end.
    rewrite (M_bind_OK _ _ _ _ _ Hcb) in H.
    injection H as _ <-. cbn [rows log_rows with_events].
    rewrite Hkey2 in Hown3. split; [exact Hlog3|]. split; [exact Hown3|exact Hrows3].
  - apply M_bind_inv in Hfetch as [(fc1 & w3 & Hfr & Hemit)|(e' & Hfr & _)].
    + unfold emit in Hemit. cbn in Hemit. discriminate.
    + pose proof (fail_or_retry_events _ _ _ _ _ _ _ _ Hfr) as (_ & Hlog3 & _).
      pose proof (fail_or_retry_rows _ _ _ _ _ _ _ _ Hwf2 Hfr) as (Hown3 & Hrows3).
      rewrite Hkey2 in Hown3. split; [exact Hlog3|]. split; [exact Hown3|exact Hrows3].
Qed.

Lemma for_each_stop_task_missing (f : TaskInstance) (d : DAG) (l : list TaskInstance) :
  task f ≫= dag = Some d ->
  (exists r, r ∈ l /\ ~ passed_over f r /\ task_dict d !! task_id r = None) ->
  forall w, exists w', for_each (stop_task f) l w = (Raise KeyError, w').
Proof.
  intros Hdag. induction l as [|r l IH]; intros (r0 & Hin & Hnpo & Hmiss) w.
  - inversion Hin.
  - cbn [for_each].
    destruct (decide (passed_over f r \/ is_Some (task_dict d !! task_id r))) as [Hok|Hbad].
    + destruct (for_each_stop_task_returns f d [r] Hdag) with (w := w) as (w1 & H1).
      { intros r' Hr'. apply list_elem_of_singleton in Hr'. subst r'. exact Hok. }
      cbn [for_each] in H1.
      apply M_bind_inv in H1 as [([] & w1' & H1 & H2)|(e & _ & [=])].
      injection H2 as <-. rewrite (M_bind_OK _ _ _ _ _ H1).
      apply IH. exists r0. split; [|split; assumption].
      apply elem_of_cons in Hin as [->|Hin]; [|exact Hin].
      exfalso. destruct Hok as [Hpo|[x Hx]]; [exact (Hnpo Hpo)|congruence].
    + exists w. unfold stop_task.
      assert (Hnpo' : ~ passed_over f r) by tauto.
      apply (not_iff_compat (passed_over_test f r)) in Hnpo'.
      apply not_true_is_false in Hnpo'. rewrite Hnpo'. rewrite Hdag.
      destruct (task_dict d !! task_id r) as [tdef|] eqn:Htd.
      * exfalso. apply Hbad. right. eexists. reflexivity.
      * reflexivity.
Qed.

(** X13: in a fail-fast run, when a task instance is failed for good
    ([force_fail]) and the run holds a task instance that is not passed
    over and whose task is not in the DAG any more, [_handle_failure]
    raises [KeyError]: the listener hook is not called and the row of the
    failing task instance is left as it was. *)
Theorem fail_fast_missing_task_raises
    (ti : TaskInstance) (t : Operator) (d : DAG) (test_mode' context : bool) (w : World) :
  stored_under_key w ->
  is_Some (dag_run ti) ->
  task ti = Some t -> dag t = Some d -> unmap_raises t = false ->
  (exists k r, rows w !! k = Some r /\ dag_id r = dag_id ti /\ run_id r = run_id ti /\
               ~ passed_over ti r /\ task_dict d !! task_id r = None) ->
  exists w',
    _handle_failure ti (Some test_mode') context true true w = (Raise KeyError, w') /\
    events w' = events w /\
    rows w' !! ti_key ti = rows w !! ti_key ti.
Proof.
  intros Hwf Hdr Htask Hdag Hunmap (k & r & Hrow & Hd & Hr & Hnpo & Hmiss).
  destruct (record_failure_spec ti test_mode' w Hwf)
    as (ti2 & w2 & Hrec & Hrows2 & Hev2 & Hkey2 & Htask2 & Hdr2).
  assert (Hwf2 : stored_under_key w2).
  { intros k' r' H'. apply Hwf. rewrite <- Hrows2. exact H'. }
  set (f := set_state_field (Some FAILED) ti2).
  assert (Hstop : exists w3, _stop_remaining_tasks f w2 = (Raise KeyError, w3)).
  { unfold _stop_remaining_tasks. change (dag_run f) with (dag_run ti2). rewrite Hdr2.
    destruct Hdr as [dr ->].
    destruct (get_task_instances_spec (dag_id f) (run_id f) w2 Hwf2) as (l & Hget & _ & Hl).
    rewrite (M_bind_OK _ _ _ _ _ Hget).
    apply (for_each_stop_task_missing f d).
    - change (task f) with (task ti2). rewrite Htask2, Htask. exact Hdag.
    - unfold ti_key in Hkey2. injection Hkey2 as Hdi Hti Hri Hmi.
      exists r. split; [|split; [|exact Hmiss]].
      + apply Hl. rewrite Hrows2. rewrite (Hwf _ _ Hrow). split; [exact Hrow|].
        change (dag_id f) with (dag_id ti2). change (run_id f) with (run_id ti2).
        split; congruence.
      + intros Hpo. apply Hnpo. unfold passed_over in *.
        change (task_id f) with (task_id ti2) in Hpo. rewrite Hti in Hpo. exact Hpo. }
  destruct Hstop as (w3 & Hstop).
  exists w3. split; [|split].
  - unfold _handle_failure, fetch_handle_failure_context. cbv zeta.
    change (default (test_mode ti) (Some test_mode')) with test_mode'.
    rewrite (M_bind_bind_OK _ _ _ _ _ _ Hrec).
    apply M_bind_Raise. apply M_bind_Raise.
    unfold fail_or_retry. rewrite Htask2, Htask, Hunmap. cbn [orb negb andb].
    rewrite orb_true_r. cbn [andb].
    rewrite bool_decide_eq_true_2 by (eexists; reflexivity). cbn [andb].
    apply M_bind_Raise. exact Hstop.
  - apply stop_remaining_tasks_events in Hstop as [E _]. congruence.
  - pose proof (stop_remaining_tasks_keeps_own_row f w2 w3 _ Hwf2 Hstop) as Hown.
    change (ti_key f) with (ti_key ti2) in Hown. rewrite Hkey2, Hrows2 in Hown. exact Hown.
Qed.

(** X14: outside test mode, for a stored task instance whose DAG does
    not ask for fail-fast, and unless the exception is a timeout, an
    [AirflowException] or a termination that finds the row in a finished
    state, the failure clauses of [_run_raw_task] raise again the
    exception they caught ([AirflowException] with the
    "Task failed due to SystemExit" message for a [SystemExit]) after
    the row has been written with the [try_number] it had: in state
    failed for [AirflowFailException] and [AirflowSensorTimeout], even
    when the instance could retry, and for the others in state
    up_for_retry when the instance is eligible to retry and failed when
    it is not. *)
Theorem run_raw_task_failed_raises
    (ti row : TaskInstance) (e : FailureExn) (w : World) :
  stored_under_key w ->
  rows w !! ti_key ti = Some row ->
  (forall d, task ti ≫= dag = Some d -> fail_fast d = false) ->
  match e with
  | IsAirflowTaskTimeout | IsAirflowException _ | IsAirflowTaskTerminated =>
      State_finished (state row) = false
  | _ => True
  end ->
  exists w' r,
    _run_raw_task_failed ti false e w
    = (Raise match e with
             | IsSystemExit _ => AirflowException TaskFailedDueToSystemExit
             | _ => exn_of e
             end, w') /\
    rows w' !! ti_key ti = Some r /\
    try_number r = try_number row /\
    state r = Some match e with
                   | IsAirflowFailException | IsAirflowSensorTimeout => FAILED
                   | _ => if is_eligible_to_retry (with_columns_of row ti)
                          then UP_FOR_RETRY else FAILED
                   end.
Proof.
  intros Hwf Hrow Hff Hext. pose proof (Hwf _ _ Hrow) as Hkey.
  assert (Hhandle : forall x force_fail,
            ti_key x = ti_key ti -> task x = task ti ->
            with_columns_of row x = with_columns_of row ti ->
            exists ti' w',
              handle_failure x (Some false) true force_fail w = (OK ti', w') /\
              rows w' !! ti_key ti = Some (row_of ti') /\
              try_number (row_of ti') = try_number row /\
              state (row_of ti')
              = Some (if negb force_fail && is_eligible_to_retry (with_columns_of row ti)
                      then UP_FOR_RETRY else FAILED)).
  { intros x force_fail Hkx Htx Hcx.
    rewrite handle_failure_no_fail_fast by (rewrite Htx; exact Hff).
    rewrite <- Hkx in Hrow.
    destruct (handle_failure_without_fail_fast x row true force_fail w Hwf Hrow)
      as (ti' & w' & Hrun & Hstate & Htn & _ & _ & _ & _ & Hrows & _).
    exists ti', w'. split; [exact Hrun|].
    split; [rewrite Hrows, Hkx; apply lookup_insert_eq|].
    split; [exact Htn|]. rewrite <- Hcx. exact Hstate. }
  assert (Hraise : forall x force_fail exn,
            ti_key x = ti_key ti -> task x = task ti ->
            with_columns_of row x = with_columns_of row ti ->
            exists w' r,
              (handle_failure x (Some false) true force_fail;; (raise exn : M TaskInstance)) w
              = (Raise exn, w') /\
              rows w' !! ti_key ti = Some r /\ try_number r = try_number row /\
              state r = Some (if negb force_fail
                                 && is_eligible_to_retry (with_columns_of row ti)
                              then UP_FOR_RETRY else FAILED)).
  { intros x force_fail exn Hkx Htx Hcx.
    destruct (Hhandle x force_fail Hkx Htx Hcx) as (ti' & w' & Hrun & Hrest).
    exists w', (row_of ti'). split; [|exact Hrest].
    rewrite (M_bind_OK _ _ _ _ _ Hrun). reflexivity. }
  assert (Hexternal : forall exn,
            State_finished (state row) = false ->
            exists w' r,
              (ti0 ← refresh_from_db ti;
               if State_finished (state ti0) then save_to_db (clear_next_method_args ti0)
               else handle_failure ti0 (Some false) true false;; (raise exn : M TaskInstance)) w
              = (Raise exn, w') /\
              rows w' !! ti_key ti = Some r /\ try_number r = try_number row /\
              state r = Some (if is_eligible_to_retry (with_columns_of row ti)
                              then UP_FOR_RETRY else FAILED)).
  { intros exn Hfin.
    rewrite (M_bind_OK _ _ _ _ _ (refresh_from_db_found ti row w Hrow)).
    change (state (with_columns_of row ti)) with (state row). rewrite Hfin.
    apply (Hraise (with_columns_of row ti) false exn); [exact Hkey|reflexivity|reflexivity]. }
  destruct e; cbn [_run_raw_task_failed negb exn_of];
    try (apply Hexternal; exact Hext);
    apply Hraise; reflexivity.
Qed.

(** X15: the failure clauses of [_run_raw_task] return without raising
    in one case only: the exception is a timeout, an [AirflowException]
    or a termination, and the task instance is in a finished state; the
    instance is then saved without continuation. *)
Theorem run_raw_task_failure_not_swallowed
    (ti ti' : TaskInstance) (test_mode' : bool) (e : FailureExn) (w w' : World) :
  _run_raw_task_failed ti test_mode' e w = (OK ti', w') ->
  (e = IsAirflowTaskTimeout \/ (exists msg, e = IsAirflowException msg) \/
   e = IsAirflowTaskTerminated) /\
  State_finished (state ti') = true /\
  next_method ti' = None /\ next_kwargs ti' = None /\
  rows w' !! ti_key ti' = Some (row_of ti').
Proof.
  intros Hrun.
  assert (Hexternal :
    (ti0 ← (if negb test_mode' then refresh_from_db ti else mret ti);
     if State_finished (state ti0) then save_to_db (clear_next_method_args ti0)
     else handle_failure ti0 (Some test_mode') true false;; raise (exn_of e)) w = (OK ti', w') ->
    State_finished (state ti') = true /\ next_method ti' = None /\ next_kwargs ti' = None /\
    rows w' !! ti_key ti' = Some (row_of ti')).
  { clear Hrun. intros H.
    apply M_bind_inv in H as [(ti0 & w1 & _ & H)|(e' & _ & [=])].
    destruct (State_finished (state ti0)) eqn:Hfin.
    - unfold save_to_db, utcnow, session_merge in H. cbn in H. injection H as <- <-.
      cbn. repeat split; try assumption. apply lookup_insert_eq.
    - exfalso. exact (then_raise_not_OK _ _ _ _ _ H). }
  destruct e; cbn [_run_raw_task_failed] in Hrun;
    try (exfalso; exact (then_raise_not_OK _ _ _ _ _ Hrun)).
  - split; [left; reflexivity|]. apply Hexternal, Hrun.
  - split; [right; left; eexists; reflexivity|]. apply Hexternal, Hrun.
  - split; [right; right; reflexivity|]. apply Hexternal, Hrun.
Qed.

(** ** Result propagation *)

Section ResultFacts.

Variable is_mappable_value : PyValue -> bool.
Variable max_map_length : Z.

Lemma execute_callable_inv (run : Result PyValue) (w w' : World) (res : Result PyValue) :
  _execute_callable run w = (res, w') ->
  w' = w /\ forall v, res = OK v -> v <> VNone -> run = OK v.
Proof.
  unfold _execute_callable.
  destruct run as [v0|[]]; try destruct code as [[]|]; cbn; intros [= <- <-];
    (split; [reflexivity|]); intros v [= <-] Hne; try reflexivity; contradiction.
Qed.

Lemma on_timeout_inv (t : Operator) (w w' : World) (res : Result PyValue) :
  (emit OnKill;;
   match on_kill t with
   | Some e => raise e
   | None => raise AirflowTaskTimeout
   end) w = (res, w') ->
  res = Raise (default AirflowTaskTimeout (on_kill t)) /\
  w' = with_events (events w ++ [OnKill]) w.
Proof.
  unfold emit, raise, mbind, M_bind. destruct (on_kill t); intros [= <- <-]; split; reflexivity.
Qed.

Lemma push_result_nothing
    (ti : TaskInstance) (t task_orig : Operator) (v : PyValue) (w w' : World)
    (res : Result unit) :
  do_xcom_push t = false \/ v = VNone ->
  push_result is_mappable_value max_map_length ti t task_orig v w = (res, w') ->
  xcoms w' = xcoms w /\ task_maps w' = task_maps w.
Proof.
  intros Hnone. unfold push_result.
  assert ((if do_xcom_push t then v else VNone) = VNone) as ->.
  { destruct Hnone as [-> | ->]; [reflexivity|]. destruct (do_xcom_push t); reflexivity. }
  cbn [push_xcom_value is_none negb]. rewrite (M_bind_OK (mret tt) _ w w tt eq_refl).
  unfold _record_task_map_for_downstreams. cbn [is_none].
  destruct (has_mapped_dependants task_orig), (is_mapped_operator task_orig); cbn [negb];
    intros [= <- <-]; split; reflexivity.
Qed.

(** X16: whatever [_execute_task] ends in, it has written to the result
    store or to the task map table only if the task instance has a task
    that is not a mapped operator and pushes results ([do_xcom_push]),
    and the callable returned a value other than [None]; in every other
    case (an exception, a timeout, [SystemExit] with a success code, a
    [None] result, [do_xcom_push] unset) both tables are as before. *)
Theorem execute_task_pushes_only_results
    (ti : TaskInstance) (task_orig : Operator) (run : Result PyValue) (w w' : World)
    (res : Result PyValue) :
  _execute_task is_mappable_value max_map_length ti task_orig run w = (res, w') ->
  (xcoms w' = xcoms w /\ task_maps w' = task_maps w) \/
  exists t v,
    task ti = Some t /\ is_mapped_operator t = false /\ do_xcom_push t = true /\
    run = OK v /\ v <> VNone.
Proof.
  unfold _execute_task.
  destruct (task ti) as [t|]; [|intros [= <- <-]; left; split; reflexivity].
  destruct (is_mapped_operator t) eqn:Hmapped; [intros [= <- <-]; left; split; reflexivity|].
  cbv zeta. intros H.
  lazymatch type of H with
  | (mbind ?k ?m) _ = _ =>
      apply (M_bind_inv m k) in H as [(v & w1 & Hphase & H)|(e & Hphase & _)]
  end.
  - assert (Hw1 : xcoms w1 = xcoms w /\ task_maps w1 = task_maps w /\
                  (v <> VNone -> run = OK v)).
    { clear H.
      assert (Hcall : forall wx, _execute_callable run wx = (OK v, w1) ->
                xcoms w1 = xcoms wx /\ task_maps w1 = task_maps wx /\
                (v <> VNone -> run = OK v)).
      { intros wx Hc. apply execute_callable_inv in Hc as [-> Hv].
        repeat split. intros Hne. exact (Hv v eq_refl Hne). }
      assert (Hkill : forall wx,
                (emit OnKill;;
                 match on_kill t with
                 | Some e => raise e
                 | None => raise AirflowTaskTimeout
                 end) wx = (OK v, w1) -> False).
      { intros wx Hk. apply on_timeout_inv in Hk as [Hk _]. discriminate. }
      destruct (execution_timeout t) as [et|]; [|exact (Hcall w Hphase)].
      destruct (et =? 0); [exact (Hcall w Hphase)|].
      apply M_bind_inv in Hphase as [(timeout & w0 & Htimeout & Hphase)|(e & _ & [=])].
      assert (Hw0 : xcoms w0 = xcoms w /\ task_maps w0 = task_maps w).
      { destruct (truthy (next_method ti)), (start_date ti);
          unfold utcnow in Htimeout; cbn in Htimeout; injection Htimeout as _ <-;
          split; reflexivity. }
      destruct Hw0 as [<- <-].
      destruct (timeout <=? 0); [exfalso; exact (Hkill _ Hphase)|].
      destruct run as [v0|[]]; try exact (Hcall _ Hphase).
      exfalso. exact (Hkill _ Hphase). }
    destruct Hw1 as (Hx1 & Ht1 & Hrun).
    apply M_bind_inv in H as [([] & w2 & Hpush & H)|(e & Hpush & _)].
    + injection H as _ <-.
      destruct (do_xcom_push t) eqn:Hpushes.
      * destruct (is_none v) eqn:Hnone.
        -- left. rewrite <- Hx1, <- Ht1.
           assert (Hv : v = VNone) by (destruct v; try discriminate; reflexivity).
           exact (push_result_nothing _ _ _ _ _ _ _ (or_intror Hv) Hpush).
        -- right. exists t, v. repeat split; try assumption.
           ++ apply Hrun. intros ->. discriminate.
           ++ intros ->. discriminate.
      * left. rewrite <- Hx1, <- Ht1.
        exact (push_result_nothing _ _ _ _ _ _ _ (or_introl Hpushes) Hpush).
    + destruct (do_xcom_push t) eqn:Hpushes.
      * destruct (is_none v) eqn:Hnone.
        -- left. rewrite <- Hx1, <- Ht1.
           assert (Hv : v = VNone) by (destruct v; try discriminate; reflexivity).
           exact (push_result_nothing _ _ _ _ _ _ _ (or_intror Hv) Hpush).
        -- right. exists t, v. repeat split; try assumption.
           ++ apply Hrun. intros ->. discriminate.
           ++ intros ->. discriminate.
      * left. rewrite <- Hx1, <- Ht1.
        exact (push_result_nothing _ _ _ _ _ _ _ (or_introl Hpushes) Hpush).
  - left.
    assert (Hcall : forall wx, _execute_callable run wx = (Raise e, w') ->
              xcoms w' = xcoms wx /\ task_maps w' = task_maps wx).
    { intros wx Hc. apply execute_callable_inv in Hc as [-> _]. split; reflexivity. }
    assert (Hkill : forall wx,
              ((emit OnKill;;
                match on_kill t with
                | Some e => raise e
                | None => raise AirflowTaskTimeout
                end) : M PyValue) wx = (Raise e, w') ->
              xcoms w' = xcoms wx /\ task_maps w' = task_maps wx).
    { intros wx Hk. apply (on_timeout_inv t wx w' (Raise e)) in Hk as [_ ->].
      split; reflexivity. }
    destruct (execution_timeout t) as [et|]; [|exact (Hcall w Hphase)].
    destruct (et =? 0); [exact (Hcall w Hphase)|].
    apply M_bind_inv in Hphase as [(timeout & w0 & Htimeout & Hphase)|(e0 & Htimeout & _)].
    + assert (Hw0 : xcoms w0 = xcoms w /\ task_maps w0 = task_maps w).
      { destruct (truthy (next_method ti)), (start_date ti);
          unfold utcnow in Htimeout; cbn in Htimeout; injection Htimeout as _ <-;
          split; reflexivity. }
      destruct Hw0 as [<- <-].
      destruct (timeout <=? 0); [exact (Hkill _ Hphase)|].
      destruct run as [v0|[]]; try exact (Hcall _ Hphase).
      exact (Hkill _ Hphase).
    + exfalso. destruct (truthy (next_method ti)), (start_date ti);
        unfold utcnow in Htimeout; cbn in Htimeout; discriminate.
Qed.

Lemma push_items_strings (ti : TaskInstance) (kvs : list (string * PyValue)) (w : World) :
  push_items ti ((fun kv => (VStr (fst kv), snd kv)) <$> kvs) w
  = (OK tt, with_xcoms (xcoms w ++ ((fun kv => (ti_key ti, fst kv, snd kv)) <$> kvs)) w).
Proof.
  revert w. induction kvs as [|[k v] kvs IH]; intros w.
  - cbn. rewrite app_nil_r. destruct w; reflexivity.
  - unfold push_items in *. cbn [fmap list_fmap for_each fst snd].
    rewrite (M_bind_OK (xcom_push ti k v) _ w
               (with_xcoms (xcoms w ++ [(ti_key ti, k, v)]) w) tt eq_refl).
    rewrite IH. cbn [xcoms with_xcoms]. rewrite <- app_assoc. reflexivity.
Qed.

(** X17: for a task that pushes results and declares multiple outputs,
    has no execution timeout and no mapped dependants, when the callable
    returns a dictionary whose keys are strings, [_execute_task] returns
    that dictionary after adding to the result store one entry per key,
    in the order of the dictionary, followed by the dictionary itself
    under [return_value]; nothing else changes. *)
Theorem execute_task_multiple_outputs
    (ti : TaskInstance) (t task_orig : Operator) (kvs : list (string * PyValue)) (w : World) :
  task ti = Some t -> is_mapped_operator t = false -> execution_timeout t = None ->
  do_xcom_push t = true -> multiple_outputs t = true ->
  has_mapped_dependants task_orig = false ->
  let result := VDict ((fun kv => (VStr (fst kv), snd kv)) <$> kvs) in
  _execute_task is_mappable_value max_map_length ti task_orig (OK result) w
  = (OK result,
     with_xcoms (xcoms w ++ ((fun kv => (ti_key ti, fst kv, snd kv)) <$> kvs)
                   ++ [(ti_key ti, XCOM_RETURN_KEY, result)]) w).
Proof.
  intros Htask Hmapped Hexec Hpush Hmulti Hdeps result.
  unfold _execute_task. rewrite Htask, Hmapped, Hexec. cbv zeta.
  rewrite (M_bind_OK (_execute_callable (OK result)) _ w w result eq_refl).
  unfold push_result. rewrite Hpush.
  unfold _record_task_map_for_downstreams. rewrite Hdeps. cbn [negb].
  unfold push_xcom_value. cbn [is_none result negb]. rewrite Hmulti.
  assert (Hkeys : forallb is_str (fst <$> ((fun kv => (VStr (fst kv), snd kv)) <$> kvs)) = true).
  { clear. induction kvs as [|kv kvs IH]; [reflexivity|]. cbn. exact IH. }
  subst result. rewrite Hkeys.
  unfold mbind, M_bind. rewrite push_items_strings.
  cbn [xcom_push xcoms with_xcoms mret M_ret]. rewrite <- app_assoc. reflexivity.
Qed.

(** X18: when a task instance resumes ([next_method] is set) at a time
    when its start date plus the execution timeout of the task has
    passed, [_execute_task] calls the cleanup hook [on_kill] and raises
    [AirflowTaskTimeout] (or what the hook raises), whatever the
    callable would have done; only the clock and the trace of calls
    change. *)
Theorem execute_task_expired_timeout
    (ti : TaskInstance) (t task_orig : Operator) (run : Result PyValue)
    (timeout : timedelta) (start_date' : datetime) (w : World) :
  task ti = Some t -> is_mapped_operator t = false ->
  execution_timeout t = Some timeout -> timeout <> 0 ->
  truthy (next_method ti) = true -> start_date ti = Some start_date' ->
  start_date' + timeout <= clock w (ticks w) ->
  _execute_task is_mappable_value max_map_length ti task_orig run w
  = (Raise (default AirflowTaskTimeout (on_kill t)),
     with_events (events w ++ [OnKill]) (with_ticks (S (ticks w)) w)).
Proof.
  intros Htask Hmapped Hexec Hne Hnext Hstart Hlate.
  unfold _execute_task. rewrite Htask, Hmapped, Hexec, Hnext, Hstart.
  apply Z.eqb_neq in Hne. rewrite Hne. cbv zeta.
  apply M_bind_Raise.
  rewrite (M_bind_OK _ _ w (with_ticks (S (ticks w)) w)
             (timeout - datetime_sub (clock w (ticks w)) start_date') eq_refl).
  assert (Hle : (timeout - datetime_sub (clock w (ticks w)) start_date' <=? 0) = true).
  { apply Z.leb_le. unfold datetime_sub. lia. }
  rewrite Hle. unfold emit, raise, mbind, M_bind.
  destruct (on_kill t); reflexivity.
Qed.


End ResultFacts.

(** ** Ranges of map indexes *)

(** X20: when the task instance is one of
    [ancestor_ti_count * further_count] instances and the common mapped
    group of its task and the upstream has [ancestor_ti_count] (both
    positive), the index [i] into the group is the map index divided by
    [further_count] and lies in [0, ancestor_ti_count); for an upstream
    further mapped inside the group, the range returned is the block
    of [further_count] indexes starting at [i * further_count], which
    contains the map index of the task instance itself and ends within
    the total count. *)
Theorem relevant_upstream_map_indexes_in_range
    (get_mapped_ti_count : TaskGroup -> string -> Result Z)
    (self : TaskInstance) (self_task upstream : Operator) (g : TaskGroup)
    (ancestor_ti_count further_count : Z) :
  task self = Some self_task ->
  _find_common_ancestor_mapped_group self_task upstream = Some g ->
  get_mapped_ti_count g (run_id self) = OK ancestor_ti_count ->
  0 < ancestor_ti_count -> 0 < further_count ->
  0 <= map_index self < ancestor_ti_count * further_count ->
  let i := map_index self / further_count in
  get_relevant_upstream_map_indexes get_mapped_ti_count self upstream
    (Some (ancestor_ti_count * further_count))
  = OK (if _is_further_mapped_inside upstream g
        then IndexRange (i * further_count) (i * further_count + further_count)
        else SingleIndex i) /\
  0 <= i < ancestor_ti_count /\
  i * further_count <= map_index self < i * further_count + further_count /\
  i * further_count + further_count <= ancestor_ti_count * further_count.
Proof.
  intros Htask Hgroup Hcount Ha Hf Hm i.
  assert (Hi : 0 <= i < ancestor_ti_count).
  { subst i. split; [apply Z.div_pos; lia|].
    apply Z.div_lt_upper_bound; lia. }
  assert (Hblock : i * further_count <= map_index self < i * further_count + further_count).
  { subst i. pose proof (Z.mul_div_le (map_index self) further_count Hf).
    pose proof (Z.mul_succ_div_gt (map_index self) further_count Hf). lia. }
  split; [|split; [exact Hi|split; [exact Hblock|nia]]].
  unfold get_relevant_upstream_map_indexes.
  destruct (ancestor_ti_count * further_count) as [|p|p] eqn:Hprod; [nia| |nia].
  rewrite Htask, Hgroup, Hcount. cbn [mbind Result_bind rbind].
  unfold floordiv. cbn [Z.eqb].
  assert (Hne : (ancestor_ti_count =? 0) = false) by (apply Z.eqb_neq; lia).
  rewrite <- Hprod.
  assert (Hidx : map_index self * ancestor_ti_count / (ancestor_ti_count * further_count) = i).
  { subst i. rewrite (Z.mul_comm (map_index self)).
    apply Z.div_mul_cancel_l; lia. }
  assert (Hfurther : ancestor_ti_count * further_count / ancestor_ti_count = further_count).
  { rewrite Z.mul_comm. apply Z.div_mul. lia. }
  destruct (_is_further_mapped_inside upstream g); cbn [negb mbind Result_bind rbind].
  - rewrite Hne. cbn [rbind]. rewrite Hidx, Hfurther. reflexivity.
  - rewrite Hidx. reflexivity.
Qed.

Lemma further_mapped_from_own (tg g : TaskGroup) (rest : list TaskGroup) :
  mapped_groups_from tg = g :: rest -> further_mapped_from tg g = false.
Proof.
  induction tg as [|i m p IH]; [discriminate|].
  cbn [mapped_groups_from further_mapped_from].
  destruct (bool_decide (i = group_id g)) eqn:Hid; [reflexivity|].
  destruct m.
  - intros [= <- _]. apply bool_decide_eq_false in Hid. exfalso. apply Hid. reflexivity.
  - exact IH.
Qed.

(** X21: for an upstream operator of the same DAG that is not a mapped
    operator and sits in the same task group as the task of the
    instance, inside a mapped task group, an instance expanded as many
    times as that innermost mapped group reads the upstream at its own
    map index. *)
Theorem sibling_in_same_mapped_group_resolves_to_own_index
    (get_mapped_ti_count : TaskGroup -> string -> Result Z)
    (self : TaskInstance) (self_task upstream : Operator) (d d' : DAG)
    (g : TaskGroup) (rest : list TaskGroup) (n : Z) :
  task self = Some self_task ->
  dag self_task = Some d -> dag upstream = Some d' -> dag_dag_id d = dag_dag_id d' ->
  task_group upstream = task_group self_task ->
  is_mapped_operator upstream = false ->
  iter_mapped_task_groups self_task = g :: rest ->
  get_mapped_ti_count g (run_id self) = OK n ->
  0 < n ->
  get_relevant_upstream_map_indexes get_mapped_ti_count self upstream (Some n)
  = OK (SingleIndex (map_index self)).
Proof.
  intros Htask Hd Hd' Hid Hgroup Hmapped Hgroups Hcount Hn.
  assert (Hcommon : _find_common_ancestor_mapped_group self_task upstream = Some g).
  { unfold _find_common_ancestor_mapped_group. rewrite Hd, Hd', Hid, String.eqb_refl.
    cbn [negb]. unfold iter_mapped_task_groups in *. rewrite Hgroup, Hgroups.
    cbn [fmap list_fmap]. rewrite filter_cons_True by left. reflexivity. }
  assert (Hfurther : _is_further_mapped_inside upstream g = false).
  { unfold _is_further_mapped_inside. rewrite Hmapped, Hgroup.
    exact (further_mapped_from_own _ _ _ Hgroups). }
  unfold get_relevant_upstream_map_indexes.
  destruct n as [|p|p]; [lia| |lia].
  rewrite Htask, Hcommon, Hcount, Hfurther. cbn [mbind Result_bind rbind negb].
  unfold floordiv. cbn [Z.eqb rbind]. rewrite Z.div_mul by lia. reflexivity.
Qed.

(** ** Saving and refreshing *)


(** ** Instances *)

Lemma generate_command_options_witness :
  generate_command "etl" "extract" "run1" false false true true false true false
    (Some "DAGS_FOLDER/etl.py") true (Some "default_pool") None 4
  = ["airflow"; "tasks"; "run"; "etl"; "extract"; "run1";
     "--depends-on-past"; "ignore"; "--force"; "--pool"; "default_pool"; "--raw";
     "--subdir"; "DAGS_FOLDER/etl.py"; "--map-index"; "4"] /\
  count_occ string_dec
    (drop 6 (generate_command "etl" "extract" "run1" false false true true false true false
               (Some "DAGS_FOLDER/etl.py") true (Some "default_pool") None 4))
    "--depends-on-past" = 1%nat /\
  followed_by "--depends-on-past" "ignore"
    (drop 6 (generate_command "etl" "extract" "run1" false false true true false true false
               (Some "DAGS_FOLDER/etl.py") true (Some "default_pool") None 4)).
Proof.
  assert (Hvalues : forall (v : option string) (s : string),
            v ∈ [Some "default_pool"; Some "DAGS_FOLDER/etl.py"; None] ->
            v <> Some ("--" +:+ s)).
  { intros v s Hin. apply elem_of_cons in Hin as [->|Hin]; [discriminate|].
    apply elem_of_cons in Hin as [->|Hin]; [discriminate|].
    apply list_elem_of_singleton in Hin as ->. discriminate. }
  pose proof (generate_command_options "etl" "extract" "run1" false false true true false
                true false (Some "DAGS_FOLDER/etl.py") true (Some "default_pool") None 4
                Hvalues) as H.
  cbv zeta in H.
  destruct H as (_ & _ & _ & _ & Hpast & _ & _ & _ & _ & _ & _ & _ & Hignore & _).
  split; [reflexivity|]. split; [exact Hpast|]. apply Hignore. reflexivity.
Defined.

Lemma clear_task_instance_retry_budget_witness :
  exists ti' w',
    clear_task_instance (fun x => x) (fun _ => None) (fun _ _ => Sample.example_task)
      (Some Sample.example_dag) (Sample.example_row "load" (-1) (Some SCHEDULED))
      (Sample.world_of Sample.run_rows) = (OK ti', w') /\
    max_tries ti' = try_number ti' + 3.
Proof.
  assert (Hstate : state (Sample.example_row "load" (-1) (Some SCHEDULED)) <> Some RUNNING)
    by discriminate.
  destruct (clear_task_instance_retry_budget (fun x => x) (fun _ => None)
              (fun _ _ => Sample.example_task) (Some Sample.example_dag)
              (Sample.example_row "load" (-1) (Some SCHEDULED))
              (Sample.world_of Sample.run_rows) Hstate)
    as (ti' & w' & Hrun & _ & Hbudget).
  exists ti', w'. split; [exact Hrun|].
  cbv zeta in Hbudget.
  lazymatch type of Hbudget with
  | match ?s with _ => _ end =>
      assert (E : s = Some Sample.example_dag) by (vm_compute; reflexivity);
      rewrite E in Hbudget
  end.
  exact Hbudget.
Defined.

Lemma handle_reschedule_spec_witness :
  exists ti' w',
    _handle_reschedule Sample.running_ti Sample.t0 (Sample.t0 + 600 * MICROSECONDS) false []
      (Sample.world_of Sample.run_rows)
    = (OK (Some ti',
           [mkTaskReschedule ("etl", "extract", "run1", -1) 1 Sample.t0
              (Some (Sample.t0 + 60 * MICROSECONDS)) (Sample.t0 + 600 * MICROSECONDS)]), w') /\
    state ti' = Some UP_FOR_RESCHEDULE /\ try_number ti' = 1.
Proof.
  assert (Hrow : rows (Sample.world_of Sample.run_rows) !! ti_key Sample.running_ti
                 = Some (Sample.example_row "extract" (-1) (Some RUNNING)))
    by (vm_compute; reflexivity).
  destruct (handle_reschedule_spec Sample.running_ti _ Sample.t0
              (Sample.t0 + 600 * MICROSECONDS) []
              (Sample.world_of Sample.run_rows)
              (world_of_stored_under_key Sample.run_rows) Hrow)
    as (_ & ti' & w' & Hrun & Hstate & _ & Htry & _).
  exists ti', w'. split; [exact Hrun|]. split; [exact Hstate|exact Htry].
Defined.

Lemma deferral_trigger_timeout_bounded_witness :
  exists t w',
    deferral_trigger_timeout Sample.resumed_ti Sample.timed_task (Some (600 * MICROSECONDS))
      (Sample.world_of Sample.run_rows) = (OK (Some t), w') /\
    t <= Sample.t0 + 30 * MICROSECONDS.
Proof.
  destruct (deferral_trigger_timeout_bounded Sample.resumed_ti Sample.timed_task
              (Some (600 * MICROSECONDS)) Sample.t0 (30 * MICROSECONDS)
              (Sample.world_of Sample.run_rows))
    as (t & w' & Hrun & Hle & _).
  - reflexivity.
  - reflexivity.
  - discriminate.
  - vm_compute. split; discriminate.
  - intros d [= <-]. vm_compute. split; discriminate.
  - exists t, w'. split; [exact Hrun|exact Hle].
Defined.

Lemma check_and_change_state_runnable_witness :
  exists ti' w',
    _check_and_change_state_before_execution Sample.running_deps Sample.requeueable_deps
      Sample.trigger_rule_fails (fun x => x) (fun _ _ => None) Sample.queued_ti
      false false false false false true false "worker-1" None None
      (Sample.world_of Sample.queued_rows)
    = (OK (true, ti'), w') /\
    state ti' = Some RUNNING /\
    log_rows w' = [("running", ("etl", "transform", "run1", -1))].
Proof.
  assert (Hrow : rows (Sample.world_of Sample.queued_rows) !! ti_key Sample.queued_ti
                 = Some (Sample.example_row "transform" (-1) (Some QUEUED)))
    by (vm_compute; reflexivity).
  destruct (check_and_change_state_runnable Sample.running_deps
              Sample.requeueable_deps Sample.trigger_rule_fails (fun x => x)
              (fun _ _ => None) Sample.queued_ti
              (Sample.example_row "transform" (-1) (Some QUEUED)) Sample.example_task
              false false false false false true false "worker-1" None None
              (Sample.world_of Sample.queued_rows)
              eq_refl (fun x => eq_refl) (fun x => eq_refl) Hrow eq_refl
              (or_introl eq_refl))
    as (ti' & w' & Hrun & Hstate & _ & _ & _ & _ & _ & _ & Hlog & _).
  exists ti', w'. split; [exact Hrun|]. split; [exact Hstate|exact Hlog].
Defined.

Lemma handle_failure_outcome_witness :
  exists ti' w',
    handle_failure Sample.plain_ti (Some false) true false (Sample.world_of Sample.run_rows)
    = (OK ti', w') /\
    state ti' = Some UP_FOR_RETRY /\ try_number ti' = 1 /\ try_id ti' = 100%N.
Proof.
  assert (Hrow : rows (Sample.world_of Sample.run_rows) !! ti_key Sample.plain_ti
                 = Some (Sample.example_row "extract" (-1) (Some RUNNING)))
    by (vm_compute; reflexivity).
  assert (Hff : forall d, task Sample.plain_ti ≫= dag = Some d -> fail_fast d = false).
  { intros d Hd. change (Some Sample.plain_dag = Some d) in Hd. injection Hd as <-.
    reflexivity. }
  destruct (handle_failure_outcome Sample.plain_ti _ true false
              (Sample.world_of Sample.run_rows)
              (world_of_stored_under_key Sample.run_rows) Hrow Hff)
    as (ti' & w' & Hrun & Hstate & Htry & _ & _ & _ & _ & _ & _ & Htid & _).
  exists ti', w'. split; [exact Hrun|]. split; [exact Hstate|]. split; [exact Htry|exact Htid].
Defined.

Lemma handle_failure_notifies_listener_once_witness :
  exists rest,
    events (snd (_handle_failure Sample.plain_ti (Some false) true false false
                   (Sample.world_of Sample.run_rows)))
    = ListenerTaskInstanceFailed ("etl", "extract", "run1", -1) :: rest /\
    forall k, ListenerTaskInstanceFailed k ∉ rest.
Proof.
  pose (res := _handle_failure Sample.plain_ti (Some false) true false false
                 (Sample.world_of Sample.run_rows)).
  assert (Hok : exists x, fst res = OK x) by (vm_compute; eexists; reflexivity).
  destruct Hok as (x & Hfst).
  assert (Hrun : _handle_failure Sample.plain_ti (Some false) true false false
                   (Sample.world_of Sample.run_rows) = (OK x, snd res)).
  { rewrite <- Hfst. apply surjective_pairing. }
  exact (handle_failure_notifies_listener_once Sample.plain_ti (Some false) true false false
           (Sample.world_of Sample.run_rows) (snd res) (OK x)
           (world_of_stored_under_key Sample.run_rows) Hrun).
Defined.

Lemma handle_failure_test_mode_witness :
  log_rows (snd (_handle_failure Sample.running_ti (Some true) true true true
                   (Sample.world_of Sample.run_rows))) = [] /\
  rows (snd (_handle_failure Sample.running_ti (Some true) true true true
               (Sample.world_of Sample.run_rows))) !! ti_key Sample.running_ti
  = rows (Sample.world_of Sample.run_rows) !! ti_key Sample.running_ti.
Proof.
  destruct (handle_failure_test_mode Sample.running_ti true true true
              (Sample.world_of Sample.run_rows) _ _
              (world_of_stored_under_key Sample.run_rows)
              (surjective_pairing _)) as (Hlog & Hown & _).
  split; [exact Hlog|exact Hown].
Defined.

Lemma fail_fast_missing_task_raises_witness :
  exists w',
    _handle_failure Sample.running_ti (Some false) true true true
      (Sample.world_of Sample.removed_task_rows) = (Raise KeyError, w') /\
    events w' = [].
Proof.
  destruct (fail_fast_missing_task_raises Sample.running_ti Sample.example_task
              Sample.example_dag false true (Sample.world_of Sample.removed_task_rows)
              (world_of_stored_under_key Sample.removed_task_rows))
    as (w' & Hrun & Hev & _).
  - eexists. reflexivity.
  - reflexivity.
  - reflexivity.
  - reflexivity.
  - exists ("etl", "transform", "run1", -1), (Sample.example_row "transform" (-1) (Some QUEUED)).
    split; [vm_compute; reflexivity|]. split; [reflexivity|]. split; [reflexivity|].
    split; [|vm_compute; reflexivity].
    intros [H|[H|H]]; discriminate.
  - exists w'. split; [exact Hrun|exact Hev].
Defined.

Lemma run_raw_task_failed_raises_witness :
  exists w' r,
    _run_raw_task_failed Sample.plain_ti false (IsSystemExit (Some 1))
      (Sample.world_of Sample.run_rows)
    = (Raise (AirflowException TaskFailedDueToSystemExit), w') /\
    rows w' !! ti_key Sample.plain_ti = Some r /\
    state r = Some UP_FOR_RETRY.
Proof.
  assert (Hrow : rows (Sample.world_of Sample.run_rows) !! ti_key Sample.plain_ti
                 = Some (Sample.example_row "extract" (-1) (Some RUNNING)))
    by (vm_compute; reflexivity).
  assert (Hff : forall d, task Sample.plain_ti ≫= dag = Some d -> fail_fast d = false).
  { intros d Hd. change (Some Sample.plain_dag = Some d) in Hd. injection Hd as <-.
    reflexivity. }
  destruct (run_raw_task_failed_raises Sample.plain_ti _ (IsSystemExit (Some 1))
              (Sample.world_of Sample.run_rows)
              (world_of_stored_under_key Sample.run_rows) Hrow Hff I)
    as (w' & r & Hrun & Hr & _ & Hstate).
  exists w', r. split; [exact Hrun|]. split; [exact Hr|exact Hstate].
Defined.

Lemma run_raw_task_failure_not_swallowed_witness :
  exists ti' w',
    _run_raw_task_failed Sample.running_ti false IsAirflowTaskTerminated
      (Sample.world_of [Sample.example_row "extract" (-1) (Some SUCCESS)]) = (OK ti', w') /\
    State_finished (state ti') = true /\ next_method ti' = None.
Proof.
  pose (res := _run_raw_task_failed Sample.running_ti false IsAirflowTaskTerminated
                 (Sample.world_of [Sample.example_row "extract" (-1) (Some SUCCESS)])).
  assert (Hok : exists x, fst res = OK x) by (vm_compute; eexists; reflexivity).
  destruct Hok as (x & Hfst).
  assert (Hrun : _run_raw_task_failed Sample.running_ti false IsAirflowTaskTerminated
                   (Sample.world_of [Sample.example_row "extract" (-1) (Some SUCCESS)])
                 = (OK x, snd res)).
  { rewrite <- Hfst. apply surjective_pairing. }
  exists x, (snd res). split; [exact Hrun|].
  destruct (run_raw_task_failure_not_swallowed _ _ _ _ _ _ Hrun) as (_ & Hfin & Hnm & _).
  split; [exact Hfin|exact Hnm].
Defined.

Lemma execute_task_pushes_only_results_witness :
  let w := Sample.world_of Sample.run_rows in
  let run := _execute_task Sample.list_or_dict 1024 Sample.running_ti Sample.example_task
               (Raise (SystemExit (Some 0))) w in
  fst run = OK VNone /\ xcoms (snd run) = [] /\ task_maps (snd run) = [].
Proof.
  intros w run. split; [reflexivity|].
  destruct (execute_task_pushes_only_results Sample.list_or_dict 1024 Sample.running_ti
              Sample.example_task (Raise (SystemExit (Some 0))) w (snd run) (fst run)
              (surjective_pairing _)) as [Hsame|(t & v & _ & _ & _ & Hrun & _)].
  - exact Hsame.
  - discriminate Hrun.
Defined.

Lemma execute_task_multiple_outputs_witness :
  let w := Sample.world_of Sample.run_rows in
  let result := VDict [(VStr "rows", VInt 3); (VStr "path", VStr "/tmp/out")] in
  _execute_task Sample.list_or_dict 1024 Sample.multiple_outputs_ti
    Sample.multiple_outputs_task (OK result) w
  = (OK result,
     with_xcoms [(("etl", "extract", "run1", -1), "rows", VInt 3);
                 (("etl", "extract", "run1", -1), "path", VStr "/tmp/out");
                 (("etl", "extract", "run1", -1), "return_value", result)] w).
Proof.
  intros w result.
  exact (execute_task_multiple_outputs Sample.list_or_dict 1024 Sample.multiple_outputs_ti
           Sample.multiple_outputs_task Sample.multiple_outputs_task
           [("rows", VInt 3); ("path", VStr "/tmp/out")] w
           eq_refl eq_refl eq_refl eq_refl eq_refl eq_refl).
Defined.

Lemma execute_task_expired_timeout_witness :
  let w := Sample.world_of Sample.run_rows in
  _execute_task Sample.list_or_dict 1024 Sample.resumed_ti Sample.timed_task
    (OK (VInt 7)) w
  = (Raise AirflowTaskTimeout, with_events [OnKill] (with_ticks 1 w)).
Proof.
  intros w.
  assert (Hlate : Sample.t0 + 30 * MICROSECONDS <= clock w (ticks w))
    by (vm_compute; discriminate).
  exact (execute_task_expired_timeout Sample.list_or_dict 1024 Sample.resumed_ti
           Sample.timed_task Sample.timed_task (OK (VInt 7)) (30 * MICROSECONDS) Sample.t0 w
           eq_refl eq_refl eq_refl ltac:(discriminate) eq_refl eq_refl Hlate).
Defined.


Lemma relevant_upstream_map_indexes_in_range_witness :
  get_relevant_upstream_map_indexes (fun _ _ => OK 2) Sample.mapped_ti
    (Sample.operator_in Sample.tg1_inner) (Some 6)
  = OK (IndexRange 3 6).
Proof.
  assert (H0 : 0 < 2) by lia. assert (H1 : 0 < 3) by lia.
  assert (H2 : 0 <= map_index Sample.mapped_ti < 2 * 3) by (cbn; lia).
  exact (proj1 (relevant_upstream_map_indexes_in_range (fun _ _ => OK 2) Sample.mapped_ti
                  (Sample.operator_in Sample.tg1) (Sample.operator_in Sample.tg1_inner)
                  Sample.tg1 2 3 eq_refl eq_refl eq_refl H0 H1 H2)).
Defined.

Lemma sibling_in_same_mapped_group_resolves_to_own_index_witness :
  get_relevant_upstream_map_indexes (fun _ _ => OK 6) Sample.mapped_ti
    (Sample.operator_in Sample.tg1) (Some 6)
  = OK (SingleIndex 4).
Proof.
  assert (H0 : 0 < 6) by lia.
  exact (sibling_in_same_mapped_group_resolves_to_own_index (fun _ _ => OK 6)
           Sample.mapped_ti (Sample.operator_in Sample.tg1) (Sample.operator_in Sample.tg1)
           Sample.example_dag Sample.example_dag Sample.tg1 []
           6 eq_refl eq_refl eq_refl eq_refl eq_refl eq_refl eq_refl eq_refl H0).
Defined.
